(** * BookScape Explorer: a shallow embedding of [BookScape.py]

    The ingestion pipeline of the application (fetch with retry, record
    transformation, SQLite persistence) and its catalogue of analysis
    queries, embedded as Rocq functions, followed by the properties of
    the pipeline that the design document states.

    Conventions.
    - A Python [str] is a sequence of Unicode code points ([pystr]).
    - A value decoded from JSON is a [pyval]; a [dict] is an association
      list whose keys are distinct, in insertion order.
    - Code that can raise returns a [res]; [Raise] carries the exception.
    - A data frame is represented by its rows. What pandas does when it
      builds the frame from the row dictionaries (one dtype per column,
      the cells converted to it; possibly an exception) is a parameter
      (class [Pandas]); the properties of [transform_data] assume of it
      only that a cell comes back as it is, as the nearest float when it
      is an integer, or as NaN when it is [None]. The instance
      [inferring] follows pandas 3 on the columns of the examples.
    - The exceptions of the store are those of pandas 3: an exception of
      [sqlite3] is the cause of a [pandas.errors.DatabaseError].
    - The SQLite file is a finite map from table names to tables. *)

From Stdlib Require Import ZArith NArith QArith.QArith_base List String Ascii Bool Lia.
From Stdlib Require Import Floats.SpecFloat Sorting.Sorted Sorting.Permutation.
From stdpp Require Import base option list strings pretty gmap.

Set Warnings "-register-all".
Local Open Scope Z_scope.

(** ** Python strings and values *)

(** A [str]: its code points. *)
Definition pystr := list N.

(** The [str] written by an ASCII literal of the source. *)
Definition lit (s : string) : pystr :=
  List.map N_of_ascii (list_ascii_of_string s).

(** Values produced by [response.json()]. *)
Inductive pyval : Type :=
| PNone
| PBool (b : bool)
| PInt (z : Z)
| PFloat (f : spec_float)
| PStr (s : pystr)
| PList (l : list pyval)
| PDict (d : list (pystr * pyval)).

Inductive exn : Type :=
| AttributeError
| TypeError
| JSONDecodeError
| ConnectionError
| OverflowError
| InterfaceError
| OperationalError
| IntegrityError
| UnicodeEncodeError
| ProgrammingError
| DatabaseError (cause : exn).

Inductive res (A : Type) : Type :=
| OK (a : A)
| Raise (e : exn).
Arguments OK {A} a.
Arguments Raise {A} e.

Definition res_bind {A B} (m : res A) (k : A -> res B) : res B :=
  match m with
  | OK a => k a
  | Raise e => Raise e
  end.

Notation "'let*' x ':=' m 'in' k" := (res_bind m (fun x => k))
  (at level 10, x name, m at level 100, k at level 200).

Fixpoint res_map {A B} (f : A -> res B) (l : list A) : res (list B) :=
  match l with
  | [] => OK []
  | a :: l' =>
      let* b := f a in
      let* bs := res_map f l' in
      OK (b :: bs)
  end.

(** [d[k]] when present. *)
Fixpoint assoc_get (k : pystr) (d : list (pystr * pyval)) : option pyval :=
  match d with
  | [] => None
  | (k', v) :: d' => if decide (k = k') then Some v else assoc_get k d'
  end.

(** [o.get(k, dflt)]: only a [dict] has the method. *)
Definition py_get (o : pyval) (k : string) (dflt : pyval) : res pyval :=
  match o with
  | PDict d => OK (default dflt (assoc_get (lit k) d))
  | _ => Raise AttributeError
  end.

(** Truth value of an object, as tested by [if] and [or]. *)
Definition py_truthy (v : pyval) : bool :=
  match v with
  | PNone => false
  | PBool b => b
  | PInt z => negb (z =? 0)
  | PFloat (S754_zero _) => false
  | PFloat _ => true
  | PStr s => negb (bool_decide (s = []))
  | PList l => negb (bool_decide (l = []))
  | PDict d => negb (bool_decide (d = []))
  end.

(** The items of a list, which [str.join] requires to be [str]. *)
Fixpoint str_items (l : list pyval) : res (list pystr) :=
  match l with
  | [] => OK []
  | PStr s :: l' => let* ss := str_items l' in OK (s :: ss)
  | _ :: _ => Raise TypeError
  end.

(** Iteration as [str.join] performs it: a list yields its items, a [str]
    its characters, a [dict] its keys; the other values are not iterable. *)
Definition join_items (v : pyval) : res (list pystr) :=
  match v with
  | PList l => str_items l
  | PStr s => OK (List.map (fun c => [c]) s)
  | PDict d => OK (List.map fst d)
  | _ => Raise TypeError
  end.

Fixpoint join (sep : pystr) (l : list pystr) : pystr :=
  match l with
  | [] => []
  | [s] => s
  | s :: l' => s ++ sep ++ join sep l'
  end.

(** [sep.join(v)]. *)
Definition py_join (sep : string) (v : pyval) : res pystr :=
  let* items := join_items v in OK (join (lit sep) items).

(** [s or dflt] on strings. *)
Definition str_or (s : pystr) (dflt : string) : pystr :=
  match s with
  | [] => lit dflt
  | _ => s
  end.

(** The digit property on the ASCII range, where it is '0'..'9'. *)
Definition ascii_digit (c : N) : bool := ((48 <=? c) && (c <=? 57))%N.

(** The table of the Unicode character database that [str.isdigit]
    consults (Numeric_Type Digit or Decimal). Only its ASCII part is
    fixed here. *)
Class Unicode : Type := {
  ucd_digit : N -> bool;
  ucd_digit_ascii : forall c, (c < 128)%N -> ucd_digit c = ascii_digit c
}.

(** [s.isdigit()]: non-empty, and every character is a digit. *)
Definition str_isdigit `{Unicode} (s : pystr) : bool :=
  negb (bool_decide (s = [])) && forallb ucd_digit s.

(** ** Transformer: [transform_data] *)

Record BookRecord : Type := {
  book_id : pyval;
  title : pyval;
  subtitle : pyval;
  authors : pystr;
  description : pyval;
  categories : pystr;
  page_count : pyval;
  language : pyval;
  image_link : pyval;
  average_rating : pyval;
  ratings_count : pyval;
  publisher : pyval;
  published_year : pystr;
  is_ebook : Z;
  saleability : pyval;
  amount_list_price : pyval;
  currency_code_list_price : pyval;
  amount_retail_price : pyval;
  currency_code_retail_price : pyval;
  buy_link : pyval;
  country : pyval
}.

(** Lines 38-41: the year of a [publishedDate] value. *)
Definition published_year_of `{Unicode} (published_date : pyval) : pystr :=
  match published_date with
  | PStr d =>
      if (4 <=? length d)%nat && str_isdigit (firstn 4 d)
      then firstn 4 d
      else lit "Unknown"
  | _ => lit "Unknown"
  end.

(** Body of the loop of [transform_data], lines 33-65, in evaluation order. *)
Definition transform_item `{Unicode} (book : pyval) : res BookRecord :=
  let* volume_info := py_get book "volumeInfo" (PDict []) in
  let* sale_info := py_get book "saleInfo" (PDict []) in
  let* list_price := py_get sale_info "listPrice" (PDict []) in
  let* retail_price := py_get sale_info "retailPrice" (PDict []) in
  let* published_date := py_get volume_info "publishedDate" (PStr (lit "Unknown")) in
  let published_year := published_year_of published_date in
  let* v_book_id := py_get book "id" PNone in
  let* v_title := py_get volume_info "title" (PStr (lit "N/A")) in
  let* v_subtitle := py_get volume_info "subtitle" (PStr (lit "N/A")) in
  let* a := py_get volume_info "authors" (PList [PStr (lit "Unknown Author")]) in
  let* a_joined := py_join ", " a in
  let v_authors := str_or a_joined "Unknown Author" in
  let* v_description :=
    py_get volume_info "description" (PStr (lit "No description available.")) in
  let* c := py_get volume_info "categories" (PList [PStr (lit "N/A")]) in
  let* c_joined := py_join ", " c in
  let v_categories := str_or c_joined "N/A" in
  let* v_page_count := py_get volume_info "pageCount" (PInt 0) in
  let* v_language := py_get volume_info "language" (PStr (lit "Unknown")) in
  let* image_links := py_get volume_info "imageLinks" (PDict []) in
  let* v_image_link := py_get image_links "thumbnail" (PStr []) in
  let* v_average_rating := py_get volume_info "averageRating" (PInt 0) in
  let* v_ratings_count := py_get volume_info "ratingsCount" (PInt 0) in
  let* v_publisher := py_get volume_info "publisher" (PStr (lit "Unknown Publisher")) in
  let* e := py_get sale_info "isEbook" (PBool false) in
  let v_is_ebook := if py_truthy e then 1 else 0 in
  let* v_saleability := py_get sale_info "saleability" (PStr (lit "Not for Sale")) in
  let* v_amount_list := py_get list_price "amount" (PInt 0) in
  let* v_currency_list := py_get list_price "currencyCode" (PStr []) in
  let* v_amount_retail := py_get retail_price "amount" (PInt 0) in
  let* v_currency_retail := py_get retail_price "currencyCode" (PStr []) in
  let* v_buy_link := py_get sale_info "buyLink" (PStr []) in
  let* v_country := py_get sale_info "country" (PStr (lit "N/A")) in
  OK {| book_id := v_book_id;
        title := v_title;
        subtitle := v_subtitle;
        authors := v_authors;
        description := v_description;
        categories := v_categories;
        page_count := v_page_count;
        language := v_language;
        image_link := v_image_link;
        average_rating := v_average_rating;
        ratings_count := v_ratings_count;
        publisher := v_publisher;
        published_year := published_year;
        is_ebook := v_is_ebook;
        saleability := v_saleability;
        amount_list_price := v_amount_list;
        currency_code_list_price := v_currency_list;
        amount_retail_price := v_amount_retail;
        currency_code_retail_price := v_currency_retail;
        buy_link := v_buy_link;
        country := v_country |}.

(** Lines 31-65: the list [data] when the loop ends, one row per item,
    appended in order. *)
Definition transform_rows `{Unicode} (books : list pyval) : res (list BookRecord) :=
  res_map transform_item books.

(** A data frame, by its rows. *)
Definition DataFrame := list BookRecord.

(** [pd.DataFrame(data)]: pandas gives every column one dtype, inferred
    from the cells of all the rows, and converts the cells to it; the
    construction can raise. *)
Class Pandas : Type := {
  data_frame : list BookRecord -> res DataFrame
}.

(** [transform_data]: the rows of the loop, then line 66,
    [return pd.DataFrame(data)]. *)
Definition transform_data `{Unicode} `{Pandas} (books : list pyval) : res DataFrame :=
  let* data := transform_rows books in data_frame data.

(** *** The shape [transform_data] relies on *)

Definition is_dict (v : pyval) : bool :=
  match v with PDict _ => true | _ => false end.

Definition is_str (v : pyval) : bool :=
  match v with PStr _ => true | _ => false end.

Definition is_none (v : pyval) : bool :=
  match v with PNone => true | _ => false end.

(** What [str.join] accepts. *)
Definition joinable (v : pyval) : bool :=
  match v with
  | PList l => forallb is_str l
  | PStr _ | PDict _ => true
  | _ => false
  end.

(** [o.get(k, dflt)] where [o] is a [dict]. *)
Definition field (o : pyval) (k : string) (dflt : pyval) : pyval :=
  match o with
  | PDict d => default dflt (assoc_get (lit k) d)
  | _ => dflt
  end.

(** An item [transform_data] can process: it is an object; [volumeInfo],
    [saleInfo], [imageLinks], [listPrice] and [retailPrice], where present,
    are objects; [authors] and [categories], where present, can be joined. *)
Definition well_shaped (book : pyval) : bool :=
  is_dict book
  && is_dict (field book "volumeInfo" (PDict []))
  && is_dict (field book "saleInfo" (PDict []))
  && joinable (field (field book "volumeInfo" (PDict [])) "authors" (PList []))
  && joinable (field (field book "volumeInfo" (PDict [])) "categories" (PList []))
  && is_dict (field (field book "volumeInfo" (PDict [])) "imageLinks" (PDict []))
  && is_dict (field (field book "saleInfo" (PDict [])) "listPrice" (PDict []))
  && is_dict (field (field book "saleInfo" (PDict [])) "retailPrice" (PDict [])).

(** The value at the end of a path of keys, when every key is present. *)
Fixpoint lookup_path (v : pyval) (path : list string) : option pyval :=
  match path with
  | [] => Some v
  | k :: path' =>
      match v with
      | PDict d =>
          match assoc_get (lit k) d with
          | Some v' => lookup_path v' path'
          | None => None
          end
      | _ => None
      end
  end.

(** [sep.join(v)] where [v] can be joined. *)
Definition joined (sep : string) (v : pyval) : pystr :=
  match join_items v with
  | OK items => join (lit sep) items
  | Raise _ => []
  end.

(** The row built from a well-shaped item. *)
Definition record_of `{Unicode} (book : pyval) : BookRecord :=
  let volume_info := field book "volumeInfo" (PDict []) in
  let sale_info := field book "saleInfo" (PDict []) in
  let list_price := field sale_info "listPrice" (PDict []) in
  let retail_price := field sale_info "retailPrice" (PDict []) in
  {| book_id := field book "id" PNone;
     title := field volume_info "title" (PStr (lit "N/A"));
     subtitle := field volume_info "subtitle" (PStr (lit "N/A"));
     authors :=
       str_or (joined ", " (field volume_info "authors"
                               (PList [PStr (lit "Unknown Author")])))
              "Unknown Author";
     description :=
       field volume_info "description" (PStr (lit "No description available."));
     categories :=
       str_or (joined ", " (field volume_info "categories" (PList [PStr (lit "N/A")])))
              "N/A";
     page_count := field volume_info "pageCount" (PInt 0);
     language := field volume_info "language" (PStr (lit "Unknown"));
     image_link := field (field volume_info "imageLinks" (PDict [])) "thumbnail" (PStr []);
     average_rating := field volume_info "averageRating" (PInt 0);
     ratings_count := field volume_info "ratingsCount" (PInt 0);
     publisher := field volume_info "publisher" (PStr (lit "Unknown Publisher"));
     published_year :=
       published_year_of (field volume_info "publishedDate" (PStr (lit "Unknown")));
     is_ebook := if py_truthy (field sale_info "isEbook" (PBool false)) then 1 else 0;
     saleability := field sale_info "saleability" (PStr (lit "Not for Sale"));
     amount_list_price := field list_price "amount" (PInt 0);
     currency_code_list_price := field list_price "currencyCode" (PStr []);
     amount_retail_price := field retail_price "amount" (PInt 0);
     currency_code_retail_price := field retail_price "currencyCode" (PStr []);
     buy_link := field sale_info "buyLink" (PStr []);
     country := field sale_info "country" (PStr (lit "N/A")) |}.

(** The data model of the design document: each column, the path of its
    source field in a raw item (lines 33-64), and its default. *)
Definition data_model : list (string * list string * pyval) :=
  [ ("book_id", ["id"], PNone);
    ("title", ["volumeInfo"; "title"], PStr (lit "N/A"));
    ("subtitle", ["volumeInfo"; "subtitle"], PStr (lit "N/A"));
    ("authors", ["volumeInfo"; "authors"], PStr (lit "Unknown Author"));
    ("description", ["volumeInfo"; "description"],
       PStr (lit "No description available."));
    ("categories", ["volumeInfo"; "categories"], PStr (lit "N/A"));
    ("page_count", ["volumeInfo"; "pageCount"], PInt 0);
    ("language", ["volumeInfo"; "language"], PStr (lit "Unknown"));
    ("image_link", ["volumeInfo"; "imageLinks"; "thumbnail"], PStr []);
    ("average_rating", ["volumeInfo"; "averageRating"], PInt 0);
    ("ratings_count", ["volumeInfo"; "ratingsCount"], PInt 0);
    ("publisher", ["volumeInfo"; "publisher"], PStr (lit "Unknown Publisher"));
    ("published_year", ["volumeInfo"; "publishedDate"], PStr (lit "Unknown"));
    ("is_ebook", ["saleInfo"; "isEbook"], PInt 0);
    ("saleability", ["saleInfo"; "saleability"], PStr (lit "Not for Sale"));
    ("amount_list_price", ["saleInfo"; "listPrice"; "amount"], PInt 0);
    ("currency_code_list_price", ["saleInfo"; "listPrice"; "currencyCode"], PStr []);
    ("amount_retail_price", ["saleInfo"; "retailPrice"; "amount"], PInt 0);
    ("currency_code_retail_price", ["saleInfo"; "retailPrice"; "currencyCode"], PStr []);
    ("buy_link", ["saleInfo"; "buyLink"], PStr []);
    ("country", ["saleInfo"; "country"], PStr (lit "N/A")) ]%string.

(** The ASCII table alone: no other character counts as a digit. *)
Definition ascii_only : Unicode :=
  {| ucd_digit := fun c => (c <? 128)%N && ascii_digit c;
     ucd_digit_ascii := fun c (H : (c < 128)%N) =>
       eq_ind_r (x := true) (fun b => b && ascii_digit c = ascii_digit c) eq_refl
                (proj2 (N.ltb_lt c 128) H) |}.

(** ** Fetcher: [fetch_books] *)

(** What [requests.get] returns: the status, and what [response.json()]
    gives on it. *)
Record response : Type := {
  status_code : Z;
  json : res pyval
}.

(** The effects of the fetcher that can be observed from outside. *)
Inductive event : Type :=
| HttpGet (q : pystr) (max_results : Z)
| StWarning (msg : string)
| Sleep (seconds : Z)
| StError (msg : string).

(** The remote service answers the [n]-th request of a run, or the
    transport fails. *)
Definition service := nat -> res response.

Record world : Type := {
  sent : nat;
  trace : list event
}.

(** Computations that perform effects and may raise. *)
Definition io (A : Type) : Type := world -> res A * world.

Definition io_ret {A} (a : A) : io A := fun w => (OK a, w).

Definition io_bind {A B} (m : io A) (k : A -> io B) : io B :=
  fun w =>
    match m w with
    | (OK a, w') => k a w'
    | (Raise e, w') => (Raise e, w')
    end.

Definition io_lift {A} (r : res A) : io A := fun w => (r, w).

Definition emit (e : event) : io unit :=
  fun w => (OK tt, {| sent := sent w; trace := trace w ++ [e] |}).

Notation "'do' x '<-' m ';' k" := (io_bind m (fun x => k))
  (at level 10, x name, m at level 100, k at level 200).
Notation "m ';;' k" := (io_bind m (fun _ => k))
  (at level 100, k at level 200, right associativity).

Definition requests_get (srv : service) (q : pystr) (max_results : Z) : io response :=
  fun w =>
    (srv (sent w),
     {| sent := S (sent w); trace := trace w ++ [HttpGet q max_results] |}).

Definition st_warning (msg : string) : io unit := emit (StWarning msg).
Definition st_error (msg : string) : io unit := emit (StError msg).
Definition time_sleep (seconds : Z) : io unit := emit (Sleep seconds).

(** The loop [for _ in range(retries)] of lines 16-26, with [retries]
    iterations left. *)
Fixpoint fetch_loop (srv : service) (q : pystr) (max_results : Z) (retries : nat)
  : io pyval :=
  match retries with
  | O => io_ret (PList [])
  | S retries' =>
      do response <- requests_get srv q max_results;
      if status_code response =? 200 then
        do body <- io_lift (json response);
        io_lift (py_get body "items" (PList []))
      else if status_code response =? 403 then
        st_warning "API request limit reached. Retrying in 10 seconds..." ;;
        time_sleep 10 ;;
        fetch_loop srv q max_results retries'
      else
        st_error ("Error fetching data: " +:+ pretty (status_code response)) ;;
        io_ret (PList [])
  end.

Definition fetch_books (srv : service) (q : pystr) (max_results : Z) : io pyval :=
  fetch_loop srv q max_results 3.

(** Observations on a trace. *)
Definition is_request (e : event) : bool :=
  match e with HttpGet _ _ => true | _ => false end.

Definition attempts (t : list event) : nat := length (List.filter is_request t).

Definition slept (t : list event) : Z :=
  fold_right (fun e acc => match e with Sleep s => s + acc | _ => acc end) 0 t.

Definition errors_reported (t : list event) : nat :=
  length (List.filter (fun e => match e with StError _ => true | _ => false end) t).

Definition start : world := {| sent := O; trace := [] |}.

(** How many of the [n] requests starting with the [k]-th are answered
    with status 403. *)
Fixpoint rate_limited (srv : service) (k n : nat) : nat :=
  match n with
  | O => O
  | S n' =>
      let hit :=
        match srv k with
        | OK r => if status_code r =? 403 then 1%nat else 0%nat
        | Raise _ => 0%nat
        end in
      (hit + rate_limited srv (S k) n')%nat
  end.

(** A service that is rate limiting, and one that is failing. *)
Definition always (status : Z) : service :=
  fun _ => OK {| status_code := status; json := Raise JSONDecodeError |}.

(** ** Store: the SQLite file *)

(** The storage classes of SQLite. *)
Inductive sqlval : Type :=
| SNull
| SInteger (z : Z)
| SReal (f : spec_float)
| SText (s : pystr)
| SBlob (b : list N).

Inductive sqltype : Type := TEXT | INTEGER | REAL.

Record column : Type := {
  col_name : string;
  col_type : sqltype;
  col_pk : bool
}.

Record table : Type := {
  tbl_schema : list column;
  tbl_rows : list (list sqlval)
}.

Abbreviation database := (gmap string table).

(** Numbers as SQLite compares them: an integer and a double by their
    exact values. *)
Inductive number : Type :=
| NegInf
| Finite (q : Q)
| PosInf.

Definition float_value (s : bool) (m : positive) (e : Z) : Q :=
  let sm := if s then Z.neg m else Z.pos m in
  if 0 <=? e then Qmake (sm * 2 ^ e) 1 else Qmake sm (2 ^ Z.to_pos (- e)).

(** A NaN never reaches a table (it is stored as NULL); it is placed
    below the numbers so that the comparison stays total. *)
Definition number_of_float (f : spec_float) : number :=
  match f with
  | S754_zero _ => Finite (Qmake 0 1)
  | S754_infinity s => if s then NegInf else PosInf
  | S754_nan => NegInf
  | S754_finite s m e => Finite (float_value s m e)
  end.

Definition number_compare (a b : number) : comparison :=
  match a, b with
  | NegInf, NegInf => Eq
  | NegInf, _ => Lt
  | _, NegInf => Gt
  | PosInf, PosInf => Eq
  | PosInf, _ => Gt
  | _, PosInf => Lt
  | Finite p, Finite q => Qcompare p q
  end.

Fixpoint lex_compare (a b : list N) : comparison :=
  match a, b with
  | [], [] => Eq
  | [], _ :: _ => Lt
  | _ :: _, [] => Gt
  | x :: a', y :: b' =>
      match N.compare x y with
      | Eq => lex_compare a' b'
      | c => c
      end
  end.

(** NULL, then numbers, then text, then blobs. *)
Definition storage_rank (v : sqlval) : Z :=
  match v with
  | SNull => 0
  | SInteger _ | SReal _ => 1
  | SText _ => 2
  | SBlob _ => 3
  end.

Definition sql_number (v : sqlval) : number :=
  match v with
  | SInteger z => Finite (Qmake z 1)
  | SReal f => number_of_float f
  | _ => NegInf
  end.

(** The order of [ORDER BY] and of index keys. Text is compared by the
    BINARY collation: the order of the UTF-8 bytes, which is the order
    of the code points. *)
Definition sql_compare (a b : sqlval) : comparison :=
  match a, b with
  | (SInteger _ | SReal _), (SInteger _ | SReal _) =>
      number_compare (sql_number a) (sql_number b)
  | SText s, SText t => lex_compare s t
  | SBlob s, SBlob t => lex_compare s t
  | _, _ => Z.compare (storage_rank a) (storage_rank b)
  end.

Definition sql_leb (a b : sqlval) : bool :=
  match sql_compare a b with
  | Gt => false
  | _ => true
  end.

(** The schema of lines 74-96. *)
Definition books_schema : list column :=
  [ {| col_name := "book_id"; col_type := TEXT; col_pk := true |};
    {| col_name := "title"; col_type := TEXT; col_pk := false |};
    {| col_name := "subtitle"; col_type := TEXT; col_pk := false |};
    {| col_name := "authors"; col_type := TEXT; col_pk := false |};
    {| col_name := "description"; col_type := TEXT; col_pk := false |};
    {| col_name := "categories"; col_type := TEXT; col_pk := false |};
    {| col_name := "page_count"; col_type := INTEGER; col_pk := false |};
    {| col_name := "language"; col_type := TEXT; col_pk := false |};
    {| col_name := "image_link"; col_type := TEXT; col_pk := false |};
    {| col_name := "average_rating"; col_type := REAL; col_pk := false |};
    {| col_name := "ratings_count"; col_type := INTEGER; col_pk := false |};
    {| col_name := "publisher"; col_type := TEXT; col_pk := false |};
    {| col_name := "published_year"; col_type := TEXT; col_pk := false |};
    {| col_name := "is_ebook"; col_type := INTEGER; col_pk := false |};
    {| col_name := "saleability"; col_type := TEXT; col_pk := false |};
    {| col_name := "amount_list_price"; col_type := REAL; col_pk := false |};
    {| col_name := "currency_code_list_price"; col_type := TEXT; col_pk := false |};
    {| col_name := "amount_retail_price"; col_type := REAL; col_pk := false |};
    {| col_name := "currency_code_retail_price"; col_type := TEXT; col_pk := false |};
    {| col_name := "buy_link"; col_type := TEXT; col_pk := false |};
    {| col_name := "country"; col_type := TEXT; col_pk := false |} ].

(** [CREATE TABLE [IF NOT EXISTS] name (...)]. *)
Definition create_table (if_not_exists : bool) (name : string)
    (schema : list column) (db : database) : res database :=
  match db !! name with
  | Some _ => if if_not_exists then OK db else Raise OperationalError
  | None => OK (<[name := {| tbl_schema := schema; tbl_rows := [] |}]> db)
  end.

(** Lines 70-99, on a file SQLite can open. Table names are looked up as
    they are written, where SQLite ignores their case: a file is
    represented with the names of its tables in lower case. *)
Definition initialize_database (db : database) : res database :=
  create_table true "books" books_schema db.

(** The names of the primary-key columns of a schema. *)
Definition primary_key (schema : list column) : list string :=
  List.map col_name (List.filter col_pk schema).

(** The parts of pandas and SQLite that are kept abstract: the conversion
    SQLite applies to a value stored in a column of a declared type, and
    the table [to_sql] creates from a frame when there is none. *)
Class Backend : Type := {
  affinity : sqltype -> sqlval -> sqlval;
  create_from_frame : DataFrame -> res table
}.

(** The row dictionary of lines 43-65: column names and values. *)
Definition record_cells (r : BookRecord) : list (string * pyval) :=
  [ ("book_id", book_id r);
    ("title", title r);
    ("subtitle", subtitle r);
    ("authors", PStr (authors r));
    ("description", description r);
    ("categories", PStr (categories r));
    ("page_count", page_count r);
    ("language", language r);
    ("image_link", image_link r);
    ("average_rating", average_rating r);
    ("ratings_count", ratings_count r);
    ("publisher", publisher r);
    ("published_year", PStr (published_year r));
    ("is_ebook", PInt (is_ebook r));
    ("saleability", saleability r);
    ("amount_list_price", amount_list_price r);
    ("currency_code_list_price", currency_code_list_price r);
    ("amount_retail_price", amount_retail_price r);
    ("currency_code_retail_price", currency_code_retail_price r);
    ("buy_link", buy_link r);
    ("country", country r) ]%string.

Definition is_surrogate (c : N) : bool := ((55296 <=? c) && (c <=? 57343))%N.

(** *** The frame pandas builds from the rows *)

(** The cells of a row, in the order of the columns. *)
Definition row_values (r : BookRecord) : list pyval := List.map snd (record_cells r).

(** The float nearest to an integer, ties to even: the conversion of a
    Python [int] to float64. *)
Definition float_of_int (z : Z) : spec_float := binary_normalize 53 1024 z 0 false.

(** What the dtype of its column makes of a cell: the cell is kept, or
    it is an integer and becomes a float, or it is [None] and becomes
    NaN. *)
Definition coerced (v v' : pyval) : Prop :=
  v' = v \/
  (exists z, v = PInt z /\ v' = PFloat (float_of_int z)) \/
  (v = PNone /\ v' = PFloat S754_nan).

Definition row_coerced (r r' : BookRecord) : Prop :=
  Forall2 coerced (row_values r) (row_values r').

(** What is assumed of pandas: a frame has the rows it was built from,
    in order, each cell kept or converted as above. *)
Definition coerces_cells (P : Pandas) : Prop :=
  forall data df, @data_frame P data = OK df -> Forall2 row_coerced data df.

(** An instance for the examples, after the inference of pandas 3. A
    column of integers of 64 bits, floats and [None] that holds a number,
    and a float or a [None], is float64. A column of strings and missing
    values that holds a string is a string column: each string is
    encoded, which fails on a lone surrogate, and [None] becomes NaN. The
    instance keeps the cells of any other column; pandas has further
    cases for integers beyond 64 bits, which no example meets. The
    properties of [transform_data] are proved for every instance that
    satisfies [coerces_cells], not for this one alone. *)
Definition is_int (v : pyval) : bool :=
  match v with PInt _ => true | _ => false end.

Definition is_float (v : pyval) : bool :=
  match v with PFloat _ => true | _ => false end.

Definition float_cell (v : pyval) : bool :=
  match v with
  | PInt z => (- 2 ^ 63 <=? z) && (z <? 2 ^ 63)
  | PFloat _ | PNone => true
  | _ => false
  end.

Definition float_column (cells : list pyval) : bool :=
  forallb float_cell cells
  && existsb (fun v => is_int v || is_float v) cells
  && existsb (fun v => is_float v || is_none v) cells.

Definition to_float (v : pyval) : pyval :=
  match v with
  | PInt z => PFloat (float_of_int z)
  | PNone => PFloat S754_nan
  | _ => v
  end.

Definition str_cell (v : pyval) : bool :=
  match v with
  | PStr _ | PNone | PFloat S754_nan => true
  | _ => false
  end.

Definition str_column (cells : list pyval) : bool :=
  forallb str_cell cells && existsb is_str cells.

Definition encodable (v : pyval) : bool :=
  match v with
  | PStr s => negb (existsb is_surrogate s)
  | _ => true
  end.

Definition to_str (v : pyval) : pyval :=
  match v with
  | PNone => PFloat S754_nan
  | _ => v
  end.

Definition infer_column (cells : list pyval) : res (list pyval) :=
  if float_column cells then OK (List.map to_float cells)
  else if str_column cells then
    if forallb encodable cells then OK (List.map to_str cells)
    else Raise UnicodeEncodeError
  else OK cells.

Definition column_at (j : nat) (rows : list (list pyval)) : list pyval :=
  List.map (fun row => nth j row PNone) rows.

Definition infer_at (j : nat) (rows : list (list pyval)) : res (list (list pyval)) :=
  let* cells := infer_column (column_at j rows) in
  OK (zip_with (fun row v => <[j := v]> row) rows cells).

Fixpoint infer_columns (js : list nat) (rows : list (list pyval))
  : res (list (list pyval)) :=
  match js with
  | [] => OK rows
  | j :: js' => let* rows' := infer_at j rows in infer_columns js' rows'
  end.

(** The row with the given cells. *)
Definition of_values (vs : list pyval) : BookRecord :=
  let at_ j := nth j vs PNone in
  let str_at j := match nth j vs PNone with PStr s => s | _ => [] end in
  let int_at j := match nth j vs PNone with PInt z => z | _ => 0 end in
  {| book_id := at_ 0%nat;
     title := at_ 1%nat;
     subtitle := at_ 2%nat;
     authors := str_at 3%nat;
     description := at_ 4%nat;
     categories := str_at 5%nat;
     page_count := at_ 6%nat;
     language := at_ 7%nat;
     image_link := at_ 8%nat;
     average_rating := at_ 9%nat;
     ratings_count := at_ 10%nat;
     publisher := at_ 11%nat;
     published_year := str_at 12%nat;
     is_ebook := int_at 13%nat;
     saleability := at_ 14%nat;
     amount_list_price := at_ 15%nat;
     currency_code_list_price := at_ 16%nat;
     amount_retail_price := at_ 17%nat;
     currency_code_retail_price := at_ 18%nat;
     buy_link := at_ 19%nat;
     country := at_ 20%nat |}.

Definition inferring : Pandas :=
  {| data_frame := fun data =>
       let* rows := infer_columns (seq 0 21) (List.map row_values data) in
       OK (List.map of_values rows) |}.

(** *** Appending the frame to the table *)

(** Binding a Python object as a statement parameter. A value of an
    unsupported type is refused by [sqlite3] with ProgrammingError; an
    integer that is too large and a string that cannot be encoded are
    refused by Python itself. *)
Definition bind_param (v : pyval) : res sqlval :=
  match v with
  | PNone => OK SNull
  | PBool b => OK (SInteger (if b then 1 else 0))
  | PInt z =>
      if (- 2 ^ 63 <=? z) && (z <? 2 ^ 63) then OK (SInteger z)
      else Raise OverflowError
  | PFloat S754_nan => OK SNull
  | PFloat f => OK (SReal f)
  | PStr s => if existsb is_surrogate s then Raise UnicodeEncodeError else OK (SText s)
  | PList _ | PDict _ => Raise ProgrammingError
  end.

Definition bind_cells (cells : list (string * pyval)) : res (list (string * sqlval)) :=
  res_map (fun c => let* x := bind_param (snd c) in OK (fst c, x)) cells.

Fixpoint cell_of (name : string) (cells : list (string * sqlval)) : sqlval :=
  match cells with
  | [] => SNull
  | (n, v) :: cells' => if decide (n = name) then v else cell_of name cells'
  end.

(** The row an [INSERT INTO t (names) VALUES (?, ...)] stores. *)
Definition stored_row `{Backend} (schema : list column)
    (cells : list (string * sqlval)) : list sqlval :=
  List.map (fun c => affinity (col_type c) (cell_of (col_name c) cells)) schema.

Fixpoint pk_position (schema : list column) : option nat :=
  match schema with
  | [] => None
  | c :: schema' => if col_pk c then Some O else S <$> pk_position schema'
  end.

Definition pk_value (schema : list column) (row : list sqlval) : sqlval :=
  match pk_position schema with
  | Some i => nth i row SNull
  | None => SNull
  end.

(** Two keys clash in the unique index; NULL clashes with nothing. *)
Definition same_key (a b : sqlval) : bool :=
  match a, b with
  | SNull, _ | _, SNull => false
  | _, _ => match sql_compare a b with Eq => true | _ => false end
  end.

Definition collides (schema : list column) (rows : list (list sqlval))
    (row : list sqlval) : bool :=
  existsb (fun r => same_key (pk_value schema r) (pk_value schema row)) rows.

Definition known_columns (schema : list column) (r : BookRecord) : bool :=
  forallb (fun c => bool_decide (fst c ∈ List.map col_name schema)) (record_cells r).

(** The exceptions of [sqlite3] (the subclasses of [sqlite3.Error]). *)
Definition is_sqlite_error (e : exn) : bool :=
  match e with
  | OperationalError | IntegrityError | InterfaceError | ProgrammingError => true
  | _ => false
  end.

(** pandas hands on an exception of [sqlite3] as the cause of a
    [pandas.errors.DatabaseError], and any other exception as it is. *)
Definition pandas_error (e : exn) : exn :=
  if is_sqlite_error e then DatabaseError e else e.

Definition sql_step {A} (r : res A) : res A :=
  match r with
  | OK a => OK a
  | Raise e => Raise (pandas_error e)
  end.

(** The inserts of one [to_sql], row after row. *)
Fixpoint insert_frame `{Backend} (schema : list column) (rows : list (list sqlval))
    (df : DataFrame) : res (list (list sqlval)) :=
  match df with
  | [] => OK rows
  | r :: df' =>
      if negb (known_columns schema r) then sql_step (Raise OperationalError) else
      let* cells := sql_step (bind_cells (record_cells r)) in
      let row := stored_row schema cells in
      if collides schema rows row then sql_step (Raise IntegrityError)
      else insert_frame schema (rows ++ [row]) df'
  end.

(** Lines 103-104: [df.to_sql("books", conn, if_exists="append", index=False)].
    The inserts run in one transaction: an exception leaves the file as
    it was. *)
Definition save_to_database `{Backend} (db : database) (df : DataFrame)
  : res database :=
  match db !! "books" with
  | None => let* t := create_from_frame df in OK (<["books" := t]> db)
  | Some t =>
      let* rows := insert_frame (tbl_schema t) (tbl_rows t) df in
      OK (<["books" := {| tbl_schema := tbl_schema t; tbl_rows := rows |}]> db)
  end.

(** ** QueryCatalog *)

(** The dictionary [queries] of lines 139-160, in source order. *)
Definition queries : list (string * string) :=
  [ ("Availability of eBooks vs Physical Books",
     "SELECT CASE WHEN is_ebook = 1 THEN 'eBook' ELSE 'Physical Book' END AS book_type, COUNT(*) AS count FROM books GROUP BY is_ebook");
    ("Publisher with Most Books Published",
     "SELECT publisher, COUNT(*) AS count FROM books GROUP BY publisher ORDER BY count DESC LIMIT 1");
    ("Publisher with Highest Average Rating",
     "SELECT publisher, AVG(average_rating) AS avg_rating FROM books GROUP BY publisher ORDER BY avg_rating DESC LIMIT 1");
    ("Top 5 Most Expensive Books",
     "SELECT title, amount_retail_price FROM books ORDER BY amount_retail_price DESC LIMIT 5");
    ("Books Published After 2010 with at Least 500 Pages",
     "SELECT title, page_count FROM books WHERE published_year > '2010' AND page_count >= 500");
    ("Books with Discounts Greater than 20%",
     "SELECT title, amount_list_price, amount_retail_price FROM books WHERE (amount_list_price - amount_retail_price) / amount_list_price > 0.2");
    ("Top 3 Authors with Most Books",
     "SELECT authors, COUNT(*) AS book_count FROM books GROUP BY authors ORDER BY book_count DESC LIMIT 3");
    ("Books with More than 3 Authors",
     "SELECT title, authors FROM books WHERE LENGTH(authors) - LENGTH(REPLACE(authors, ',', '')) + 1 > 3");
    ("Books Published in the Last 5 Years",
     "SELECT title, published_year FROM books WHERE published_year >= strftime('%Y', 'now') - 5");
    ("Top 3 Most Popular Books by Rating",
     "SELECT title, average_rating FROM books ORDER BY average_rating DESC LIMIT 3");
    ("Top 5 Most Expensive eBooks",
     "SELECT title, amount_retail_price FROM books WHERE is_ebook = 1 ORDER BY amount_retail_price DESC LIMIT 5");
    ("Top 5 Books by Ratings Count",
     "SELECT title, ratings_count FROM books ORDER BY ratings_count DESC LIMIT 5");
    ("Books with Missing Descriptions",
     "SELECT title FROM books WHERE description = 'No description available.'");
    ("Books with Missing Images",
     "SELECT title FROM books WHERE image_link = ''");
    ("Books with a Rating Below 3",
     "SELECT title FROM books WHERE average_rating < 3");
    ("Books by Publisher with the Most Ratings",
     "SELECT publisher, SUM(ratings_count) FROM books GROUP BY publisher ORDER BY SUM(ratings_count) DESC LIMIT 1");
    ("Books Over 1000 Pages",
     "SELECT title, page_count FROM books WHERE page_count > 1000");
    ("Top 5 Books by Category",
     "SELECT categories, COUNT(*) FROM books GROUP BY categories ORDER BY COUNT(*) DESC LIMIT 5");
    ("Top 3 Publishers with the Most eBooks",
     "SELECT publisher, COUNT(*) FROM books WHERE is_ebook = 1 GROUP BY publisher ORDER BY COUNT(*) DESC LIMIT 3");
    ("Most Expensive Books by Publisher",
     "SELECT publisher, MAX(amount_retail_price) FROM books GROUP BY publisher ORDER BY MAX(amount_retail_price) DESC LIMIT 1")
  ]%string.

(** [queries[name]]. *)
Fixpoint catalog_get (name : string) (cat : list (string * string)) : option string :=
  match cat with
  | [] => None
  | (n, q) :: cat' => if decide (n = name) then Some q else catalog_get name cat'
  end.

(** A decimal numeral. *)
Fixpoint parse_digits (s : string) (acc : nat) : option nat :=
  match s with
  | EmptyString => Some acc
  | String c s' =>
      match Ascii.is_nat c with
      | Some d => parse_digits s' (10 * acc + d)%nat
      | None => None
      end
  end.

Definition parse_nat (s : string) : option nat :=
  match s with
  | EmptyString => None
  | _ => parse_digits s O
  end.

(** The N announced by a name of the form "Top N ...". *)
Definition top_n (name : string) : option nat :=
  match String.words name with
  | w :: n :: _ => if decide (w = "Top"%string) then parse_nat n else None
  | _ => None
  end.

(** The N of a trailing [LIMIT N] clause of a statement. *)
Definition limit_clause (q : string) : option nat :=
  match List.rev (String.words q) with
  | n :: kw :: _ => if decide (kw = "LIMIT"%string) then parse_nat n else None
  | _ => None
  end.

(** A statement that only reads. *)
Definition is_select (q : string) : bool :=
  match String.words q with
  | w :: _ => bool_decide (w = "SELECT"%string)
  | [] => false
  end.

(** The statements given a semantics here:
    [SELECT c1, ..., ck FROM t [ORDER BY c [ASC|DESC]] [LIMIT n]]. *)
Record select : Type := {
  sel_columns : list string;
  sel_table : string;
  sel_order : option (string * bool);
  sel_limit : option nat
}.

Definition strip_comma (w : string) : string :=
  match String.rev w with
  | String c r => if decide (c = ","%char) then String.rev r else w
  | EmptyString => w
  end.

Definition is_keyword (w : string) : bool :=
  bool_decide (w ∈ ["SELECT"; "FROM"; "WHERE"; "GROUP"; "ORDER"; "BY";
                    "LIMIT"; "ASC"; "DESC"; "AS"; "CASE"; "AND"; "OR"]%string).

(** A column name: letters, digits and underscores, not a keyword. *)
Definition is_ident_char (c : ascii) : bool :=
  let n := nat_of_ascii c in
  ((97 <=? n) && (n <=? 122) || (65 <=? n) && (n <=? 90)
   || (48 <=? n) && (n <=? 57) || (n =? 95))%nat.

Definition is_ident (w : string) : bool :=
  negb (bool_decide (w = EmptyString))
  && forallb is_ident_char (list_ascii_of_string w)
  && negb (is_keyword w).

(** The column list up to [FROM]; every item but the last ends in a comma. *)
Fixpoint parse_columns (ws : list string) : option (list string * list string) :=
  match ws with
  | c :: rest =>
      match rest with
      | kw :: rest' =>
          if decide (kw = "FROM"%string) then
            if is_ident c then Some ([c], rest') else None
          else
            if is_ident (strip_comma c) && negb (bool_decide (strip_comma c = c)) then
              match parse_columns rest with
              | Some (cs, tl) => Some (strip_comma c :: cs, tl)
              | None => None
              end
            else None
      | [] => None
      end
  | [] => None
  end.

Definition parse_limit (ws : list string) : option (option nat) :=
  match ws with
  | [] => Some None
  | [kw; n] =>
      if decide (kw = "LIMIT"%string) then
        match parse_nat n with Some k => Some (Some k) | None => None end
      else None
  | _ => None
  end.

Definition parse_order (ws : list string)
  : option (option (string * bool) * list string) :=
  match ws with
  | o :: b :: c :: rest =>
      if decide (o = "ORDER"%string) then
        if bool_decide (b = "BY"%string) && is_ident c then
          match rest with
          | d :: rest' =>
              if decide (d = "DESC"%string) then Some (Some (c, true), rest')
              else if decide (d = "ASC"%string) then Some (Some (c, false), rest')
              else Some (Some (c, false), rest)
          | [] => Some (Some (c, false), [])
          end
        else None
      else Some (None, ws)
  | _ => Some (None, ws)
  end.

Definition parse_words (words : list string) : option select :=
  match words with
  | kw :: ws =>
      if decide (kw = "SELECT"%string) then
        match parse_columns ws with
        | Some (cols, t :: rest) =>
            if is_ident t then
              match parse_order rest with
              | Some (ord, rest') =>
                  match parse_limit rest' with
                  | Some lim =>
                      Some {| sel_columns := cols; sel_table := t;
                              sel_order := ord; sel_limit := lim |}
                  | None => None
                  end
              | None => None
              end
            else None
        | _ => None
        end
      else None
  | [] => None
  end.

Definition parse_select (q : string) : option select :=
  parse_words (String.words q).

Fixpoint col_index (schema : list column) (name : string) : option nat :=
  match schema with
  | [] => None
  | c :: schema' =>
      if decide (col_name c = name) then Some O else S <$> col_index schema' name
  end.

(** Rows in the order of [ORDER BY] on column [i]: a stable insertion
    sort by the order of the stored values, reversed for [DESC]. *)
Definition row_leb (i : nat) (descending : bool) (r1 r2 : list sqlval) : bool :=
  if descending then sql_leb (nth i r2 SNull) (nth i r1 SNull)
  else sql_leb (nth i r1 SNull) (nth i r2 SNull).

Fixpoint insert_sorted (leb : list sqlval -> list sqlval -> bool)
    (r : list sqlval) (rows : list (list sqlval)) : list (list sqlval) :=
  match rows with
  | [] => [r]
  | r' :: rows' =>
      if leb r r' then r :: rows else r' :: insert_sorted leb r rows'
  end.

Definition order_rows (leb : list sqlval -> list sqlval -> bool)
    (rows : list (list sqlval)) : list (list sqlval) :=
  fold_right (insert_sorted leb) [] rows.

Record result_set : Type := {
  rs_columns : list string;
  rs_rows : list (list sqlval)
}.

Definition exec_select (s : select) (db : database) : res result_set :=
  match db !! sel_table s with
  | None => sql_step (Raise OperationalError)
  | Some t =>
      let find c :=
        match col_index (tbl_schema t) c with
        | Some i => OK i
        | None => sql_step (Raise OperationalError)
        end in
      let* idxs := res_map find (sel_columns s) in
      let* ordered :=
        match sel_order s with
        | None => OK (tbl_rows t)
        | Some (c, descending) =>
            let* i := find c in OK (order_rows (row_leb i descending) (tbl_rows t))
        end in
      let limited :=
        match sel_limit s with
        | Some n => firstn n ordered
        | None => ordered
        end in
      OK {| rs_columns := sel_columns s;
            rs_rows := List.map (fun r => List.map (fun i => nth i r SNull) idxs) limited |}
  end.

(** *** Conditions and counts

    Two more forms of the catalogue are given a semantics: a statement
    of the form above with a condition [WHERE c = n] on a numeral before
    its [ORDER BY], and the number of rows of each group, that is
    [SELECT c, count [AS a] FROM t [WHERE d = n] GROUP BY c ORDER BY
    (a | count) [ASC | DESC] [LIMIT n]], where count is the count of all
    rows as SQL writes it. *)

Record condition : Type := {
  cond_column : string;
  cond_value : nat
}.

(** The words of a statement without its clause [WHERE c = n], and the
    clause. *)
Fixpoint take_where (ws : list string) : option (list string * condition) :=
  match ws with
  | [] => None
  | w :: ws' =>
      if decide (w = "WHERE"%string) then
        match ws' with
        | c :: eq :: n :: rest =>
            if is_ident c && bool_decide (eq = "="%string) then
              match parse_nat n with
              | Some k => Some (rest, {| cond_column := c; cond_value := k |})
              | None => None
              end
            else None
        | _ => None
        end
      else
        match take_where ws' with
        | Some (rest, c) => Some (w :: rest, c)
        | None => None
        end
  end.

Record counted : Type := {
  cnt_key : string;
  cnt_header : string;
  cnt_table : string;
  cnt_where : option condition;
  cnt_descending : bool;
  cnt_limit : option nat
}.

(** The name of the count in the result: the alias, or the expression
    as it is written. *)
Definition parse_alias (ws : list string) : string * list string :=
  match ws with
  | a :: h :: rest =>
      if bool_decide (a = "AS"%string) && is_ident h then (h, rest)
      else ("COUNT(*)"%string, ws)
  | _ => ("COUNT(*)"%string, ws)
  end.

Definition parse_direction (ws : list string) : bool * list string :=
  match ws with
  | d :: rest =>
      if decide (d = "DESC"%string) then (true, rest)
      else if decide (d = "ASC"%string) then (false, rest)
      else (false, ws)
  | [] => (false, [])
  end.

Definition parse_counted (ws : list string) (c : option condition) : option counted :=
  match ws with
  | sel :: k :: cnt :: rest =>
      if bool_decide (sel = "SELECT"%string) && bool_decide (cnt = "COUNT(*)"%string)
         && is_ident (strip_comma k) && negb (bool_decide (strip_comma k = k))
      then
        let (header, rest1) := parse_alias rest in
        match rest1 with
        | f :: t :: g :: b :: k' :: o :: b' :: h :: rest2 =>
            if bool_decide (f = "FROM"%string) && is_ident t
               && bool_decide (g = "GROUP"%string) && bool_decide (b = "BY"%string)
               && bool_decide (k' = strip_comma k)
               && bool_decide (o = "ORDER"%string) && bool_decide (b' = "BY"%string)
               && bool_decide (h = header)
            then
              let (desc, rest3) := parse_direction rest2 in
              match parse_limit rest3 with
              | Some lim =>
                  Some {| cnt_key := strip_comma k; cnt_header := header;
                          cnt_table := t; cnt_where := c;
                          cnt_descending := desc; cnt_limit := lim |}
              | None => None
              end
            else None
        | _ => None
        end
      else None
  | _ => None
  end.

Inductive statement : Type :=
| Plain (s : select)
| Filtered (s : select) (c : condition)
| Counted (g : counted).

Definition parse_statement (q : string) : option statement :=
  match parse_select q with
  | Some s => Some (Plain s)
  | None =>
      match take_where (String.words q) with
      | Some (ws, c) =>
          match parse_words ws with
          | Some s => Some (Filtered s c)
          | None => option_map Counted (parse_counted ws (Some c))
          end
      | None => option_map Counted (parse_counted (String.words q) None)
      end
  end.

(** The integer literal of a condition, as it is compared with a column:
    as text when the column is declared TEXT, as an integer otherwise. *)
Definition literal (ty : sqltype) (n : nat) : sqlval :=
  match ty with
  | TEXT => SText (lit (pretty n))
  | _ => SInteger (Z.of_nat n)
  end.

(** The rows of a table that satisfy a condition; [=] is never true of
    NULL. *)
Definition select_where (c : option condition) (t : table) : res (list (list sqlval)) :=
  match c with
  | None => OK (tbl_rows t)
  | Some c =>
      match col_index (tbl_schema t) (cond_column c) with
      | None => sql_step (Raise OperationalError)
      | Some i =>
          let ty := nth i (List.map col_type (tbl_schema t)) TEXT in
          OK (List.filter
                (fun r => same_key (nth i r SNull) (literal ty (cond_value c)))
                (tbl_rows t))
      end
  end.

Definition exec_filtered (s : select) (c : condition) (db : database) : res result_set :=
  match db !! sel_table s with
  | None => sql_step (Raise OperationalError)
  | Some t =>
      let* rows := select_where (Some c) t in
      exec_select s (<[sel_table s := {| tbl_schema := tbl_schema t; tbl_rows := rows |}]> db)
  end.

(** The groups of [GROUP BY]: the keys in ascending order, each with
    the number of its rows; NULL is a key like another. Keys of one group
    are equal as SQLite compares them; the key shown is the first met. *)
Fixpoint add_to_groups (k : sqlval) (groups : list (sqlval * nat)) : list (sqlval * nat) :=
  match groups with
  | [] => [(k, 1%nat)]
  | (k', n) :: groups' =>
      match sql_compare k k' with
      | Lt => (k, 1%nat) :: groups
      | Eq => (k', S n) :: groups'
      | Gt => (k', n) :: add_to_groups k groups'
      end
  end.

Definition group_counts (keys : list sqlval) : list (sqlval * nat) :=
  fold_left (fun groups k => add_to_groups k groups) keys [].

(** Equal as [GROUP BY] has it: NULL is equal to NULL. *)
Definition sql_same (a b : sqlval) : bool :=
  match sql_compare a b with Eq => true | _ => false end.

(** The rows of a count by group, before [ORDER BY] and [LIMIT]. *)
Definition counted_rows (i : nat) (rows : list (list sqlval)) : list (list sqlval) :=
  List.map (fun g => [fst g; SInteger (Z.of_nat (snd g))])
    (group_counts (List.map (fun r => nth i r SNull) rows)).

Definition exec_counted (g : counted) (db : database) : res result_set :=
  match db !! cnt_table g with
  | None => sql_step (Raise OperationalError)
  | Some t =>
      match col_index (tbl_schema t) (cnt_key g) with
      | None => sql_step (Raise OperationalError)
      | Some i =>
          let* rows := select_where (cnt_where g) t in
          let ordered :=
            order_rows (row_leb 1 (cnt_descending g)) (counted_rows i rows) in
          let limited :=
            match cnt_limit g with
            | Some n => firstn n ordered
            | None => ordered
            end in
          OK {| rs_columns := [cnt_key g; cnt_header g]; rs_rows := limited |}
      end
  end.

Definition exec_statement (st : statement) (db : database) : res result_set :=
  match st with
  | Plain s => exec_select s db
  | Filtered s c => exec_filtered s c db
  | Counted g => exec_counted g db
  end.

(** Lines 108-109: [pd.read_sql_query(query, conn)], the result handed
    back as it is. [None]: the statement is outside the fragment of SQL
    given a semantics above. *)
Definition query_database (db : database) (query : string) : option (res result_set) :=
  match parse_statement query with
  | Some st => Some (exec_statement st db)
  | None => None
  end.

(** What a statement names: its table, its limit, its columns. *)
Definition statement_table (st : statement) : string :=
  match st with
  | Plain s | Filtered s _ => sel_table s
  | Counted g => cnt_table g
  end.

Definition statement_limit (st : statement) : option nat :=
  match st with
  | Plain s | Filtered s _ => sel_limit s
  | Counted g => cnt_limit g
  end.

Definition select_names (s : select) : list string :=
  sel_columns s ++ match sel_order s with Some (c, _) => [c] | None => [] end.

Definition statement_names (st : statement) : list string :=
  match st with
  | Plain s => select_names s
  | Filtered s c => cond_column c :: select_names s
  | Counted g =>
      cnt_key g :: match cnt_where g with Some c => [cond_column c] | None => [] end
  end.

(** Every column a statement names is a column of the schema. *)
Definition names_known (schema : list column) (st : statement) : bool :=
  forallb (fun c => bool_decide (is_Some (col_index schema c))) (statement_names st).

(** ** Vocabulary of the statements, and sample data *)

Definition raises {A} (r : res A) : Prop :=
  match r with
  | Raise _ => True
  | OK _ => False
  end.

(** The cell of a column in a row dictionary. *)
Fixpoint cell (name : string) (cells : list (string * pyval)) : option pyval :=
  match cells with
  | [] => None
  | (n, v) :: cells' => if decide (n = name) then Some v else cell name cells'
  end.

(** The first four characters exist and are all digits. *)
Definition four_digits `{Unicode} (d : pystr) : bool :=
  (4 <=? length d)%nat && forallb ucd_digit (firstn 4 d).

(** A volume as the provider returns it; 7.5 is the double 0x1.Ep+2. *)
Definition volume_full : pyval :=
  PDict
    [ (lit "id", PStr (lit "zyTCAlFPjgYC"));
      (lit "volumeInfo",
       PDict
         [ (lit "title", PStr (lit "The Google Story"));
           (lit "authors",
            PList [PStr (lit "David A. Vise"); PStr (lit "Mark Malseed")]);
           (lit "publishedDate", PStr (lit "2005-11-15"));
           (lit "categories", PList []);
           (lit "pageCount", PInt 207);
           (lit "imageLinks",
            PDict [(lit "thumbnail", PStr (lit "http://books.example/t.png"))]) ]);
      (lit "saleInfo",
       PDict
         [ (lit "isEbook", PBool true);
           (lit "listPrice",
            PDict
              [ (lit "amount", PFloat (S754_finite false 8444249301319680 (-50)));
                (lit "currencyCode", PStr (lit "USD")) ]) ]) ].

(** A volume without an identifier and with an empty author list. *)
Definition volume_anonymous : pyval :=
  PDict
    [ (lit "volumeInfo",
       PDict [ (lit "title", PStr (lit "Untitled")); (lit "authors", PList []);
               (lit "categories", PList []) ]) ].

(** A volume whose [authors] is [null]. *)
Definition volume_null_authors : pyval :=
  PDict
    [ (lit "id", PStr (lit "x1"));
      (lit "volumeInfo",
       PDict [ (lit "title", PStr (lit "T")); (lit "authors", PNone) ]) ].

(** The entries whose name announces a "Top N". *)
Definition top_n_entries : list (string * string) :=
  List.filter (fun e => bool_decide (is_Some (top_n (fst e)))) queries.

(** Descending order of a column of values. *)
Definition descending (vs : list sqlval) : Prop :=
  StronglySorted (fun a b => sql_leb b a = true) vs.

(** A stored row with a title and a retail price, NULL elsewhere. *)
Definition priced (t : string) (p : sqlval) : list sqlval :=
  [SNull; SText (lit t)] ++ repeat SNull 15 ++ [p] ++ repeat SNull 3.

(** A file holding four books. *)
Definition shelf : database :=
  {[ "books"%string :=
       {| tbl_schema := books_schema;
          tbl_rows := [ priced "Cheap" (SReal (S754_finite false 8444249301319680 (-50)));
                        priced "Dear" (SInteger 20);
                        priced "Free" SNull;
                        priced "Fair" (SInteger 8) ] |} ]}.

(** A stored row with a title, authors, a publisher, the eBook flag and
    a retail price, NULL elsewhere. *)
Definition shelved (t a p : string) (ebook : Z) (price : sqlval) : list sqlval :=
  [SNull; SText (lit t); SNull; SText (lit a)] ++ repeat SNull 7
  ++ [SText (lit p); SNull; SInteger ebook] ++ repeat SNull 3
  ++ [price] ++ repeat SNull 3.

(** A file holding six books by four authors. *)
Definition stacks : database :=
  {[ "books"%string :=
       {| tbl_schema := books_schema;
          tbl_rows := [ shelved "Emma" "Austen" "Penguin" 1 (SInteger 5);
                        shelved "Ulysses" "Joyce" "Faber" 0 (SInteger 12);
                        shelved "Persuasion" "Austen" "Penguin" 1 (SInteger 7);
                        shelved "Dubliners" "Joyce" "Penguin" 1 SNull;
                        shelved "Walden" "Thoreau" "Dover" 1 (SInteger 3);
                        shelved "Sanditon" "Austen" "Dover" 0 (SInteger 9) ] |} ]}.

(** Two volumes whose identifiers are the numbers 2^53 + 1 and 2^53.0. *)
Definition volume_id_exact : pyval :=
  PDict [ (lit "id", PInt 9007199254740993) ].

Definition volume_id_float : pyval :=
  PDict [ (lit "id", PFloat (S754_finite false 4503599627370496 1)) ].

(** [initialize_database] run [n] times in a row. *)
Fixpoint initialize_times (n : nat) (db : database) : res database :=
  match n with
  | O => OK db
  | S n' => let* db' := initialize_database db in initialize_times n' db'
  end.

(** The value a bindable object is bound to. *)
Definition bound (v : pyval) : sqlval :=
  match bind_param v with
  | OK x => x
  | Raise _ => SNull
  end.

(** A row all of whose cells SQLite can bind: [None], a [bool], an [int]
    of 64 bits, a [float], a [str] that can be encoded. *)
Definition storable (r : BookRecord) : bool :=
  forallb (fun c => match bind_param (snd c) with OK _ => true | Raise _ => false end)
    (record_cells r).

(** The keys under which the rows of a frame are stored in the books
    table, and the keys a table holds. *)
Definition frame_keys `{Backend} (df : DataFrame) : list sqlval :=
  List.map (fun r => affinity TEXT (bound (book_id r))) df.

Definition table_keys (t : table) : list sqlval :=
  List.map (pk_value (tbl_schema t)) (tbl_rows t).

(** No new key clashes with an old one or with another new one. *)
Definition no_clash (old new : list sqlval) : Prop :=
  Forall (fun k => Forall (fun k' => same_key k k' = false) new) old /\
  ForallOrdPairs (fun k k' => same_key k k' = false) new.

(** The row stored for a storable record in the books table. *)
Definition row_of `{Backend} (r : BookRecord) : list sqlval :=
  stored_row books_schema
    (List.map (fun c => (fst c, bound (snd c))) (record_cells r)).

(** A backend that stores values as they are bound, for the examples. *)
Definition verbatim : Backend :=
  {| affinity := fun _ v => v;
     create_from_frame := fun _ => Raise OperationalError |}.

(** A volume whose page count does not fit 64 bits. *)
Definition volume_huge : pyval :=
  PDict
    [ (lit "id", PStr (lit "x2"));
      (lit "volumeInfo",
       PDict [ (lit "title", PStr (lit "T")); (lit "pageCount", PInt (2 ^ 70)) ]) ].

(** Two volumes whose ratings are 2^53 + 1 and 0.5, and a volume whose
    title is a lone surrogate. *)
Definition volume_exact : pyval :=
  PDict
    [ (lit "id", PStr (lit "x3"));
      (lit "volumeInfo", PDict [ (lit "averageRating", PInt 9007199254740993) ]) ].

Definition volume_half : pyval :=
  PDict
    [ (lit "id", PStr (lit "x4"));
      (lit "volumeInfo",
       PDict [ (lit "averageRating", PFloat (S754_finite false 4503599627370496 (-53))) ]) ].

Definition volume_surrogate : pyval :=
  PDict
    [ (lit "id", PStr (lit "a"));
      (lit "volumeInfo", PDict [ (lit "title", PStr [55296%N]) ]) ].


(** The frame of the volumes of a page of two, as [inferring] builds it. *)
Definition frame_of_two : DataFrame :=
  match @data_frame inferring
          (List.map (@record_of ascii_only) [volume_full; volume_anonymous]) with
  | OK df => df
  | Raise _ => []
  end.

(** A file whose books table holds one row, with key "old1". *)
Definition one_book : table :=
  {| tbl_schema := books_schema;
     tbl_rows := [ [SText (lit "old1"); SText (lit "An Old Book")] ++ repeat SNull 19 ] |}.

Definition library : database := {[ "books"%string := one_book ]}.

(** ** The search handler (lines 124-133) *)

(** [for book in books]: what the loop of [transform_data] visits. A
    list yields its items, a [str] its characters, a [dict] its keys; the
    other values cannot be iterated. *)
Definition py_iter (v : pyval) : res (list pyval) :=
  match v with
  | PList l => OK l
  | PStr s => OK (List.map (fun c => PStr [c]) s)
  | PDict d => OK (List.map (fun kv => PStr (fst kv)) d)
  | _ => Raise TypeError
  end.

(** What a run of the page acts on: the SQLite file, the network, and the
    messages [st.success] has shown. *)
Record session : Type := {
  file : database;
  net : world;
  successes : list string
}.

(** The body of [if st.sidebar.button("Search")], lines 125-133. An
    exception leaves the file as it was. *)
Definition on_search `{Unicode} `{Pandas} `{Backend} (srv : service) (query : pystr) (a : session)
  : res unit * session :=
  match fetch_books srv query 40 (net a) with
  | (Raise e, w) =>
      (Raise e, {| file := file a; net := w; successes := successes a |})
  | (OK books, w) =>
      if py_truthy books then
        match (let* items := py_iter books in transform_data items) with
        | Raise e =>
            (Raise e, {| file := file a; net := w; successes := successes a |})
        | OK df =>
            match save_to_database (file a) df with
            | Raise e =>
                (Raise e, {| file := file a; net := w; successes := successes a |})
            | OK db' =>
                (OK tt,
                 {| file := db'; net := w;
                    successes :=
                      successes a ++
                      ["Fetched and saved " +:+ pretty (length df)
                       +:+ " books to the database."] |})
            end
        end
      else
        (OK tt,
         {| file := file a;
            net := {| sent := sent w;
                      trace := trace w ++
                        [StError "No books found. Please try a different search term."] |};
            successes := successes a |})
  end.

(** ** More vocabulary and sample data *)

(** The events of [k] rate-limited attempts. *)
Definition rate_limit_events (q : pystr) (max_results : Z) (k : nat) : list event :=
  concat (repeat [HttpGet q max_results;
                  StWarning "API request limit reached. Retrying in 10 seconds...";
                  Sleep 10] k).

(** The answers to the first [k] requests of a call are all 403. *)
Definition limited (srv : service) (w : world) (k : nat) : Prop :=
  forall j, (j < k)%nat ->
    exists r, srv (sent w + j)%nat = OK r /\ status_code r = 403.

(** The service gives a call nothing to store: three answers 403; or,
    after fewer, a status other than 200 and 403, or an answer 200 whose
    JSON object has no "items" or has items that are false as Python
    tests them (an empty list, [null]). *)
Definition no_data (srv : service) (w : world) : Prop :=
  limited srv w 3 \/
  exists k r,
    (k < 3)%nat /\ limited srv w k /\ srv (sent w + k)%nat = OK r /\
    ((status_code r <> 200 /\ status_code r <> 403) \/
     (status_code r = 200 /\
      exists body, json r = OK body /\ is_dict body = true /\
        forall x, lookup_path body ["items"]%string = Some x -> py_truthy x = false)).

(** The events a call of [fetch_books q max_results] may produce. *)
Definition fetch_event (q : pystr) (max_results : Z) (e : event) : Prop :=
  match e with
  | HttpGet q' m' => q' = q /\ m' = max_results
  | StWarning msg => msg = "API request limit reached. Retrying in 10 seconds..."%string
  | Sleep s => s = 10
  | StError _ => True
  end.

(** The exceptions of attribute access and of typing. *)
Definition attribute_or_type_error {A} (r : res A) : Prop :=
  match r with
  | Raise e => e = AttributeError \/ e = TypeError
  | OK _ => True
  end.

(** The columns whose value is computed; the others are passed through. *)
Definition computed_columns : list string :=
  ["authors"; "categories"; "published_year"; "is_ebook"]%string.

Definition is_null (v : sqlval) : bool :=
  match v with SNull => true | _ => false end.

(** A service that is rate limited [k] times and then answers [r]. *)
Definition limited_then (k : nat) (r : res response) : service :=
  fun n => if (n <? k)%nat
           then OK {| status_code := 403; json := Raise JSONDecodeError |}
           else r.

(** A page of results holding two volumes, and one without items. *)
Definition page_of_two : response :=
  {| status_code := 200;
     json := OK (PDict [ (lit "kind", PStr (lit "books#volumes"));
                         (lit "items", PList [volume_full; volume_anonymous]) ]) |}.

Definition page_of_none : response :=
  {| status_code := 200;
     json := OK (PDict [ (lit "kind", PStr (lit "books#volumes"));
                         (lit "totalItems", PInt 0) ]) |}.


(** A volume whose fields are present but null, wrongly typed or odd. *)
Definition volume_odd : pyval :=
  PDict
    [ (lit "id", PInt 7);
      (lit "volumeInfo",
       PDict [ (lit "title", PNone);
               (lit "authors", PStr (lit "Ann"));
               (lit "categories", PList [PStr []]);
               (lit "publishedDate", PInt 2024) ]);
      (lit "saleInfo", PDict [ (lit "isEbook", PStr (lit "false")) ]) ].

(** ** Checks of the embedding on small inputs *)

Example words_of_query :
  String.words "SELECT title FROM books"%string = ["SELECT"; "title"; "FROM"; "books"]%string.
Proof. reflexivity. Qed.

Example parse_top5 :
  parse_select "SELECT title, amount_retail_price FROM books ORDER BY amount_retail_price DESC LIMIT 5"
  = Some {| sel_columns := ["title"; "amount_retail_price"]%string;
            sel_table := "books"%string;
            sel_order := Some ("amount_retail_price"%string, true);
            sel_limit := Some 5%nat |}.
Proof. vm_compute. reflexivity. Qed.

Example parsed_queries :
  List.map fst (List.filter (fun e => bool_decide (is_Some (parse_select (snd e)))) queries)
  = ["Top 5 Most Expensive Books"; "Top 3 Most Popular Books by Rating";
     "Top 5 Books by Ratings Count"]%string.
Proof. vm_compute. reflexivity. Qed.

(** * Properties *)

(** ** The error monad *)

Lemma res_map_app {A B} (f : A -> res B) (xs ys : list A) :
  res_map f (xs ++ ys) =
  let* a := res_map f xs in let* b := res_map f ys in OK (a ++ b).
Proof.
  induction xs as [|x xs IH]; cbn [res_map app res_bind].
  - destruct (res_map f ys); reflexivity.
  - destruct (f x) as [b|e]; cbn [res_bind]; [|reflexivity].
    rewrite IH. destruct (res_map f xs); cbn [res_bind]; [|reflexivity].
    destruct (res_map f ys); reflexivity.
Qed.

Lemma res_map_Forall2 {A B} (f : A -> res B) (xs : list A) (bs : list B) :
  res_map f xs = OK bs <-> Forall2 (fun a b => f a = OK b) xs bs.
Proof.
  revert bs. induction xs as [|x xs IH]; intros bs; cbn [res_map res_bind].
  - split.
    + intros [= <-]. constructor.
    + intros Hf. inversion Hf. reflexivity.
  - split.
    + destruct (f x) as [b|e] eqn:Hx; cbn [res_bind]; [|discriminate].
      destruct (res_map f xs) as [bs'|e] eqn:Hxs; cbn [res_bind]; [|discriminate].
      intros [= <-]. constructor; [exact Hx|]. apply IH. reflexivity.
    + intros Hf. inversion Hf as [|a b xs' bs' Hab Hrest]; subst.
      rewrite Hab. cbn [res_bind].
      apply IH in Hrest. rewrite Hrest. reflexivity.
Qed.

Lemma res_map_total {A B} (f : A -> res B) (g : A -> B) (xs : list A) :
  Forall (fun a => f a = OK (g a)) xs -> res_map f xs = OK (List.map g xs).
Proof.
  induction 1 as [|x xs Hx _ IH]; cbn [res_map List.map res_bind]; [reflexivity|].
  rewrite Hx. cbn [res_bind]. rewrite IH. reflexivity.
Qed.

(** ** The frame *)

Lemma coerced_refl (v : pyval) : coerced v v.
Proof. left. reflexivity. Qed.

Lemma coerced_float (f : spec_float) (v' : pyval) :
  coerced (PFloat f) v' -> v' = PFloat f.
Proof. intros [->|[(z & [=] & _)|[[=] _]]]. reflexivity. Qed.

Lemma coerced_trans (v v' v'' : pyval) :
  coerced v v' -> coerced v' v'' -> coerced v v''.
Proof.
  intros [->|[(z & -> & ->)|[-> ->]]] Hc; [exact Hc| |].
  - apply coerced_float in Hc as ->. right. left. eauto.
  - apply coerced_float in Hc as ->. right. right. auto.
Qed.

(** Only an integer and [None] can be converted. *)
Lemma coerced_kept (v v' : pyval) :
  coerced v v' -> is_int v || is_none v = false -> v' = v.
Proof. intros [->|[(z & -> & ->)|[-> ->]]]; [reflexivity|discriminate..]. Qed.

Lemma coerced_str (s : pystr) (v' : pyval) : coerced (PStr s) v' -> v' = PStr s.
Proof. intros Hc. apply (coerced_kept _ _ Hc). reflexivity. Qed.

Lemma coerced_none (v' : pyval) :
  coerced PNone v' -> v' = PNone \/ v' = PFloat S754_nan.
Proof. intros [->|[(z & [=] & _)|[_ ->]]]; auto. Qed.

Lemma coerced_int (z : Z) (v' : pyval) :
  coerced (PInt z) v' -> v' = PInt z \/ v' = PFloat (float_of_int z).
Proof. intros [->|[(z' & [= <-] & ->)|[[=] _]]]; auto. Qed.

Lemma Forall2_coerced_refl (l : list pyval) : Forall2 coerced l l.
Proof. induction l; constructor; [apply coerced_refl|assumption]. Qed.

Lemma Forall2_coerced_trans (l l' l'' : list pyval) :
  Forall2 coerced l l' -> Forall2 coerced l' l'' -> Forall2 coerced l l''.
Proof.
  intros Hc. revert l''. induction Hc; intros l'' Hc'; inversion Hc'; subst;
    constructor; eauto using coerced_trans.
Qed.

Lemma rows_coerced_trans (rows rows' rows'' : list (list pyval)) :
  Forall2 (Forall2 coerced) rows rows' ->
  Forall2 (Forall2 coerced) rows' rows'' ->
  Forall2 (Forall2 coerced) rows rows''.
Proof.
  intros Hc. revert rows''. induction Hc; intros rows'' Hc'; inversion Hc'; subst;
    constructor; eauto using Forall2_coerced_trans.
Qed.

Lemma Forall2_coerced_map (f : pyval -> pyval) (l : list pyval) :
  (forall v, coerced v (f v)) -> Forall2 coerced l (List.map f l).
Proof. intros Hf. induction l; cbn [List.map]; constructor; auto. Qed.

(** A cell of a frame, by the name of its column. *)
Lemma cell_coerced (cells cells' : list (string * pyval)) (name : string) (v : pyval) :
  List.map fst cells' = List.map fst cells ->
  Forall2 coerced (List.map snd cells) (List.map snd cells') ->
  cell name cells = Some v ->
  exists v', cell name cells' = Some v' /\ coerced v v'.
Proof.
  revert cells'. induction cells as [|[n x] cells IH]; intros [|[n' x'] cells'];
    cbn [List.map fst snd cell]; try discriminate.
  intros [= -> Hn] Hc. inversion Hc as [|? ? ? ? Hx Hcs]; subst.
  destruct (decide (n = name)); [intros [= <-]; eauto|].
  apply IH; assumption.
Qed.

Lemma row_coerced_cell (r r' : BookRecord) (name : string) (v : pyval) :
  row_coerced r r' ->
  cell name (record_cells r) = Some v ->
  exists v', cell name (record_cells r') = Some v' /\ coerced v v'.
Proof. intros Hc. apply cell_coerced; [reflexivity|exact Hc]. Qed.


Lemma Forall2_row_coerced_length (data df : list BookRecord) :
  Forall2 row_coerced data df -> length df = length data.
Proof. intros Hc. symmetry. eapply Forall2_length, Hc. Qed.

(** *** The instance [inferring] converts cells and nothing else *)

Lemma to_float_coerced (v : pyval) : coerced v (to_float v).
Proof.
  destruct v; cbn [to_float]; try apply coerced_refl.
  - right. right. auto.
  - right. left. eauto.
Qed.

Lemma to_str_coerced (v : pyval) : coerced v (to_str v).
Proof. destruct v; cbn [to_str]; try apply coerced_refl. right. right. auto. Qed.

Lemma infer_column_coerces (cells cells' : list pyval) :
  infer_column cells = OK cells' -> Forall2 coerced cells cells'.
Proof.
  unfold infer_column. destruct (float_column cells).
  - intros [= <-]. apply Forall2_coerced_map, to_float_coerced.
  - destruct (str_column cells).
    + destruct (forallb encodable cells); [|discriminate].
      intros [= <-]. apply Forall2_coerced_map, to_str_coerced.
    + intros [= <-]. apply Forall2_coerced_refl.
Qed.

(** A column of integers is kept as it is. *)
Lemma infer_column_ints (cells : list pyval) :
  forallb is_int cells = true -> infer_column cells = OK cells.
Proof.
  intros Hi.
  assert (Hf : existsb (fun v => is_float v || is_none v) cells = false).
  { induction cells as [|v cells IH]; [reflexivity|].
    cbn [forallb existsb] in *. apply andb_prop in Hi as [Hv Hi].
    rewrite (IH Hi). destruct v; try discriminate. reflexivity. }
  assert (Hs : existsb is_str cells = false).
  { clear Hf. induction cells as [|v cells IH]; [reflexivity|].
    cbn [forallb existsb] in *. apply andb_prop in Hi as [Hv Hi].
    rewrite (IH Hi). destruct v; try discriminate. reflexivity. }
  unfold infer_column, float_column, str_column.
  rewrite Hf, Hs, !andb_false_r. reflexivity.
Qed.

Lemma insert_coerces (row : list pyval) :
  forall (j : nat) (v : pyval),
    coerced (nth j row PNone) v -> Forall2 coerced row (<[j := v]> row).
Proof.
  induction row as [|x row IH]; intros [|j] v Hv; cbn in *; constructor;
    auto using coerced_refl, Forall2_coerced_refl.
Qed.

Lemma insert_nth_id (row : list pyval) :
  forall j : nat, <[j := nth j row PNone]> row = row.
Proof.
  induction row as [|x row IH]; intros [|j]; cbn; try reflexivity.
  f_equal. apply IH.
Qed.

Lemma nth_insert_other (row : list pyval) :
  forall (i j : nat) (v : pyval),
    i <> j -> nth i (<[j := v]> row) PNone = nth i row PNone.
Proof.
  induction row as [|x row IH]; intros [|i] [|j] v Hij; cbn; try reflexivity;
    try congruence.
  apply IH. congruence.
Qed.

Lemma zip_insert_coerces (j : nat) (rows : list (list pyval)) :
  forall cells',
    Forall2 coerced (column_at j rows) cells' ->
    Forall2 (Forall2 coerced) rows (zip_with (fun row v => <[j := v]> row) rows cells').
Proof.
  induction rows as [|row rows IH]; intros cells' Hc; cbn [column_at List.map] in Hc;
    inversion Hc; subst; cbn [zip_with]; constructor.
  - apply insert_coerces. assumption.
  - apply IH. assumption.
Qed.

Lemma zip_insert_other (i j : nat) (rows : list (list pyval)) :
  i <> j ->
  forall cells',
    length cells' = length rows ->
    column_at i (zip_with (fun row v => <[j := v]> row) rows cells') = column_at i rows.
Proof.
  intros Hij. induction rows as [|row rows IH]; intros [|v cells'] Hlen;
    cbn [zip_with column_at List.map length] in *; try reflexivity; try discriminate.
  f_equal; [apply nth_insert_other, Hij|]. apply IH. congruence.
Qed.

Lemma zip_insert_id (j : nat) (rows : list (list pyval)) :
  zip_with (fun row v => <[j := v]> row) rows (column_at j rows) = rows.
Proof.
  induction rows as [|row rows IH]; cbn [zip_with column_at List.map]; [reflexivity|].
  f_equal; [apply insert_nth_id|exact IH].
Qed.

Lemma infer_at_coerces (j : nat) (rows rows' : list (list pyval)) :
  infer_at j rows = OK rows' -> Forall2 (Forall2 coerced) rows rows'.
Proof.
  unfold infer_at. destruct (infer_column (column_at j rows)) as [cells'|e] eqn:Hc;
    cbn [res_bind]; [|discriminate].
  intros [= <-]. apply zip_insert_coerces, infer_column_coerces, Hc.
Qed.

Lemma infer_at_keeps_ints (i j : nat) (rows rows' : list (list pyval)) :
  forallb is_int (column_at i rows) = true ->
  infer_at j rows = OK rows' ->
  column_at i rows' = column_at i rows.
Proof.
  intros Hi. unfold infer_at. destruct (decide (i = j)) as [->|Hij].
  - rewrite (infer_column_ints _ Hi). cbn [res_bind]. intros [= <-].
    rewrite zip_insert_id. reflexivity.
  - destruct (infer_column (column_at j rows)) as [cells'|e] eqn:Hc;
      cbn [res_bind]; [|discriminate].
    intros [= <-]. apply zip_insert_other; [exact Hij|].
    apply infer_column_coerces, Forall2_length in Hc.
    unfold column_at in Hc. rewrite List.length_map in Hc. congruence.
Qed.

Lemma infer_columns_coerces (i : nat) (js : list nat) :
  forall rows rows',
    forallb is_int (column_at i rows) = true ->
    infer_columns js rows = OK rows' ->
    Forall2 (Forall2 coerced) rows rows' /\ column_at i rows' = column_at i rows.
Proof.
  induction js as [|j js IH]; intros rows rows' Hi; cbn [infer_columns].
  - intros [= <-]. split; [|reflexivity].
    clear Hi. induction rows; constructor; auto using Forall2_coerced_refl.
  - destruct (infer_at j rows) as [rows1|e] eqn:H1; cbn [res_bind]; [|discriminate].
    intros H2.
    pose proof (infer_at_coerces _ _ _ H1) as Hc1.
    pose proof (infer_at_keeps_ints i _ _ _ Hi H1) as Hk1.
    rewrite <- Hk1 in Hi. destruct (IH _ _ Hi H2) as [Hc2 Hk2].
    split; [|congruence].
    eapply rows_coerced_trans; eassumption.
Qed.

Lemma of_values_coerced (r : BookRecord) (vs : list pyval) :
  Forall2 coerced (row_values r) vs ->
  nth 13 vs PNone = PInt (is_ebook r) ->
  row_values (of_values vs) = vs.
Proof.
  unfold row_values. cbn [record_cells List.map snd]. intros Hc.
  repeat lazymatch type of Hc with
  | Forall2 _ (_ :: _) _ =>
      let y := fresh "y" in let Hy := fresh "Hy" in let l := fresh "l" in
      let Hl := fresh "Hl" in
      inversion Hc as [|? y ? l Hy Hl]; subst; clear Hc; rename Hl into Hc
  end.
  inversion Hc; subst. cbn [nth]. intros ->.
  repeat match goal with
  | H : coerced (PStr _) _ |- _ => apply coerced_str in H; subst
  end.
  reflexivity.
Qed.

(** The instance satisfies what is assumed of pandas. *)
Lemma inferring_coerces : coerces_cells inferring.
Proof.
  intros data df. cbn [data_frame inferring].
  destruct (infer_columns (seq 0 21) (List.map row_values data)) as [rows|e] eqn:Hrows;
    cbn [res_bind]; [|discriminate].
  intros [= <-].
  assert (Hi : forallb is_int (column_at 13 (List.map row_values data)) = true).
  { clear. induction data as [|r data IH]; [reflexivity|exact IH]. }
  destruct (infer_columns_coerces 13 _ _ _ Hi Hrows) as [Hc H13]. clear Hrows Hi.
  revert rows Hc H13. induction data as [|r data IH]; intros rows Hc H13;
    inversion Hc as [|? vs ? rows' Hr Hrs]; subst; cbn [List.map]; constructor.
  - unfold row_coerced. cbn [column_at List.map] in H13. injection H13 as Hv _.
    rewrite (of_values_coerced r vs Hr Hv). exact Hr.
  - apply IH; [exact Hrs|]. cbn [column_at List.map] in H13. injection H13 as _ Ht.
    exact Ht.
Qed.

(** ** Transformer *)

Section Transformer.
Context `{Unicode}.
Context {P : Pandas}.

Lemma py_get_field o k dflt :
  is_dict o = true -> py_get o k dflt = OK (field o k dflt).
Proof. destruct o; try discriminate. reflexivity. Qed.

Lemma py_get_not_dict o k dflt :
  is_dict o = false -> py_get o k dflt = Raise AttributeError.
Proof. destruct o; try discriminate; reflexivity. Qed.

Lemma str_items_joinable l :
  forallb is_str l = true -> exists ss, str_items l = OK ss.
Proof.
  induction l as [|v l IH]; cbn [forallb str_items]; [eauto|].
  intros [Hv Hl]%andb_prop. destruct v; try discriminate.
  destruct (IH Hl) as [ss ->]. cbn [res_bind]. eauto.
Qed.

Lemma str_items_not_joinable l :
  forallb is_str l = false -> str_items l = Raise TypeError.
Proof.
  induction l as [|v l IH]; cbn [forallb str_items]; [discriminate|].
  destruct v; cbn [is_str andb]; try reflexivity.
  intros Hl. rewrite (IH Hl). reflexivity.
Qed.

Lemma py_join_joined sep v :
  joinable v = true -> py_join sep v = OK (joined sep v).
Proof.
  unfold py_join, joined. destruct v; try discriminate; cbn [joinable join_items].
  - reflexivity.
  - intros Hl. destruct (str_items_joinable _ Hl) as [ss ->]. reflexivity.
  - reflexivity.
Qed.

Lemma py_join_not_joinable sep v :
  joinable v = false -> py_join sep v = Raise TypeError.
Proof.
  unfold py_join. destruct v; try discriminate; try reflexivity.
  cbn [joinable join_items]. intros Hl. rewrite (str_items_not_joinable _ Hl).
  reflexivity.
Qed.

(** A default other than the empty list does not change what can be
    joined: the defaults of [authors] and [categories] are lists of one
    string. *)
Lemma joinable_default o k s :
  joinable (field o k (PList [PStr s])) = joinable (field o k (PList [])).
Proof.
  destruct o; try reflexivity. cbn [field].
  destruct (assoc_get (lit k) d); reflexivity.
Qed.

Ltac get_step :=
  lazymatch goal with
  | |- context [res_bind (py_get ?o ?k ?d) _] =>
      rewrite (py_get_field o k d) by assumption; cbn [res_bind]
  end.

(** On a well-shaped item every step of the loop body succeeds. *)
Lemma transform_item_shaped book :
  well_shaped book = true -> transform_item book = OK (record_of book).
Proof.
  unfold well_shaped. intros Hs.
  repeat (apply andb_prop in Hs as [Hs ?]).
  unfold transform_item.
  do 10 get_step.
  rewrite py_join_joined by (rewrite joinable_default; assumption). cbn [res_bind].
  do 2 get_step.
  rewrite py_join_joined by (rewrite joinable_default; assumption). cbn [res_bind].
  repeat get_step.
  reflexivity.
Qed.

Ltac get_or_raise :=
  lazymatch goal with
  | |- raises (res_bind (py_get ?o ?k ?d) _) =>
      first
        [ rewrite (py_get_field o k d) by assumption
        | let E := fresh "E" in
          destruct (is_dict o) eqn:E;
          [ rewrite (py_get_field o k d) by assumption
          | rewrite (py_get_not_dict o k d) by assumption; exact I ] ];
      cbn [res_bind]
  | |- raises (res_bind (py_join ?s ?v) _) =>
      let E := fresh "E" in
      destruct (joinable v) eqn:E;
      [ rewrite (py_join_joined s v) by assumption
      | rewrite (py_join_not_joinable s v) by assumption; exact I ];
      cbn [res_bind]
  end.

(** On any other item some step raises. *)
Lemma transform_item_misshaped book :
  well_shaped book = false -> raises (transform_item book).
Proof.
  unfold well_shaped, transform_item. intros Hs.
  repeat get_or_raise.
  rewrite !joinable_default in *.
  repeat match goal with
         | E : _ = true |- _ => rewrite E in Hs; clear E
         end.
  discriminate Hs.
Qed.

Lemma transform_item_OK book r :
  transform_item book = OK r <-> well_shaped book = true /\ r = record_of book.
Proof.
  split.
  - intros Hr. destruct (well_shaped book) eqn:Hs.
    + rewrite (transform_item_shaped _ Hs) in Hr. injection Hr as <-. auto.
    + apply transform_item_misshaped in Hs. rewrite Hr in Hs. destruct Hs.
  - intros [Hs ->]. apply transform_item_shaped, Hs.
Qed.

(** Absent keys and the defaults of [get]. *)
Lemma field_absent1 v k dflt :
  lookup_path v [k] = None -> field v k dflt = dflt.
Proof.
  destruct v; try reflexivity. cbn [lookup_path field].
  destruct (assoc_get (lit k) d); [discriminate|reflexivity].
Qed.

Lemma field_absent2 v k1 k2 dflt :
  lookup_path v [k1; k2] = None -> field (field v k1 (PDict [])) k2 dflt = dflt.
Proof.
  destruct v; try reflexivity. cbn [lookup_path field].
  destruct (assoc_get (lit k1) d) as [v'|]; [|reflexivity].
  cbn [default]. apply field_absent1.
Qed.

Lemma field_absent3 v k1 k2 k3 dflt :
  lookup_path v [k1; k2; k3] = None ->
  field (field (field v k1 (PDict [])) k2 (PDict [])) k3 dflt = dflt.
Proof.
  destruct v; try reflexivity. cbn [lookup_path field].
  destruct (assoc_get (lit k1) d) as [v'|]; [|reflexivity].
  cbn [default]. apply field_absent2.
Qed.

Lemma field_present1 v k x dflt :
  lookup_path v [k] = Some x -> field v k dflt = x.
Proof.
  destruct v; try discriminate. cbn [lookup_path field].
  destruct (assoc_get (lit k) d); [|discriminate]. intros [= ->]. reflexivity.
Qed.

Lemma field_present2 v k1 k2 x dflt :
  lookup_path v [k1; k2] = Some x -> field (field v k1 (PDict [])) k2 dflt = x.
Proof.
  destruct v; try discriminate. cbn [lookup_path field].
  destruct (assoc_get (lit k1) d) as [v'|]; [|discriminate].
  cbn [default]. apply field_present1.
Qed.

(** The default of [publishedDate] does not start with four digits. *)
Lemma published_year_default :
  published_year_of (PStr (lit "Unknown")) = lit "Unknown".
Proof.
  unfold published_year_of, str_isdigit.
  change (firstn 4 (lit "Unknown")) with [85; 110; 107; 110]%N.
  cbn [forallb]. rewrite (ucd_digit_ascii 85) by reflexivity.
  rewrite andb_false_r. reflexivity.
Qed.

Lemma record_cells_columns r :
  List.map fst (record_cells r) = List.map (fun c => fst (fst c)) data_model.
Proof. reflexivity. Qed.

Ltac passed_through proj :=
  lazymatch goal with
  | Hp : lookup_path ?book _ = None |- _ = Some ?d =>
      change (Some (proj (record_of book)) = Some d);
      f_equal; unfold record_of; cbn [proj];
      first [ apply field_absent1; exact Hp
            | apply field_absent2; exact Hp
            | apply field_absent3; exact Hp ]
  end.

(** Where the source field of a column is absent, the row holds the
    default of the data model. *)
Lemma record_of_defaults book name path dflt :
  In (name, path, dflt) data_model ->
  lookup_path book path = None ->
  cell name (record_cells (record_of book)) = Some dflt.
Proof.
  unfold data_model. cbn [In]. intros Hin Hp.
  repeat (destruct Hin as [Hin|Hin]; [injection Hin as <- <- <-|]);
    [ | | | | | | | | | | | | | | | | | | | | | destruct Hin ].
  - passed_through book_id.
  - passed_through title.
  - passed_through subtitle.
  - change (Some (PStr (authors (record_of book))) = Some (PStr (lit "Unknown Author"))).
    unfold record_of; cbn [authors]. rewrite (field_absent2 _ _ _ _ Hp). reflexivity.
  - passed_through description.
  - change (Some (PStr (categories (record_of book))) = Some (PStr (lit "N/A"))).
    unfold record_of; cbn [categories]. rewrite (field_absent2 _ _ _ _ Hp). reflexivity.
  - passed_through page_count.
  - passed_through language.
  - passed_through image_link.
  - passed_through average_rating.
  - passed_through ratings_count.
  - passed_through publisher.
  - change (Some (PStr (published_year (record_of book))) = Some (PStr (lit "Unknown"))).
    unfold record_of; cbn [published_year]. rewrite (field_absent2 _ _ _ _ Hp).
    rewrite published_year_default. reflexivity.
  - change (Some (PInt (is_ebook (record_of book))) = Some (PInt 0)).
    unfold record_of; cbn [is_ebook]. rewrite (field_absent2 _ _ _ _ Hp). reflexivity.
  - passed_through saleability.
  - passed_through amount_list_price.
  - passed_through currency_code_list_price.
  - passed_through amount_retail_price.
  - passed_through currency_code_retail_price.
  - passed_through buy_link.
  - passed_through country.
Qed.

(** The loop does not fail on well-shaped items. *)
Lemma transform_rows_shaped books :
  forallb well_shaped books = true ->
  transform_rows books = OK (List.map record_of books).
Proof.
  intros Hs. apply res_map_total. apply Forall_forall. intros book Hin.
  apply transform_item_shaped.
  rewrite forallb_forall in Hs. apply Hs. apply list_elem_of_In, Hin.
Qed.

(** The converse: the loop ends only on well-shaped items. *)
Lemma transform_rows_OK books data :
  transform_rows books = OK data ->
  forallb well_shaped books = true /\ data = List.map record_of books.
Proof.
  unfold transform_rows. intros Hf. apply res_map_Forall2 in Hf.
  induction Hf as [|book r books df Hr _ [IHs IHdf]]; [auto|].
  apply transform_item_OK in Hr as [Hs ->].
  cbn [forallb List.map]. rewrite Hs, IHs, IHdf. auto.
Qed.

(** A frame is returned only for well-shaped items, and is the frame of
    their rows. *)
Lemma transform_data_OK books df :
  transform_data books = OK df ->
  forallb well_shaped books = true /\ data_frame (List.map record_of books) = OK df.
Proof.
  unfold transform_data.
  destruct (transform_rows books) as [data|e] eqn:Hrows; cbn [res_bind]; [|discriminate].
  apply transform_rows_OK in Hrows as [Hs ->]. auto.
Qed.

(** The rows of a frame, against the items they come from. *)
Lemma frame_rows_coerced books df :
  coerces_cells P ->
  transform_data books = OK df ->
  Forall2 (fun book r' => row_coerced (record_of book) r') books df.
Proof.
  intros Hlaw Hdf. apply transform_data_OK in Hdf as [_ Hdf]. apply Hlaw in Hdf.
  clear Hlaw. revert df Hdf.
  induction books as [|book books IH]; intros df Hdf; cbn [List.map] in Hdf;
    inversion Hdf; subst; constructor; auto.
Qed.

(** C1 (as amended): for every sequence of raw items that are well
    shaped (each item an object; [volumeInfo], [saleInfo], [imageLinks],
    [listPrice], [retailPrice] objects where present; [authors] and
    [categories] joinable where present), the loop of [transform_data]
    does not fail and builds exactly one row per item, every row having
    all the columns of the data model, a column whose source field is
    absent holding its default; [transform_data] returns the frame pandas
    builds from these rows, so that it fails only when that construction
    fails; and a frame it returns has exactly one row per item, every row
    having all the columns, a column whose source field is absent holding
    its default as the dtype of the column keeps it (the default itself,
    or 0.0 for the default 0, or NaN for the [None] of [book_id]). *)
Theorem transform_data_on_well_shaped (books : list pyval) :
  forallb well_shaped books = true ->
  exists data,
    transform_rows books = OK data /\
    length data = length books /\
    Forall2 (fun book r =>
      List.map fst (record_cells r) = List.map (fun c => fst (fst c)) data_model /\
      forall name path dflt,
        In (name, path, dflt) data_model ->
        lookup_path book path = None ->
        cell name (record_cells r) = Some dflt) books data /\
    transform_data books = data_frame data /\
    (coerces_cells P ->
     forall df,
       transform_data books = OK df ->
       length df = length books /\
       Forall2 (fun book r' =>
         List.map fst (record_cells r') = List.map (fun c => fst (fst c)) data_model /\
         forall name path dflt,
           In (name, path, dflt) data_model ->
           lookup_path book path = None ->
           exists v', cell name (record_cells r') = Some v' /\ coerced dflt v')
         books df).
Proof.
  intros Hs. exists (List.map record_of books).
  split; [apply transform_rows_shaped, Hs|].
  split; [apply List.length_map|].
  split; [|split].
  - clear Hs. induction books as [|book books IH]; cbn [List.map]; constructor.
    + split; [apply record_cells_columns|].
      intros name path dflt. apply record_of_defaults.
    + exact IH.
  - unfold transform_data. rewrite (transform_rows_shaped books Hs). reflexivity.
  - intros Hlaw df Hdf. pose proof (frame_rows_coerced books df Hlaw Hdf) as Hc.
    split; [symmetry; eapply Forall2_length, Hc|].
    eapply Forall2_impl; [exact Hc|]. cbn beta. intros book r' Hr'.
    split; [apply record_cells_columns|].
    intros name path dflt Hin Hp.
    apply (row_coerced_cell _ _ _ _ Hr').
    apply (record_of_defaults book name path dflt Hin Hp).
Qed.

Lemma forallb_ucd_ascii (s : pystr) :
  forallb (fun c => (c <? 128)%N) s = true ->
  forallb ucd_digit s = forallb ascii_digit s.
Proof.
  induction s as [|c s IH]; cbn [forallb]; [reflexivity|].
  intros [Hc Hs]%andb_prop. apply N.ltb_lt in Hc.
  rewrite (ucd_digit_ascii c Hc), (IH Hs). reflexivity.
Qed.

Lemma four_digits_ascii (d : pystr) :
  forallb (fun c => (c <? 128)%N) (firstn 4 d) = true ->
  four_digits d = (4 <=? length d)%nat && forallb ascii_digit (firstn 4 d).
Proof. intros Hd. unfold four_digits. rewrite (forallb_ucd_ascii _ Hd). reflexivity. Qed.

(** Lines 39-41 on a string. *)
Lemma published_year_of_str (d : pystr) :
  published_year_of (PStr d) = if four_digits d then firstn 4 d else lit "Unknown".
Proof.
  unfold published_year_of, four_digits, str_isdigit.
  destruct (4 <=? length d)%nat eqn:Hlen; [|reflexivity].
  destruct d as [|c d]; [discriminate|]. reflexivity.
Qed.

Lemma published_year_of_other (v : pyval) :
  is_str v = false -> published_year_of v = lit "Unknown".
Proof. destruct v; try discriminate; reflexivity. Qed.

Lemma unknown_is_not_a_prefix (d : pystr) : firstn 4 d <> lit "Unknown".
Proof.
  intros Heq. apply (f_equal (@length N)) in Heq.
  pose proof (firstn_le_length 4 d) as Hle.
  rewrite Heq in Hle. vm_compute in Hle. lia.
Qed.

(** C2: the year of a produced row is the first four characters of the
    item's [publishedDate] string exactly when these exist and are all
    digits, and is "Unknown" otherwise, also when the date is absent or
    not a string; "2024" gives "2024", and "20", the empty string and
    "abcd-01-01" give "Unknown". *)
Theorem published_year_first_four_digits (book : pyval) (r : BookRecord) :
  transform_item book = OK r ->
  (forall d,
     lookup_path book ["volumeInfo"; "publishedDate"]%string = Some (PStr d) ->
     (published_year r = firstn 4 d <-> four_digits d = true) /\
     (four_digits d = false -> published_year r = lit "Unknown") /\
     (d = lit "2024" -> published_year r = lit "2024") /\
     (d = lit "20" -> published_year r = lit "Unknown") /\
     (d = [] -> published_year r = lit "Unknown") /\
     (d = lit "abcd-01-01" -> published_year r = lit "Unknown")) /\
  (forall v,
     lookup_path book ["volumeInfo"; "publishedDate"]%string = Some v ->
     is_str v = false -> published_year r = lit "Unknown") /\
  (lookup_path book ["volumeInfo"; "publishedDate"]%string = None ->
   published_year r = lit "Unknown").
Proof.
  intros Hr. apply transform_item_OK in Hr as [_ ->].
  unfold record_of; cbn [published_year].
  split; [|split].
  - intros d Hd. rewrite (field_present2 _ _ _ _ _ Hd), published_year_of_str.
    split; [|split; [|split; [|split; [|split]]]].
    + destruct (four_digits d); split; try reflexivity; try discriminate.
      intros Heq. symmetry in Heq. destruct (unknown_is_not_a_prefix _ Heq).
    + intros ->. reflexivity.
    + intros ->. rewrite four_digits_ascii by reflexivity. reflexivity.
    + intros ->. rewrite four_digits_ascii by reflexivity. reflexivity.
    + intros ->. rewrite four_digits_ascii by reflexivity. reflexivity.
    + intros ->. rewrite four_digits_ascii by reflexivity. reflexivity.
  - intros v Hv Hs. rewrite (field_present2 _ _ _ _ _ Hv).
    apply published_year_of_other, Hs.
  - intros Hp. rewrite (field_absent2 _ _ _ _ Hp). apply published_year_default.
Qed.

(** C3: when the [authors] (resp. [categories]) field of an item is
    present and is an empty list, the produced row holds the default
    "Unknown Author" (resp. "N/A"); neither column is ever the empty
    string. *)
Theorem empty_list_gets_default (book : pyval) (r : BookRecord) :
  transform_item book = OK r ->
  (lookup_path book ["volumeInfo"; "authors"]%string = Some (PList []) ->
   authors r = lit "Unknown Author") /\
  (lookup_path book ["volumeInfo"; "categories"]%string = Some (PList []) ->
   categories r = lit "N/A") /\
  authors r <> [] /\ categories r <> [].
Proof.
  intros Hr. apply transform_item_OK in Hr as [_ ->].
  unfold record_of; cbn [authors categories].
  split; [|split; [|split]].
  - intros Hp. rewrite (field_present2 _ _ _ _ _ Hp). reflexivity.
  - intros Hp. rewrite (field_present2 _ _ _ _ _ Hp). reflexivity.
  - unfold str_or. destruct (joined _ _); discriminate.
  - unfold str_or. destruct (joined _ _); discriminate.
Qed.


(** C10: the row produced from an item without an "id" has [None] as
    its [book_id], and a well-shaped item without an "id" does produce
    such a row; in the row of an item with no field at all [book_id] is
    the only column holding [None]: every other column has a default;
    and [book_id] is the primary key of the schema. *)
Theorem missing_id_gives_none (book : pyval) :
  lookup_path book ["id"]%string = None ->
  (forall r, transform_item book = OK r -> book_id r = PNone) /\
  (well_shaped book = true ->
   exists r, transform_item book = OK r /\ book_id r = PNone) /\
  List.map fst (List.filter (fun c => is_none (snd c)) (record_cells (record_of (PDict []))))
    = ["book_id"]%string /\
  primary_key books_schema = ["book_id"]%string.
Proof.
  intros Hid.
  assert (Hnone : book_id (record_of book) = PNone).
  { unfold record_of; cbn [book_id]. apply field_absent1, Hid. }
  split; [|split; [|split; reflexivity]].
  - intros r Hr. apply transform_item_OK in Hr as [_ ->]. exact Hnone.
  - intros Hs. exists (record_of book). split; [apply transform_item_shaped, Hs|exact Hnone].
Qed.

End Transformer.

(** C1 (as stated) fails: an item whose [authors] is [null] is a raw
    item, and the loop body raises on it (line 47 joins [None]). *)
Lemma transform_data_raises_on_null_authors :
  @transform_data ascii_only inferring [volume_full; volume_null_authors]
  = Raise TypeError.
Proof. vm_compute. reflexivity. Qed.

(** Well-shaped items on which the construction of the frame fails, by
    the inference of pandas 3: a title that is a lone surrogate cannot
    be encoded. *)
Lemma transform_data_raises_on_lone_surrogate :
  well_shaped volume_surrogate = true /\
  @transform_data ascii_only inferring [volume_surrogate] = Raise UnicodeEncodeError.
Proof. split; vm_compute; reflexivity. Qed.


Lemma null_authors_raises `{Unicode} :
  transform_item volume_null_authors = Raise TypeError.
Proof. reflexivity. Qed.

Lemma transform_data_on_well_shaped_witness :
  forallb well_shaped [volume_full; volume_anonymous; PDict []] = true /\
  exists df,
    @transform_data ascii_only inferring [volume_full; volume_anonymous; PDict []] = OK df /\
    length df = 3%nat.
Proof.
  split; [reflexivity|].
  destruct (@transform_data_on_well_shaped ascii_only inferring
              [volume_full; volume_anonymous; PDict []] eq_refl)
    as (data & _ & _ & _ & Hframe & Hdf).
  destruct (@transform_data ascii_only inferring [volume_full; volume_anonymous; PDict []])
    as [df|e] eqn:Hrun.
  - exists df. split; [reflexivity|].
    apply (Hdf inferring_coerces df eq_refl).
  - exfalso. vm_compute in Hrun. discriminate Hrun.
Defined.

Lemma published_year_first_four_digits_witness :
  @transform_item ascii_only volume_full = OK (@record_of ascii_only volume_full) /\
  lookup_path volume_full ["volumeInfo"; "publishedDate"]%string
    = Some (PStr (lit "2005-11-15")) /\
  published_year (@record_of ascii_only volume_full) = lit "2005".
Proof.
  split; [reflexivity|]. split; [reflexivity|].
  destruct (@published_year_first_four_digits ascii_only volume_full
              (@record_of ascii_only volume_full) eq_refl) as [Hd _].
  destruct (Hd (lit "2005-11-15") eq_refl) as [Hiff _].
  apply Hiff. reflexivity.
Defined.

Lemma empty_list_gets_default_witness :
  @transform_item ascii_only volume_anonymous = OK (@record_of ascii_only volume_anonymous) /\
  lookup_path volume_anonymous ["volumeInfo"; "authors"]%string = Some (PList []) /\
  authors (@record_of ascii_only volume_anonymous) = lit "Unknown Author" /\
  categories (@record_of ascii_only volume_anonymous) = lit "N/A".
Proof.
  split; [reflexivity|]. split; [reflexivity|].
  destruct (@empty_list_gets_default ascii_only volume_anonymous
              (@record_of ascii_only volume_anonymous) eq_refl) as (Ha & Hc & _).
  split; [apply Ha|apply Hc]; reflexivity.
Defined.


Lemma missing_id_gives_none_witness :
  lookup_path volume_anonymous ["id"]%string = None /\
  exists r, @transform_item ascii_only volume_anonymous = OK r /\ book_id r = PNone.
Proof.
  split; [reflexivity|].
  apply (@missing_id_gives_none ascii_only volume_anonymous eq_refl). reflexivity.
Defined.

(** ** Fetcher *)

Lemma attempts_app (a b : list event) : attempts (a ++ b) = (attempts a + attempts b)%nat.
Proof. unfold attempts. rewrite List.filter_app, List.length_app. reflexivity. Qed.

Lemma slept_app (a b : list event) : slept (a ++ b) = slept a + slept b.
Proof.
  unfold slept. induction a as [|e a IH]; cbn [app fold_right]; [lia|].
  destruct e; lia.
Qed.

Section Fetcher.
Variables (srv : service) (q : pystr) (max_results : Z).

(** One iteration of the loop. *)
Lemma fetch_loop_S (n : nat) (w : world) :
  fetch_loop srv q max_results (S n) w =
  match srv (sent w) with
  | Raise e =>
      (Raise e, {| sent := S (sent w); trace := trace w ++ [HttpGet q max_results] |})
  | OK response =>
      if status_code response =? 200 then
        (let* body := json response in py_get body "items" (PList []),
         {| sent := S (sent w); trace := trace w ++ [HttpGet q max_results] |})
      else if status_code response =? 403 then
        fetch_loop srv q max_results n
          {| sent := S (sent w);
             trace := trace w ++ [HttpGet q max_results;
                        StWarning "API request limit reached. Retrying in 10 seconds...";
                        Sleep 10] |}
      else
        (OK (PList []),
         {| sent := S (sent w);
            trace := trace w ++ [HttpGet q max_results;
                       StError ("Error fetching data: " +:+ pretty (status_code response))] |})
  end.
Proof.
  cbn [fetch_loop]. unfold io_bind at 1. unfold requests_get.
  destruct (srv (sent w)) as [response|e]; [|reflexivity].
  destruct (status_code response =? 200).
  - unfold io_bind, io_lift. destruct (json response); reflexivity.
  - destruct (status_code response =? 403).
    + unfold st_warning, time_sleep, emit, io_bind. cbn [sent trace].
      rewrite <- !app_assoc. reflexivity.
    + unfold st_error, emit, io_bind, io_ret. cbn [sent trace].
      rewrite <- !app_assoc. reflexivity.
Qed.

(** Every run extends the trace by at most [n] requests, and sleeps ten
    seconds for each answer 403 it received. *)
Lemma fetch_loop_run (n : nat) :
  forall w, exists evs,
    trace (snd (fetch_loop srv q max_results n w)) = trace w ++ evs /\
    sent (snd (fetch_loop srv q max_results n w)) = (sent w + attempts evs)%nat /\
    (attempts evs <= n)%nat /\
    slept evs = 10 * Z.of_nat (rate_limited srv (sent w) (attempts evs)).
Proof.
  induction n as [|n IH]; intros w.
  - exists []. cbn. rewrite app_nil_r. repeat split; lia.
  - rewrite fetch_loop_S. destruct (srv (sent w)) as [r|e] eqn:Hs.
    + destruct (status_code r =? 200) eqn:E200.
      * exists [HttpGet q max_results]. cbn. rewrite Hs.
        apply Z.eqb_eq in E200. rewrite E200. cbn. repeat split; lia.
      * destruct (status_code r =? 403) eqn:E403.
        -- destruct (IH {| sent := S (sent w);
                           trace := trace w ++ [HttpGet q max_results;
                             StWarning "API request limit reached. Retrying in 10 seconds...";
                             Sleep 10] |}) as (evs & Ht & Hn & Ha & Hz).
           cbn [sent trace] in Ht, Hn, Hz.
           exists ([HttpGet q max_results;
                    StWarning "API request limit reached. Retrying in 10 seconds...";
                    Sleep 10] ++ evs).
           rewrite Ht, Hn, attempts_app, slept_app, <- app_assoc.
           change (attempts [HttpGet q max_results; StWarning _; Sleep 10]) with 1%nat.
           change (slept [HttpGet q max_results; StWarning _; Sleep 10]) with 10.
           cbn [Nat.add rate_limited]. rewrite Hs, E403, Hz.
           repeat split; lia.
        -- exists [HttpGet q max_results;
                   StError ("Error fetching data: " +:+ pretty (status_code r))].
           cbn. rewrite Hs, E403. repeat split; lia.
    + exists [HttpGet q max_results]. cbn. rewrite Hs. repeat split; lia.
Qed.

(** C4: a call issues at most three requests and sleeps ten seconds for
    every answer 403; when the three requests are all answered 403 it
    returns the empty list, having slept after each of them: three times
    ten seconds, which is at least twenty. *)
Theorem fetch_books_retries_on_403 (w : world) :
  (exists evs,
     trace (snd (fetch_books srv q max_results w)) = trace w ++ evs /\
     (attempts evs <= 3)%nat /\
     slept evs = 10 * Z.of_nat (rate_limited srv (sent w) (attempts evs))) /\
  ((forall k, (k < 3)%nat ->
      exists r, srv (sent w + k)%nat = OK r /\ status_code r = 403) ->
   exists evs,
     fetch_books srv q max_results w
       = (OK (PList []), {| sent := (sent w + 3)%nat; trace := trace w ++ evs |}) /\
     evs = [HttpGet q max_results;
            StWarning "API request limit reached. Retrying in 10 seconds...";
            Sleep 10;
            HttpGet q max_results;
            StWarning "API request limit reached. Retrying in 10 seconds...";
            Sleep 10;
            HttpGet q max_results;
            StWarning "API request limit reached. Retrying in 10 seconds...";
            Sleep 10] /\
     attempts evs = 3%nat /\ slept evs = 30 /\ 20 <= slept evs).
Proof.
  split.
  - destruct (fetch_loop_run 3 w) as (evs & Ht & _ & Ha & Hz). eauto.
  - intros H403.
    destruct (H403 0%nat ltac:(lia)) as (r0 & Hs0 & E0).
    destruct (H403 1%nat ltac:(lia)) as (r1 & Hs1 & E1).
    destruct (H403 2%nat ltac:(lia)) as (r2 & Hs2 & E2).
    rewrite Nat.add_0_r in Hs0.
    replace (sent w + 1)%nat with (S (sent w)) in Hs1 by lia.
    replace (sent w + 2)%nat with (S (S (sent w))) in Hs2 by lia.
    eexists. split; [|split; [reflexivity|]].
    + unfold fetch_books.
      rewrite fetch_loop_S, Hs0, E0. cbn [Z.eqb Pos.eqb sent trace].
      rewrite fetch_loop_S. cbn [sent trace]. rewrite Hs1, E1. cbn [Z.eqb Pos.eqb sent trace].
      rewrite fetch_loop_S. cbn [sent trace]. rewrite Hs2, E2. cbn [Z.eqb Pos.eqb sent trace].
      cbn [fetch_loop io_ret]. rewrite <- !app_assoc.
      replace (sent w + 3)%nat with (S (S (S (sent w)))) by lia.
      reflexivity.
    + repeat split; cbn; lia.
Qed.

(** C5: when the first answer has a status other than 200 and 403, the
    call reports the error and returns the empty list after that one
    request, without sleeping. *)
Theorem fetch_books_gives_up_on_other_status (w : world) (r : response) :
  srv (sent w) = OK r ->
  status_code r <> 200 ->
  status_code r <> 403 ->
  exists evs,
    fetch_books srv q max_results w
      = (OK (PList []), {| sent := S (sent w); trace := trace w ++ evs |}) /\
    evs = [HttpGet q max_results;
           StError ("Error fetching data: " +:+ pretty (status_code r))] /\
    attempts evs = 1%nat /\ errors_reported evs = 1%nat /\ slept evs = 0.
Proof.
  intros Hs H200 H403. eexists. split; [|split; [reflexivity|]].
  - unfold fetch_books. rewrite fetch_loop_S, Hs.
    apply Z.eqb_neq in H200, H403. rewrite H200, H403. reflexivity.
  - repeat split; reflexivity.
Qed.

End Fetcher.

Lemma fetch_books_retries_on_403_witness :
  (forall k, (k < 3)%nat ->
     exists r, always 403 (sent start + k)%nat = OK r /\ status_code r = 403) /\
  exists evs,
    fetch_books (always 403) (lit "Data Science") 40 start
      = (OK (PList []), {| sent := 3%nat; trace := evs |}) /\
    attempts evs = 3%nat /\ slept evs = 30.
Proof.
  assert (H403 : forall k, (k < 3)%nat ->
            exists r, always 403 (sent start + k)%nat = OK r /\ status_code r = 403).
  { intros k _. eexists. split; reflexivity. }
  split; [exact H403|].
  destruct (proj2 (fetch_books_retries_on_403 (always 403) (lit "Data Science") 40 start)
              H403) as (evs & Hrun & _ & Ha & Hz & _).
  exists evs. auto.
Defined.

Lemma fetch_books_gives_up_on_other_status_witness :
  always 500 (sent start) = OK {| status_code := 500; json := Raise JSONDecodeError |} /\
  exists evs,
    fetch_books (always 500) (lit "Data Science") 40 start
      = (OK (PList []), {| sent := 1%nat; trace := evs |}) /\
    evs = [HttpGet (lit "Data Science") 40; StError "Error fetching data: 500"] /\
    attempts evs = 1%nat /\ errors_reported evs = 1%nat /\ slept evs = 0.
Proof.
  split; [reflexivity|].
  apply (fetch_books_gives_up_on_other_status (always 500) (lit "Data Science") 40 start
           {| status_code := 500; json := Raise JSONDecodeError |} eq_refl);
    cbn [status_code]; lia.
Defined.

(** ** The order of stored values *)

Lemma number_compare_antisym (a b : number) :
  number_compare b a = CompOpp (number_compare a b).
Proof.
  destruct a, b; cbn [number_compare CompOpp]; try reflexivity.
  symmetry. apply Qcompare_antisym.
Qed.

Lemma number_compare_trans (a b c : number) :
  number_compare a b <> Gt -> number_compare b c <> Gt -> number_compare a c <> Gt.
Proof.
  destruct a, b, c; cbn [number_compare]; try congruence.
  rewrite <- !Qle_alt. apply Qle_trans.
Qed.

Lemma lex_compare_antisym (a b : list N) :
  lex_compare b a = CompOpp (lex_compare a b).
Proof.
  revert b. induction a as [|x a IH]; intros [|y b]; cbn [lex_compare CompOpp];
    try reflexivity.
  rewrite (N.compare_antisym x y).
  destruct (N.compare x y); cbn [CompOpp]; [apply IH|reflexivity|reflexivity].
Qed.

Lemma lex_compare_trans (a b c : list N) :
  lex_compare a b <> Gt -> lex_compare b c <> Gt -> lex_compare a c <> Gt.
Proof.
  revert b c. induction a as [|x a IH]; intros [|y b] [|z c]; cbn [lex_compare];
    try congruence.
  destruct (N.compare_spec x y) as [->|Hxy|Hxy]; [| |congruence].
  - destruct (N.compare_spec y z) as [->|Hyz|Hyz]; [apply IH|congruence|congruence].
  - destruct (N.compare_spec y z) as [->|Hyz|Hyz]; [| |congruence].
    + intros _ _. apply N.compare_lt_iff in Hxy. rewrite Hxy. discriminate.
    + intros _ _. assert (Hxz : (x < z)%N) by lia.
      apply N.compare_lt_iff in Hxz. rewrite Hxz. discriminate.
Qed.

Lemma number_compare_refl (a : number) : number_compare a a = Eq.
Proof. destruct a; cbn [number_compare]; try reflexivity. apply Qeq_alt, Qeq_refl. Qed.

Lemma lex_compare_refl (a : list N) : lex_compare a a = Eq.
Proof.
  induction a as [|x a IH]; cbn [lex_compare]; [reflexivity|].
  rewrite N.compare_refl. exact IH.
Qed.

Lemma sql_compare_refl (a : sqlval) : sql_compare a a = Eq.
Proof.
  destruct a; cbn [sql_compare storage_rank]; try reflexivity;
    first [apply number_compare_refl | apply lex_compare_refl].
Qed.

Lemma sql_compare_antisym (a b : sqlval) :
  sql_compare b a = CompOpp (sql_compare a b).
Proof.
  destruct a, b; cbn [sql_compare storage_rank]; try reflexivity;
    first [apply number_compare_antisym | apply lex_compare_antisym].
Qed.

Lemma sql_compare_trans (a b c : sqlval) :
  sql_compare a b <> Gt -> sql_compare b c <> Gt -> sql_compare a c <> Gt.
Proof.
  destruct a, b, c;
    cbn [sql_compare storage_rank Z.compare Pos.compare Pos.compare_cont];
    try congruence;
    first [apply number_compare_trans | apply lex_compare_trans].
Qed.

Lemma sql_leb_le (a b : sqlval) : sql_leb a b = true <-> sql_compare a b <> Gt.
Proof. unfold sql_leb. destruct (sql_compare a b); split; congruence. Qed.

Lemma sql_leb_total (a b : sqlval) : sql_leb a b = false -> sql_leb b a = true.
Proof.
  unfold sql_leb. rewrite (sql_compare_antisym a b).
  destruct (sql_compare a b); cbn [CompOpp]; congruence.
Qed.

Lemma sql_leb_trans (a b c : sqlval) :
  sql_leb a b = true -> sql_leb b c = true -> sql_leb a c = true.
Proof. rewrite !sql_leb_le. apply sql_compare_trans. Qed.

(** ** Sorting rows *)

Section Sorting.
Variable leb : list sqlval -> list sqlval -> bool.
Hypothesis leb_total : forall r1 r2, leb r1 r2 = false -> leb r2 r1 = true.
Hypothesis leb_trans : forall r1 r2 r3,
  leb r1 r2 = true -> leb r2 r3 = true -> leb r1 r3 = true.

Lemma insert_sorted_perm r rows : Permutation (insert_sorted leb r rows) (r :: rows).
Proof.
  induction rows as [|r' rows IH]; cbn [insert_sorted]; [reflexivity|].
  destruct (leb r r'); [reflexivity|].
  rewrite IH. apply perm_swap.
Qed.

Lemma order_rows_perm rows : Permutation (order_rows leb rows) rows.
Proof.
  induction rows as [|r rows IH]; cbn [order_rows fold_right]; [reflexivity|].
  fold (order_rows leb rows). rewrite insert_sorted_perm, IH. reflexivity.
Qed.

Lemma insert_sorted_sorted r rows :
  StronglySorted (fun a b => leb a b = true) rows ->
  StronglySorted (fun a b => leb a b = true) (insert_sorted leb r rows).
Proof.
  induction 1 as [|r' rows Hs IH Hall]; cbn [insert_sorted].
  - constructor; constructor.
  - destruct (leb r r') eqn:Hle.
    + constructor; [constructor; assumption|].
      constructor; [exact Hle|].
      eapply Forall_impl; [exact Hall|].
      intros r2 Hr2. cbn beta in Hr2. eapply leb_trans; eassumption.
    + constructor; [exact IH|].
      rewrite insert_sorted_perm. constructor; [|exact Hall].
      apply leb_total, Hle.
Qed.

Lemma order_rows_sorted rows :
  StronglySorted (fun a b => leb a b = true) (order_rows leb rows).
Proof.
  induction rows as [|r rows IH]; cbn [order_rows fold_right]; [constructor|].
  apply insert_sorted_sorted, IH.
Qed.

End Sorting.

Lemma StronglySorted_firstn {A} (R : A -> A -> Prop) (n : nat) (l : list A) :
  StronglySorted R l -> StronglySorted R (firstn n l).
Proof.
  intros Hs. revert n. induction Hs as [|a l Hs IH Hall]; intros [|n];
    cbn [firstn]; try constructor.
  - apply IH.
  - apply Forall_take, Hall.
Qed.

Lemma StronglySorted_map {A B} (f : A -> B) (R : B -> B -> Prop) (l : list A) :
  StronglySorted (fun a b => R (f a) (f b)) l -> StronglySorted R (List.map f l).
Proof.
  induction 1 as [|a l Hs IH Hall]; cbn [List.map]; constructor; [exact IH|].
  apply Forall_forall. intros y Hy. apply list_elem_of_In, in_map_iff in Hy.
  destruct Hy as (x & <- & Hx). rewrite Forall_forall in Hall.
  apply Hall, list_elem_of_In, Hx.
Qed.

Lemma row_leb_total i d r1 r2 : row_leb i d r1 r2 = false -> row_leb i d r2 r1 = true.
Proof. unfold row_leb. destruct d; apply sql_leb_total. Qed.

Lemma row_leb_trans i d r1 r2 r3 :
  row_leb i d r1 r2 = true -> row_leb i d r2 r3 = true -> row_leb i d r1 r3 = true.
Proof.
  unfold row_leb. destruct d; intros H12 H23; eapply sql_leb_trans; eassumption.
Qed.

(** ** QueryCatalog *)

Lemma top5_query :
  catalog_get "Top 5 Most Expensive Books" queries
  = Some "SELECT title, amount_retail_price FROM books ORDER BY amount_retail_price DESC LIMIT 5"%string.
Proof. vm_compute. reflexivity. Qed.

(** What the store answers to the "Top 5 Most Expensive Books" statement. *)
Lemma top5_result (db : database) (t : table) :
  db !! "books"%string = Some t ->
  tbl_schema t = books_schema ->
  query_database db
    "SELECT title, amount_retail_price FROM books ORDER BY amount_retail_price DESC LIMIT 5"
  = Some (OK {| rs_columns := ["title"; "amount_retail_price"]%string;
                rs_rows :=
                  List.map (fun r => [nth 1 r SNull; nth 17 r SNull])
                    (firstn 5 (order_rows (row_leb 17 true) (tbl_rows t))) |}).
Proof.
  intros Hdb Hschema. unfold query_database, parse_statement. rewrite parse_top5.
  cbn [exec_statement].
  unfold exec_select. cbn [sel_table sel_columns sel_order sel_limit].
  rewrite Hdb, Hschema. reflexivity.
Qed.

(** A statement of the fragment with [LIMIT n] returns at most [n] rows. *)
Lemma exec_select_limit (s : select) (db : database) (rs : result_set) (n : nat) :
  exec_select s db = OK rs -> sel_limit s = Some n -> (length (rs_rows rs) <= n)%nat.
Proof.
  unfold exec_select. intros Hrun Hlim.
  destruct (db !! sel_table s) as [t|]; [|discriminate].
  destruct (res_map _ (sel_columns s)) as [idxs|]; cbn [res_bind] in Hrun; [|discriminate].
  destruct (match sel_order s with Some _ => _ | None => _ end) as [ordered|];
    cbn [res_bind] in Hrun; [|discriminate].
  injection Hrun as <-. cbn [rs_rows]. rewrite Hlim, List.length_map, length_take. lia.
Qed.

Lemma exec_filtered_limit (s : select) (c : condition) (db : database)
    (rs : result_set) (n : nat) :
  exec_filtered s c db = OK rs -> sel_limit s = Some n -> (length (rs_rows rs) <= n)%nat.
Proof.
  unfold exec_filtered.
  destruct (db !! sel_table s) as [t|]; [|discriminate].
  destruct (select_where (Some c) t) as [rows|]; cbn [res_bind]; [|discriminate].
  apply exec_select_limit.
Qed.

Lemma exec_counted_limit (g : counted) (db : database) (rs : result_set) (n : nat) :
  exec_counted g db = OK rs -> cnt_limit g = Some n -> (length (rs_rows rs) <= n)%nat.
Proof.
  unfold exec_counted. intros Hrun Hlim.
  destruct (db !! cnt_table g) as [t|]; [|discriminate].
  destruct (col_index (tbl_schema t) (cnt_key g)) as [i|]; [|discriminate].
  destruct (select_where (cnt_where g) t) as [rows|]; cbn [res_bind] in Hrun;
    [|discriminate].
  injection Hrun as <-. cbn [rs_rows]. rewrite Hlim, length_take. lia.
Qed.

Lemma exec_statement_limit (st : statement) (db : database) (rs : result_set) (n : nat) :
  exec_statement st db = OK rs ->
  statement_limit st = Some n ->
  (length (rs_rows rs) <= n)%nat.
Proof.
  destruct st as [s|s c|g]; cbn [exec_statement statement_limit].
  - apply exec_select_limit.
  - apply exec_filtered_limit.
  - apply exec_counted_limit.
Qed.

(** A statement runs on a table that has the columns it names. *)
Lemma find_known (schema : list column) (cols : list string) :
  forallb (fun c => bool_decide (is_Some (col_index schema c))) cols = true ->
  exists idxs,
    res_map (fun c => match col_index schema c with
                      | Some i => OK i
                      | None => sql_step (Raise OperationalError)
                      end) cols = OK idxs.
Proof.
  induction cols as [|c cols IH]; cbn [forallb res_map]; [eauto|].
  intros [Hc Hcols]%andb_prop. apply bool_decide_eq_true in Hc as [i Hi].
  destruct (IH Hcols) as [idxs Hidxs]. rewrite Hi, Hidxs. cbn [res_bind]. eauto.
Qed.

Lemma exec_select_runs (s : select) (db : database) (t : table) :
  db !! sel_table s = Some t ->
  forallb (fun c => bool_decide (is_Some (col_index (tbl_schema t) c))) (select_names s)
    = true ->
  exists rs, exec_select s db = OK rs.
Proof.
  intros Hdb Hnames. unfold select_names in Hnames. rewrite forallb_app in Hnames.
  apply andb_prop in Hnames as [Hcols Hord].
  unfold exec_select. rewrite Hdb.
  destruct (find_known _ _ Hcols) as [idxs ->]. cbn [res_bind].
  destruct (sel_order s) as [[c d]|]; cbn [res_bind]; [|eauto].
  cbn [forallb] in Hord. apply andb_prop in Hord as [Hc _].
  apply bool_decide_eq_true in Hc as [i ->]. cbn [res_bind]. eauto.
Qed.

Lemma select_where_runs (c : option condition) (t : table) :
  match c with
  | Some c => is_Some (col_index (tbl_schema t) (cond_column c))
  | None => True
  end ->
  exists rows, select_where c t = OK rows.
Proof.
  destruct c as [c|]; cbn [select_where]; [|eauto].
  intros [i ->]. eauto.
Qed.

Lemma exec_statement_runs (st : statement) (db : database) (t : table) :
  db !! statement_table st = Some t ->
  names_known (tbl_schema t) st = true ->
  exists rs, exec_statement st db = OK rs.
Proof.
  unfold names_known.
  destruct st as [s|s c|g]; cbn [exec_statement statement_table statement_names];
    intros Hdb Hnames.
  - apply (exec_select_runs s db t Hdb Hnames).
  - cbn [forallb] in Hnames. apply andb_prop in Hnames as [Hc Hnames].
    apply bool_decide_eq_true in Hc.
    unfold exec_filtered. rewrite Hdb.
    destruct (select_where_runs (Some c) t Hc) as [rows ->]. cbn [res_bind].
    eapply exec_select_runs; [apply lookup_insert_eq|]. exact Hnames.
  - cbn [forallb] in Hnames. apply andb_prop in Hnames as [Hk Hw].
    apply bool_decide_eq_true in Hk as [i Hi].
    unfold exec_counted. rewrite Hdb, Hi.
    destruct (select_where_runs (cnt_where g) t) as [rows ->]; [|cbn [res_bind]; eauto].
    destruct (cnt_where g) as [c|]; [|exact I].
    cbn [forallb] in Hw. apply andb_prop in Hw as [Hc _].
    apply bool_decide_eq_true in Hc. exact Hc.
Qed.

(** In the catalogue, every statement named "Top N ..." is in the
    fragment, reads the books table, names columns of its schema only,
    and has N as its limit, which is the trailing [LIMIT] clause. *)
Lemma top_n_statements :
  forallb (fun e =>
    match top_n (fst e) with
    | Some n =>
        bool_decide (limit_clause (snd e) = Some n)
        && match parse_statement (snd e) with
           | Some st =>
               bool_decide (statement_table st = "books"%string)
               && bool_decide (statement_limit st = Some n)
               && names_known books_schema st
           | None => false
           end
    | None => true
    end) queries = true.
Proof. vm_compute. reflexivity. Qed.

Lemma top_n_statement (name q : string) (n : nat) :
  In (name, q) queries ->
  top_n name = Some n ->
  limit_clause q = Some n /\
  exists st,
    parse_statement q = Some st /\ statement_table st = "books"%string /\
    statement_limit st = Some n /\ names_known books_schema st = true.
Proof.
  intros Hin Hn.
  pose proof (proj1 (List.forallb_forall _ _) top_n_statements _ Hin) as Hq.
  cbn [fst snd] in Hq. rewrite Hn in Hq.
  apply andb_prop in Hq as [Hlim Hq]. apply bool_decide_eq_true in Hlim.
  split; [exact Hlim|].
  destruct (parse_statement q) as [st|]; [|discriminate].
  apply andb_prop in Hq as [[Ht Hl]%andb_prop Hk].
  apply bool_decide_eq_true in Ht, Hl. eauto.
Qed.

Lemma top3_authors_query :
  catalog_get "Top 3 Authors with Most Books" queries
  = Some "SELECT authors, COUNT(*) AS book_count FROM books GROUP BY authors ORDER BY book_count DESC LIMIT 3"%string.
Proof. vm_compute. reflexivity. Qed.

Lemma parse_top3_authors :
  parse_statement
    "SELECT authors, COUNT(*) AS book_count FROM books GROUP BY authors ORDER BY book_count DESC LIMIT 3"
  = Some (Counted {| cnt_key := "authors"; cnt_header := "book_count";
                     cnt_table := "books"; cnt_where := None;
                     cnt_descending := true; cnt_limit := Some 3%nat |}).
Proof. vm_compute. reflexivity. Qed.

(** What the store answers to the "Top 3 Authors with Most Books"
    statement. *)
Lemma top3_authors_result (db : database) (t : table) :
  db !! "books"%string = Some t ->
  tbl_schema t = books_schema ->
  query_database db
    "SELECT authors, COUNT(*) AS book_count FROM books GROUP BY authors ORDER BY book_count DESC LIMIT 3"
  = Some (OK {| rs_columns := ["authors"; "book_count"]%string;
                rs_rows :=
                  firstn 3 (order_rows (row_leb 1 true) (counted_rows 3 (tbl_rows t))) |}).
Proof.
  intros Hdb Hschema. unfold query_database. rewrite parse_top3_authors.
  cbn [exec_statement]. unfold exec_counted.
  cbn [cnt_table cnt_key cnt_header cnt_where cnt_descending cnt_limit].
  rewrite Hdb, Hschema. reflexivity.
Qed.

(** *** Groups *)

Lemma sql_compare_Eq_sym (a b : sqlval) : sql_compare a b = Eq -> sql_compare b a = Eq.
Proof. intros Hab. rewrite (sql_compare_antisym a b), Hab. reflexivity. Qed.

Lemma sql_compare_Gt_Lt (a b : sqlval) : sql_compare a b = Gt -> sql_compare b a = Lt.
Proof. intros Hab. rewrite (sql_compare_antisym a b), Hab. reflexivity. Qed.

Lemma sql_compare_Lt_Gt (a b : sqlval) : sql_compare a b = Lt -> sql_compare b a = Gt.
Proof. intros Hab. rewrite (sql_compare_antisym a b), Hab. reflexivity. Qed.

Lemma sql_compare_Eq_trans (a b c : sqlval) :
  sql_compare a b = Eq -> sql_compare b c = Eq -> sql_compare a c = Eq.
Proof.
  intros Hab Hbc.
  assert (Hac : sql_compare a c <> Gt).
  { apply (sql_compare_trans a b c); congruence. }
  assert (Hca : sql_compare c a <> Gt).
  { apply (sql_compare_trans c b a); rewrite sql_compare_antisym;
      [rewrite Hbc|rewrite Hab]; discriminate. }
  rewrite (sql_compare_antisym a c) in Hca.
  destruct (sql_compare a c); cbn [CompOpp] in Hca; congruence.
Qed.

Lemma sql_compare_Lt_trans (a b c : sqlval) :
  sql_compare a b = Lt -> sql_compare b c = Lt -> sql_compare a c = Lt.
Proof.
  intros Hab Hbc.
  assert (Hac : sql_compare a c <> Gt).
  { apply (sql_compare_trans a b c); congruence. }
  destruct (sql_compare a c) eqn:E; [|reflexivity|congruence].
  exfalso.
  assert (Hcb : sql_compare c b <> Gt).
  { apply (sql_compare_trans c a b); [|congruence].
    rewrite (sql_compare_Eq_sym _ _ E). discriminate. }
  rewrite (sql_compare_Lt_Gt _ _ Hbc) in Hcb. congruence.
Qed.

Lemma sql_same_class (a b c : sqlval) :
  sql_compare a b = Eq -> sql_same a c = sql_same b c.
Proof.
  intros Hab. unfold sql_same.
  destruct (sql_compare b c) eqn:Hbc.
  - rewrite (sql_compare_Eq_trans a b c Hab Hbc). reflexivity.
  - destruct (sql_compare a c) eqn:Hac; try reflexivity.
    rewrite (sql_compare_Eq_trans b a c (sql_compare_Eq_sym _ _ Hab) Hac) in Hbc.
    discriminate.
  - destruct (sql_compare a c) eqn:Hac; try reflexivity.
    rewrite (sql_compare_Eq_trans b a c (sql_compare_Eq_sym _ _ Hab) Hac) in Hbc.
    discriminate.
Qed.

(** The rows counted for a key in a list of groups. *)
Lemma count_in_add (k k0 : sqlval) (groups : list (sqlval * nat)) :
  list_sum (List.map snd (List.filter (fun g => sql_same (fst g) k)
                            (add_to_groups k0 groups)))
  = ((if sql_same k0 k then 1 else 0)
     + list_sum (List.map snd (List.filter (fun g => sql_same (fst g) k) groups)))%nat.
Proof.
  unfold list_sum.
  induction groups as [|[k' n] groups IH]; cbn [add_to_groups List.filter fst].
  - destruct (sql_same k0 k); reflexivity.
  - destruct (sql_compare k0 k') eqn:E; cbn [List.filter fst].
    + rewrite (sql_same_class k0 k' k E).
      destruct (sql_same k' k); cbn [List.map snd fold_right]; lia.
    + destruct (sql_same k0 k), (sql_same k' k); cbn [List.map snd fold_right]; lia.
    + destruct (sql_same k' k); cbn [List.map snd fold_right]; rewrite IH; lia.
Qed.

Lemma count_in_groups (k : sqlval) (keys : list sqlval) :
  list_sum (List.map snd (List.filter (fun g => sql_same (fst g) k) (group_counts keys)))
  = length (List.filter (fun k0 => sql_same k0 k) keys).
Proof.
  unfold group_counts.
  assert (Hgen : forall groups,
            list_sum (List.map snd (List.filter (fun g => sql_same (fst g) k)
                        (fold_left (fun g k0 => add_to_groups k0 g) keys groups)))
            = (list_sum (List.map snd (List.filter (fun g => sql_same (fst g) k) groups))
               + length (List.filter (fun k0 => sql_same k0 k) keys))%nat).
  { induction keys as [|k0 keys IH]; intros groups; cbn [fold_left List.filter length];
      [lia|].
    rewrite IH, count_in_add. destruct (sql_same k0 k); cbn [length]; lia. }
  rewrite Hgen. reflexivity.
Qed.

Lemma add_to_groups_keys (Q : sqlval -> Prop) (k : sqlval) (groups : list (sqlval * nat)) :
  Q k -> Forall (fun g => Q (fst g)) groups ->
  Forall (fun g => Q (fst g)) (add_to_groups k groups).
Proof.
  intros Hk. induction 1 as [|[k' n] groups Hg Hgs IH]; cbn [add_to_groups].
  - constructor; [exact Hk|constructor].
  - destruct (sql_compare k k'); repeat constructor; assumption.
Qed.

(** The keys of the groups are in ascending order, without repetition. *)
Lemma add_to_groups_sorted (k : sqlval) (groups : list (sqlval * nat)) :
  StronglySorted (fun g g' => sql_compare (fst g) (fst g') = Lt) groups ->
  StronglySorted (fun g g' => sql_compare (fst g) (fst g') = Lt) (add_to_groups k groups).
Proof.
  induction 1 as [|[k' n] groups Hs IH Hall]; cbn [add_to_groups].
  - constructor; constructor.
  - destruct (sql_compare k k') eqn:E.
    + constructor; [exact Hs|exact Hall].
    + constructor; [constructor; assumption|].
      constructor; [exact E|].
      eapply Forall_impl; [exact Hall|]. cbn beta. intros g Hg.
      apply (sql_compare_Lt_trans _ _ _ E Hg).
    + constructor; [exact IH|].
      apply (add_to_groups_keys (fun x => sql_compare k' x = Lt)); [|exact Hall].
      apply sql_compare_Gt_Lt, E.
Qed.

Lemma group_counts_sorted (keys : list sqlval) :
  StronglySorted (fun g g' => sql_compare (fst g) (fst g') = Lt) (group_counts keys).
Proof.
  unfold group_counts.
  assert (Hgen : forall groups,
            StronglySorted (fun g g' => sql_compare (fst g) (fst g') = Lt) groups ->
            StronglySorted (fun g g' => sql_compare (fst g) (fst g') = Lt)
              (fold_left (fun g k0 => add_to_groups k0 g) keys groups)).
  { induction keys as [|k keys IH]; intros groups Hs; cbn [fold_left]; [exact Hs|].
    apply IH, add_to_groups_sorted, Hs. }
  apply Hgen. constructor.
Qed.

Lemma group_counts_keys (keys : list sqlval) :
  Forall (fun g => In (fst g) keys) (group_counts keys).
Proof.
  unfold group_counts.
  assert (Hgen : forall groups seen,
            Forall (fun g => In (fst g) seen) groups ->
            Forall (fun g => In (fst g) (seen ++ keys))
              (fold_left (fun g k0 => add_to_groups k0 g) keys groups)).
  { induction keys as [|k keys IH]; intros groups seen Hg; cbn [fold_left].
    - rewrite app_nil_r. exact Hg.
    - replace (seen ++ k :: keys) with ((seen ++ [k]) ++ keys)
        by (rewrite <- app_assoc; reflexivity).
      apply IH. apply (add_to_groups_keys (fun x => In x (seen ++ [k]))).
      + apply in_or_app. right. left. reflexivity.
      + eapply Forall_impl; [exact Hg|]. cbn beta. intros g Hin.
        apply in_or_app. left. exact Hin. }
  apply (Hgen [] []). constructor.
Qed.

(** In sorted groups, the rows counted for the key of a group are those
    of that group. *)
Lemma count_in_sorted (groups : list (sqlval * nat)) :
  StronglySorted (fun g g' => sql_compare (fst g) (fst g') = Lt) groups ->
  Forall (fun g =>
    list_sum (List.map snd (List.filter (fun g' => sql_same (fst g') (fst g)) groups))
    = snd g) groups.
Proof.
  unfold list_sum.
  induction 1 as [|[k n] groups Hs IH Hall]; constructor.
  - cbn [List.filter fst snd]. unfold sql_same at 1. rewrite sql_compare_refl.
    cbn [List.map snd fold_right].
    replace (List.filter (fun g' => sql_same (fst g') k) groups) with (@nil (sqlval * nat)).
    + cbn. lia.
    + symmetry. clear Hs IH. induction Hall as [|g groups Hg _ IHg]; [reflexivity|].
      cbn [List.filter]. unfold sql_same at 1. cbn [fst] in Hg.
      rewrite (sql_compare_Lt_Gt _ _ Hg). exact IHg.
  - rewrite Forall_forall in Hall. rewrite Forall_forall in IH. apply Forall_forall.
    intros g Hin. cbn [List.filter fst]. unfold sql_same at 1.
    pose proof (Hall g Hin) as Hlt. cbn [fst] in Hlt. rewrite Hlt. apply IH, Hin.
Qed.

(** Each group holds the number of the keys equal to its own, which is
    one of them. *)
Lemma group_counts_spec (keys : list sqlval) :
  Forall (fun g =>
    In (fst g) keys /\
    snd g = length (List.filter (fun k => sql_same k (fst g)) keys))
    (group_counts keys).
Proof.
  pose proof (count_in_sorted _ (group_counts_sorted keys)) as Hc.
  pose proof (group_counts_keys keys) as Hk.
  rewrite Forall_forall in Hc. rewrite Forall_forall in Hk. apply Forall_forall.
  intros g Hin. split; [apply Hk, Hin|].
  rewrite <- (Hc g Hin). apply count_in_groups.
Qed.

(** The groups of the rows of a table by the column [i]: each group
    counts the rows whose value equals its key, and has one at least. *)
Lemma counted_groups_spec (i : nat) (rows : list (list sqlval)) :
  Forall (fun g =>
    (1 <= snd g)%nat /\
    snd g = length (List.filter (fun r => sql_same (nth i r SNull) (fst g)) rows))
    (group_counts (List.map (fun r => nth i r SNull) rows)).
Proof.
  eapply Forall_impl; [apply group_counts_spec|]. cbn beta.
  intros g [Hin Hn].
  assert (Hlen : forall k,
            length (List.filter (fun k0 => sql_same k0 k)
                      (List.map (fun r => nth i r SNull) rows))
            = length (List.filter (fun r => sql_same (nth i r SNull) k) rows)).
  { intros k. clear. induction rows as [|r rows IH]; [reflexivity|].
    cbn [List.map List.filter]. destruct (sql_same (nth i r SNull) k); cbn [length];
      rewrite IH; reflexivity. }
  rewrite Hlen in Hn. split; [|exact Hn].
  rewrite Hn, <- Hlen.
  assert (Hmem : In (fst g) (List.filter (fun k0 => sql_same k0 (fst g))
                               (List.map (fun r => nth i r SNull) rows))).
  { apply filter_In. split; [exact Hin|].
    unfold sql_same. rewrite sql_compare_refl. reflexivity. }
  revert Hmem.
  generalize (List.filter (fun k0 => sql_same k0 (fst g))
                (List.map (fun r => nth i r SNull) rows)).
  intros [|x l] Hmem; [exfalso; exact Hmem|cbn [length]; lia].
Qed.

(** The counts of the groups add up to the number of rows. *)
Lemma add_to_groups_total (k : sqlval) (groups : list (sqlval * nat)) :
  list_sum (List.map snd (add_to_groups k groups))
  = S (list_sum (List.map snd groups)).
Proof.
  unfold list_sum.
  induction groups as [|[k' n] groups IH]; cbn [add_to_groups]; [reflexivity|].
  destruct (sql_compare k k'); cbn [List.map snd fold_right]; lia.
Qed.

Lemma group_counts_total (keys : list sqlval) :
  list_sum (List.map snd (group_counts keys)) = length keys.
Proof.
  unfold group_counts.
  assert (Hgen : forall groups,
            list_sum (List.map snd (fold_left (fun g k => add_to_groups k g) keys groups))
            = (list_sum (List.map snd groups) + length keys)%nat).
  { induction keys as [|k keys IH]; intros groups; cbn [fold_left length]; [lia|].
    rewrite IH, add_to_groups_total. lia. }
  rewrite Hgen. reflexivity.
Qed.

(** C6: the catalogue has exactly 20 entries, with distinct names, each
    a SELECT statement; every entry named "Top N ..." ends in the clause
    LIMIT N of its own statement; on every file whose books table has the
    schema of [initialize_database], each of the seven such statements
    runs, and its result, which [query_database] hands back as it is,
    has at most N rows, whatever the rows of the table, and so has every
    result of such a statement on any file; the statement of "Top 5 Most
    Expensive Books" returns title and retail price of at most 5 rows,
    taken from the head of the table's rows arranged by descending retail
    price; and the statement of "Top 3 Authors with Most Books" returns
    at most 3 of the groups of rows with equal authors, each with the
    number of the rows of the table that have these authors, taken from
    the head of the groups arranged by descending number. *)
Theorem catalog_top_n_capped_by_limit :
  length queries = 20%nat /\
  NoDup (List.map fst queries) /\
  forallb (fun e => is_select (snd e)) queries = true /\
  List.map fst top_n_entries
    = ["Top 5 Most Expensive Books"; "Top 3 Authors with Most Books";
       "Top 3 Most Popular Books by Rating"; "Top 5 Most Expensive eBooks";
       "Top 5 Books by Ratings Count"; "Top 5 Books by Category";
       "Top 3 Publishers with the Most eBooks"]%string /\
  (forall name q n,
     In (name, q) queries -> top_n name = Some n -> limit_clause q = Some n) /\
  (forall name q n (db : database) (t : table),
     In (name, q) queries -> top_n name = Some n ->
     db !! "books"%string = Some t ->
     tbl_schema t = books_schema ->
     exists rs,
       query_database db q = Some (OK rs) /\ (length (rs_rows rs) <= n)%nat) /\
  (forall name q n (db : database) rs,
     In (name, q) queries -> top_n name = Some n ->
     query_database db q = Some (OK rs) -> (length (rs_rows rs) <= n)%nat) /\
  (exists q,
     catalog_get "Top 5 Most Expensive Books" queries = Some q /\
     forall (db : database) (t : table),
       db !! "books"%string = Some t ->
       tbl_schema t = books_schema ->
       exists rs rows,
         query_database db q = Some (OK rs) /\
         rs_columns rs = ["title"; "amount_retail_price"]%string /\
         (length (rs_rows rs) <= 5)%nat /\
         length (rs_rows rs) = Nat.min 5 (length (tbl_rows t)) /\
         descending (List.map (fun row => nth 1 row SNull) (rs_rows rs)) /\
         Permutation rows (tbl_rows t) /\
         descending (List.map (fun r => nth 17 r SNull) rows) /\
         rs_rows rs = List.map (fun r => [nth 1 r SNull; nth 17 r SNull]) (firstn 5 rows)) /\
  exists q,
    catalog_get "Top 3 Authors with Most Books" queries = Some q /\
    forall (db : database) (t : table),
      db !! "books"%string = Some t ->
      tbl_schema t = books_schema ->
      exists rs groups rows,
        query_database db q = Some (OK rs) /\
        rs_columns rs = ["authors"; "book_count"]%string /\
        (length (rs_rows rs) <= 3)%nat /\
        length (rs_rows rs) = Nat.min 3 (length groups) /\
        descending (List.map (fun row => nth 1 row SNull) (rs_rows rs)) /\
        groups = group_counts (List.map (fun r => nth 3 r SNull) (tbl_rows t)) /\
        list_sum (List.map snd groups) = length (tbl_rows t) /\
        Forall (fun g =>
          (1 <= snd g)%nat /\
          snd g = length (List.filter (fun r => sql_same (nth 3 r SNull) (fst g))
                            (tbl_rows t))) groups /\
        Permutation rows
          (List.map (fun g => [fst g; SInteger (Z.of_nat (snd g))]) groups) /\
        descending (List.map (fun row => nth 1 row SNull) rows) /\
        rs_rows rs = firstn 3 rows.
Proof.
  split; [reflexivity|].
  split; [apply (bool_decide_unpack _); vm_compute; exact I|].
  split; [vm_compute; reflexivity|].
  split; [vm_compute; reflexivity|].
  split; [|split; [|split; [|split]]].
  - intros name q n Hin Hn. apply (top_n_statement name q n Hin Hn).
  - intros name q n db t Hin Hn Hdb Hschema.
    destruct (top_n_statement name q n Hin Hn) as (_ & st & Hst & Ht & Hl & Hk).
    unfold query_database. rewrite Hst.
    rewrite <- Ht in Hdb. rewrite <- Hschema in Hk.
    destruct (exec_statement_runs st db t Hdb Hk) as [rs Hrs].
    exists rs. rewrite Hrs. split; [reflexivity|].
    apply (exec_statement_limit st db rs n Hrs Hl).
  - intros name q n db rs Hin Hn Hrun.
    destruct (top_n_statement name q n Hin Hn) as (_ & st & Hst & _ & Hl & _).
    unfold query_database in Hrun. rewrite Hst in Hrun. injection Hrun as Hrun.
    apply (exec_statement_limit st db rs n Hrun Hl).
  - eexists. split; [apply top5_query|].
    intros db t Hdb Hschema.
    pose proof (order_rows_sorted _ (row_leb_total 17 true) (row_leb_trans 17 true)
                  (tbl_rows t)) as Hsorted.
    pose proof (order_rows_perm (row_leb 17 true) (tbl_rows t)) as Hperm.
    eexists. exists (order_rows (row_leb 17 true) (tbl_rows t)).
    split; [apply (top5_result db t Hdb Hschema)|].
    cbn [rs_columns rs_rows].
    split; [reflexivity|].
    rewrite List.length_map, length_take, (Permutation_length Hperm).
    split; [lia|]. split; [reflexivity|].
    split; [|split; [exact Hperm|split; [|reflexivity]]].
    + rewrite List.map_map. cbn [nth].
      apply StronglySorted_map, StronglySorted_firstn. exact Hsorted.
    + apply StronglySorted_map. exact Hsorted.
  - eexists. split; [apply top3_authors_query|].
    intros db t Hdb Hschema.
    pose proof (order_rows_sorted _ (row_leb_total 1 true) (row_leb_trans 1 true)
                  (counted_rows 3 (tbl_rows t))) as Hsorted.
    pose proof (order_rows_perm (row_leb 1 true) (counted_rows 3 (tbl_rows t))) as Hperm.
    eexists. exists (group_counts (List.map (fun r => nth 3 r SNull) (tbl_rows t))).
    exists (order_rows (row_leb 1 true) (counted_rows 3 (tbl_rows t))).
    split; [apply (top3_authors_result db t Hdb Hschema)|].
    cbn [rs_columns rs_rows].
    split; [reflexivity|].
    rewrite length_take, (Permutation_length Hperm).
    unfold counted_rows at 1 2. rewrite List.length_map.
    split; [lia|]. split; [reflexivity|].
    split; [apply StronglySorted_map, StronglySorted_firstn; exact Hsorted|].
    split; [reflexivity|].
    split; [rewrite group_counts_total; apply List.length_map|].
    split; [apply counted_groups_spec|].
    split; [exact Hperm|].
    split; [apply StronglySorted_map; exact Hsorted|reflexivity].
Qed.

Lemma catalog_top_n_capped_by_limit_witness :
  exists q rs,
    catalog_get "Top 5 Most Expensive Books" queries = Some q /\
    query_database shelf q = Some (OK rs) /\
    (length (rs_rows rs) <= 5)%nat /\
    descending (List.map (fun row => nth 1 row SNull) (rs_rows rs)).
Proof.
  destruct catalog_top_n_capped_by_limit
    as (_ & _ & _ & _ & _ & _ & _ & (q & Hq & Hrun) & _).
  destruct (Hrun shelf {| tbl_schema := books_schema;
                          tbl_rows := [ priced "Cheap" (SReal (S754_finite false 8444249301319680 (-50)));
                                        priced "Dear" (SInteger 20);
                                        priced "Free" SNull;
                                        priced "Fair" (SInteger 8) ] |}
              eq_refl eq_refl)
    as (rs & rows & Hrs & _ & Hlen & _ & Hdesc & _).
  exists q, rs. auto.
Defined.

Example parsed_statements :
  List.map fst
    (List.filter (fun e => bool_decide (is_Some (parse_statement (snd e)))) queries)
  = ["Publisher with Most Books Published"; "Top 5 Most Expensive Books";
     "Top 3 Authors with Most Books"; "Top 3 Most Popular Books by Rating";
     "Top 5 Most Expensive eBooks"; "Top 5 Books by Ratings Count";
     "Top 5 Books by Category"; "Top 3 Publishers with the Most eBooks"]%string.
Proof. vm_compute. reflexivity. Qed.

Example top3_authors_on_stacks :
  query_database stacks
    "SELECT authors, COUNT(*) AS book_count FROM books GROUP BY authors ORDER BY book_count DESC LIMIT 3"
  = Some (OK {| rs_columns := ["authors"; "book_count"]%string;
                rs_rows :=
                  [ [SText (lit "Austen"); SInteger 3];
                    [SText (lit "Joyce"); SInteger 2];
                    [SText (lit "Thoreau"); SInteger 1] ] |}).
Proof. vm_compute. reflexivity. Qed.

Example top5_ebooks_on_stacks :
  query_database stacks
    "SELECT title, amount_retail_price FROM books WHERE is_ebook = 1 ORDER BY amount_retail_price DESC LIMIT 5"
  = Some (OK {| rs_columns := ["title"; "amount_retail_price"]%string;
                rs_rows :=
                  [ [SText (lit "Persuasion"); SInteger 7];
                    [SText (lit "Emma"); SInteger 5];
                    [SText (lit "Walden"); SInteger 3];
                    [SText (lit "Dubliners"); SNull] ] |}).
Proof. vm_compute. reflexivity. Qed.

Example top3_publishers_on_stacks :
  query_database stacks
    "SELECT publisher, COUNT(*) FROM books WHERE is_ebook = 1 GROUP BY publisher ORDER BY COUNT(*) DESC LIMIT 3"
  = Some (OK {| rs_columns := ["publisher"; "COUNT(*)"]%string;
                rs_rows :=
                  [ [SText (lit "Penguin"); SInteger 3];
                    [SText (lit "Dover"); SInteger 1] ] |}).
Proof. vm_compute. reflexivity. Qed.

Example top5_on_shelf :
  query_database shelf
    "SELECT title, amount_retail_price FROM books ORDER BY amount_retail_price DESC LIMIT 5"
  = Some (OK {| rs_columns := ["title"; "amount_retail_price"]%string;
                rs_rows :=
                  [ [SText (lit "Dear"); SInteger 20];
                    [SText (lit "Fair"); SInteger 8];
                    [SText (lit "Cheap"); SReal (S754_finite false 8444249301319680 (-50))];
                    [SText (lit "Free"); SNull] ] |}).
Proof. vm_compute. reflexivity. Qed.

(** ** Store *)

(** C8: once the books table exists, [initialize_database] raises
    nothing and leaves the file, hence the schema, as it is; this holds
    for the second call and for any number of further calls. *)
Theorem initialize_database_idempotent :
  (forall (db : database) (t : table),
     db !! "books"%string = Some t -> initialize_database db = OK db) /\
  (forall db : database, exists db1 t,
     initialize_database db = OK db1 /\
     db1 !! "books"%string = Some t /\
     (db !! "books"%string = None -> tbl_schema t = books_schema) /\
     initialize_database db1 = OK db1 /\
     forall n, initialize_times n db1 = OK db1).
Proof.
  assert (Hkeep : forall (db : database) (t : table),
            db !! "books"%string = Some t -> initialize_database db = OK db).
  { intros db t Hdb. unfold initialize_database, create_table. rewrite Hdb. reflexivity. }
  split; [exact Hkeep|].
  intros db.
  assert (Hfirst : exists db1 t,
            initialize_database db = OK db1 /\ db1 !! "books"%string = Some t /\
            (db !! "books"%string = None -> tbl_schema t = books_schema)).
  { unfold initialize_database, create_table.
    destruct (db !! "books"%string) as [t|] eqn:Hdb.
    - exists db, t. repeat split; [exact Hdb|discriminate].
    - eexists _, _. split; [reflexivity|]. split; [apply lookup_insert_eq|]. reflexivity. }
  destruct Hfirst as (db1 & t & Hinit & Hdb1 & Hschema).
  exists db1, t. repeat split; try assumption.
  - apply (Hkeep db1 t Hdb1).
  - intros n. induction n as [|n IH]; cbn [initialize_times]; [reflexivity|].
    rewrite (Hkeep db1 t Hdb1). cbn [res_bind]. exact IH.
Qed.

Lemma initialize_database_idempotent_witness :
  exists db1,
    initialize_database ∅ = OK db1 /\
    initialize_database db1 = OK db1 /\
    initialize_database shelf = OK shelf.
Proof.
  destruct initialize_database_idempotent as [Hkeep Hinit].
  destruct (Hinit ∅) as (db1 & t & H1 & _ & _ & H2 & _).
  exists db1. split; [exact H1|]. split; [exact H2|].
  eapply Hkeep. reflexivity.
Defined.

Section Store.
Context `{Backend}.

Lemma bind_cells_storable (cells : list (string * pyval)) :
  forallb (fun c => match bind_param (snd c) with OK _ => true | Raise _ => false end)
    cells = true ->
  bind_cells cells = OK (List.map (fun c => (fst c, bound (snd c))) cells).
Proof.
  unfold bind_cells.
  induction cells as [|c cells IH]; cbn [forallb res_map List.map]; [reflexivity|].
  intros [Hc Hcells]%andb_prop. unfold bound at 1.
  destruct (bind_param (snd c)); [|discriminate]. cbn [res_bind].
  rewrite (IH Hcells). reflexivity.
Qed.

Lemma bind_cells_unstorable (cells : list (string * pyval)) :
  forallb (fun c => match bind_param (snd c) with OK _ => true | Raise _ => false end)
    cells = false ->
  raises (bind_cells cells).
Proof.
  unfold bind_cells.
  induction cells as [|c cells IH]; cbn [forallb res_map]; [discriminate|].
  destruct (bind_param (snd c)); cbn [res_bind andb]; [|intros _; exact I].
  intros Hcells. specialize (IH Hcells).
  destruct (res_map _ cells); [destruct IH|exact I].
Qed.

Lemma known_columns_books (r : BookRecord) : known_columns books_schema r = true.
Proof. reflexivity. Qed.

Lemma pk_value_row_of (r : BookRecord) :
  pk_value books_schema (row_of r) = affinity TEXT (bound (book_id r)).
Proof. reflexivity. Qed.

Lemma collides_false (schema : list column) (rows : list (list sqlval))
    (row : list sqlval) :
  Forall (fun k => same_key k (pk_value schema row) = false)
    (List.map (pk_value schema) rows) ->
  collides schema rows row = false.
Proof.
  unfold collides.
  induction rows as [|r rows IH]; cbn [List.map existsb]; [reflexivity|].
  intros Hall. inversion Hall as [|k ks Hk Hks]; subst.
  rewrite Hk, (IH Hks). reflexivity.
Qed.

(** Without a clash of keys, the inserts of a storable frame add its
    rows after the old ones, in order. *)
Lemma insert_frame_appends (df : DataFrame) :
  forall rows : list (list sqlval),
    forallb storable df = true ->
    no_clash (List.map (pk_value books_schema) rows) (frame_keys df) ->
    insert_frame books_schema rows df = OK (rows ++ List.map row_of df).
Proof.
  induction df as [|r df IH]; intros rows Hst [Hold Hnew];
    cbn [insert_frame List.map forallb frame_keys] in *.
  - rewrite app_nil_r. reflexivity.
  - apply andb_prop in Hst as [Hr Hdf].
    rewrite known_columns_books. cbn [negb].
    rewrite (bind_cells_storable _ Hr). cbn [sql_step res_bind].
    fold (row_of r).
    inversion Hnew as [|k ks Hk Hks]; subst.
    rewrite collides_false.
    + rewrite IH; [rewrite <- app_assoc; reflexivity|exact Hdf|].
      split; [|exact Hks].
      rewrite List.map_app. apply Forall_app. split.
      * eapply Forall_impl; [exact Hold|].
        intros k' Hk'. cbn beta in Hk'. inversion Hk'; assumption.
      * cbn [List.map]. constructor; [|constructor].
        rewrite pk_value_row_of. exact Hk.
    + rewrite pk_value_row_of.
      eapply Forall_impl; [exact Hold|].
      intros k' Hk'. cbn beta in Hk'. inversion Hk'; assumption.
Qed.

(** C7 (as amended): for every batch of N rows whose cells SQLite can
    bind and whose keys clash neither with each other nor with the keys
    of the rows already in the books table (the one of
    [initialize_database]), [save_to_database] succeeds, the table has N
    rows more, the rows it had come first and are unchanged, and so are
    the schema and the other tables. *)
Theorem save_to_database_appends (db : database) (t : table) (df : DataFrame) :
  db !! "books"%string = Some t ->
  tbl_schema t = books_schema ->
  forallb storable df = true ->
  no_clash (table_keys t) (frame_keys df) ->
  exists db' t',
    save_to_database db df = OK db' /\
    db' !! "books"%string = Some t' /\
    tbl_schema t' = tbl_schema t /\
    length (tbl_rows t') = (length (tbl_rows t) + length df)%nat /\
    firstn (length (tbl_rows t)) (tbl_rows t') = tbl_rows t /\
    tbl_rows t' = tbl_rows t ++ List.map row_of df /\
    forall name, name <> "books"%string -> db' !! name = db !! name.
Proof.
  intros Hdb Hschema Hst Hkeys. unfold table_keys in Hkeys. rewrite Hschema in Hkeys.
  unfold save_to_database. rewrite Hdb, Hschema.
  rewrite (insert_frame_appends df (tbl_rows t) Hst Hkeys). cbn [res_bind].
  eexists _, _. split; [reflexivity|].
  split; [apply lookup_insert_eq|]. cbn [tbl_schema tbl_rows].
  split; [reflexivity|].
  split; [rewrite List.length_app, List.length_map; reflexivity|].
  split; [rewrite take_app_length; reflexivity|].
  split; [reflexivity|].
  intros name Hname. apply lookup_insert_ne. congruence.
Qed.

(** A cell that cannot be bound makes the whole append fail. *)
Lemma save_to_database_unstorable (db : database) (t : table) (r : BookRecord)
    (df : DataFrame) :
  db !! "books"%string = Some t ->
  tbl_schema t = books_schema ->
  storable r = false ->
  raises (save_to_database db (r :: df)).
Proof.
  intros Hdb Hschema Hr. unfold save_to_database. rewrite Hdb, Hschema.
  cbn [insert_frame]. rewrite known_columns_books. cbn [negb].
  pose proof (bind_cells_unstorable _ Hr) as Hraise.
  destruct (bind_cells (record_cells r)); [destruct Hraise|exact I].
Qed.

End Store.

(** C7 (as stated) fails: the row of a volume whose page count is 2^70
    clashes with no key, and the append raises instead of adding it. *)
Lemma save_to_database_overflow :
  @transform_data ascii_only inferring [volume_huge]
    = OK [@record_of ascii_only volume_huge] /\
  no_clash (table_keys one_book) (@frame_keys verbatim [@record_of ascii_only volume_huge]) /\
  @save_to_database verbatim library [@record_of ascii_only volume_huge]
    = Raise OverflowError.
Proof.
  split; [vm_compute; reflexivity|]. split; [|vm_compute; reflexivity].
  split; repeat constructor.
Qed.

Lemma save_to_database_appends_witness :
  forallb storable (List.map (@record_of ascii_only) [volume_full; volume_anonymous]) = true /\
  exists db' t',
    @save_to_database verbatim library
       (List.map (@record_of ascii_only) [volume_full; volume_anonymous]) = OK db' /\
    db' !! "books"%string = Some t' /\
    length (tbl_rows t') = 3%nat /\
    firstn 1 (tbl_rows t') = tbl_rows one_book.
Proof.
  split; [reflexivity|].
  assert (Hkeys : no_clash (table_keys one_book)
            (@frame_keys verbatim
               (List.map (@record_of ascii_only) [volume_full; volume_anonymous]))).
  { split; repeat constructor. }
  destruct (@save_to_database_appends verbatim library one_book
              (List.map (@record_of ascii_only) [volume_full; volume_anonymous])
              eq_refl eq_refl eq_refl Hkeys)
    as (db' & t' & Hsave & Hdb' & _ & Hlen & Hold & _).
  exists db', t'. auto.
Defined.

(** * Further properties of the code *)

(** ** Fetcher: the attempts after the first *)

Lemma rate_limit_events_S (q : pystr) (m : Z) (k : nat) :
  rate_limit_events q m (S k)
  = [HttpGet q m; StWarning "API request limit reached. Retrying in 10 seconds...";
     Sleep 10] ++ rate_limit_events q m k.
Proof. reflexivity. Qed.

Lemma rate_limit_events_count (q : pystr) (m : Z) (k : nat) :
  attempts (rate_limit_events q m k) = k /\
  slept (rate_limit_events q m k) = 10 * Z.of_nat k /\
  errors_reported (rate_limit_events q m k) = 0%nat.
Proof.
  induction k as [|k (Ha & Hz & He)]; [repeat split; reflexivity|].
  rewrite rate_limit_events_S, attempts_app, slept_app.
  unfold errors_reported in *. rewrite List.filter_app, List.length_app, He, Ha, Hz.
  repeat split; cbn; lia.
Qed.

Section FetcherRetries.
Variables (srv : service) (q : pystr) (max_results : Z).

(** After [k] answers 403 the loop is where it started, [k] iterations,
    [k] requests and [k] sleeps later. *)
Lemma fetch_loop_after_403s (k : nat) :
  forall (n : nat) (w : world),
    limited srv w k ->
    fetch_loop srv q max_results (k + n) w
    = fetch_loop srv q max_results n
        {| sent := (sent w + k)%nat;
           trace := trace w ++ rate_limit_events q max_results k |}.
Proof.
  induction k as [|k IH]; intros n w Hk.
  - cbn [Nat.add rate_limit_events repeat concat].
    rewrite Nat.add_0_r, app_nil_r. destruct w; reflexivity.
  - destruct (Hk 0%nat ltac:(lia)) as (r & Hs & E). rewrite Nat.add_0_r in Hs.
    cbn [Nat.add]. rewrite fetch_loop_S, Hs, E. cbn [Z.eqb Pos.eqb].
    rewrite IH.
    + cbn [sent trace]. rewrite rate_limit_events_S, <- app_assoc.
      replace (S (sent w) + k)%nat with (sent w + S k)%nat by lia. reflexivity.
    + intros j Hj. cbn [sent].
      destruct (Hk (S j) ltac:(lia)) as (rj & Hsj & Ej).
      exists rj. split; [|exact Ej].
      replace (S (sent w) + j)%nat with (sent w + S j)%nat by lia. exact Hsj.
Qed.

(** The attempt that follows [k < 3] answers 403. *)
Lemma fetch_books_deciding_attempt (w : world) (k : nat) :
  (k < 3)%nat ->
  limited srv w k ->
  fetch_books srv q max_results w
  = fetch_loop srv q max_results (S (2 - k))
      {| sent := (sent w + k)%nat;
         trace := trace w ++ rate_limit_events q max_results k |}.
Proof.
  intros Hk Hlim. unfold fetch_books.
  replace 3%nat with (k + S (2 - k))%nat by lia.
  apply fetch_loop_after_403s, Hlim.
Qed.

(** The call on an answer 200 that carries a JSON object. *)
Lemma fetch_books_on_200 (w : world) (k : nat) (r : response) (body : pyval) :
  (k < 3)%nat ->
  limited srv w k ->
  srv (sent w + k)%nat = OK r ->
  status_code r = 200 ->
  json r = OK body ->
  is_dict body = true ->
  fetch_books srv q max_results w
  = (OK (field body "items" (PList [])),
     {| sent := (sent w + S k)%nat;
        trace := trace w ++ rate_limit_events q max_results k ++ [HttpGet q max_results] |}).
Proof.
  intros Hk Hlim Hs E Hjson Hdict.
  rewrite (fetch_books_deciding_attempt w k Hk Hlim), fetch_loop_S.
  cbn [sent trace]. rewrite Hs, E, Hjson. cbn [Z.eqb Pos.eqb res_bind].
  rewrite (py_get_field _ _ _ Hdict), <- app_assoc.
  replace (S (sent w + k)) with (sent w + S k)%nat by lia. reflexivity.
Qed.

(** The call on a status other than 200 and 403. *)
Lemma fetch_books_on_other_status (w : world) (k : nat) (r : response) :
  (k < 3)%nat ->
  limited srv w k ->
  srv (sent w + k)%nat = OK r ->
  status_code r <> 200 ->
  status_code r <> 403 ->
  fetch_books srv q max_results w
  = (OK (PList []),
     {| sent := (sent w + S k)%nat;
        trace := trace w ++ rate_limit_events q max_results k
                 ++ [HttpGet q max_results;
                     StError ("Error fetching data: " +:+ pretty (status_code r))] |}).
Proof.
  intros Hk Hlim Hs H200 H403.
  rewrite (fetch_books_deciding_attempt w k Hk Hlim), fetch_loop_S.
  cbn [sent trace]. rewrite Hs.
  apply Z.eqb_neq in H200, H403. rewrite H200, H403, <- app_assoc.
  replace (S (sent w + k)) with (sent w + S k)%nat by lia. reflexivity.
Qed.

(** The call on three answers 403. *)
Lemma fetch_books_on_three_403 (w : world) :
  limited srv w 3 ->
  fetch_books srv q max_results w
  = (OK (PList []),
     {| sent := (sent w + 3)%nat;
        trace := trace w ++ rate_limit_events q max_results 3 |}).
Proof.
  intros Hlim. unfold fetch_books.
  change 3%nat with (3 + 0)%nat at 1. rewrite (fetch_loop_after_403s 3 0 w Hlim).
  reflexivity.
Qed.

(** X1: when an attempt among the three, reached after answers 403
    only, is answered 200 with a JSON object, the call returns the value
    of its "items" key, or the empty list when the key is absent; it has
    sent one request more than it received answers 403, slept ten
    seconds for each of these, and reported no error. *)
Theorem fetch_books_returns_items (w : world) (k : nat) (r : response) (body : pyval) :
  (k < 3)%nat ->
  limited srv w k ->
  srv (sent w + k)%nat = OK r ->
  status_code r = 200 ->
  json r = OK body ->
  is_dict body = true ->
  exists v evs,
    fetch_books srv q max_results w
      = (OK v, {| sent := (sent w + S k)%nat; trace := trace w ++ evs |}) /\
    (forall x, lookup_path body ["items"]%string = Some x -> v = x) /\
    (lookup_path body ["items"]%string = None -> v = PList []) /\
    attempts evs = S k /\ slept evs = 10 * Z.of_nat k /\ errors_reported evs = 0%nat.
Proof.
  intros Hk Hlim Hs E Hjson Hdict.
  exists (field body "items" (PList [])),
         (rate_limit_events q max_results k ++ [HttpGet q max_results]).
  destruct (rate_limit_events_count q max_results k) as (Ha & Hz & He).
  split; [|split; [|split; [|split; [|split]]]].
  - apply (fetch_books_on_200 w k r body); assumption.
  - intros x Hx. apply field_present1, Hx.
  - apply field_absent1.
  - rewrite attempts_app, Ha. cbn. lia.
  - rewrite slept_app, Hz. cbn. lia.
  - unfold errors_reported in *. rewrite List.filter_app, List.length_app, He. reflexivity.
Qed.

(** X2: a failure at such an attempt reaches the caller and ends the
    call: an exception of the transport, a body that is not JSON, or a
    JSON body that is not an object (the exception is then
    AttributeError). No further request is sent. *)
Theorem fetch_books_propagates_failure (w : world) (k : nat) (e : exn) :
  (k < 3)%nat ->
  limited srv w k ->
  (srv (sent w + k)%nat = Raise e \/
   exists r, srv (sent w + k)%nat = OK r /\ status_code r = 200 /\
     (json r = Raise e \/
      exists body, json r = OK body /\ is_dict body = false /\ e = AttributeError)) ->
  fetch_books srv q max_results w
  = (Raise e,
     {| sent := (sent w + S k)%nat;
        trace := trace w ++ rate_limit_events q max_results k ++ [HttpGet q max_results] |}).
Proof.
  intros Hk Hlim Hfail.
  rewrite (fetch_books_deciding_attempt w k Hk Hlim), fetch_loop_S.
  cbn [sent trace]. rewrite <- app_assoc.
  replace (S (sent w + k)) with (sent w + S k)%nat by lia.
  destruct Hfail as [Hs|(r & Hs & E & Hbody)]; rewrite Hs; [reflexivity|].
  rewrite E. cbn [Z.eqb Pos.eqb].
  destruct Hbody as [Hjson|(body & Hjson & Hdict & ->)]; rewrite Hjson; cbn [res_bind];
    [reflexivity|].
  rewrite (py_get_not_dict _ _ _ Hdict). reflexivity.
Qed.

(** X3: a status other than 200 and 403 ends the call at whichever of
    the three attempts it arrives: the error is reported once, the empty
    list is returned, and nothing is slept after it. *)
Theorem fetch_books_gives_up_after_retries (w : world) (k : nat) (r : response) :
  (k < 3)%nat ->
  limited srv w k ->
  srv (sent w + k)%nat = OK r ->
  status_code r <> 200 ->
  status_code r <> 403 ->
  exists evs,
    fetch_books srv q max_results w
      = (OK (PList []), {| sent := (sent w + S k)%nat; trace := trace w ++ evs |}) /\
    evs = rate_limit_events q max_results k
          ++ [HttpGet q max_results;
              StError ("Error fetching data: " +:+ pretty (status_code r))] /\
    attempts evs = S k /\ slept evs = 10 * Z.of_nat k /\ errors_reported evs = 1%nat.
Proof.
  intros Hk Hlim Hs H200 H403.
  destruct (rate_limit_events_count q max_results k) as (Ha & Hz & He).
  eexists. split; [|split; [reflexivity|]].
  - apply (fetch_books_on_other_status w k r); assumption.
  - rewrite attempts_app, slept_app, Ha, Hz.
    unfold errors_reported in *. rewrite List.filter_app, List.length_app, He.
    repeat split; cbn; lia.
Qed.

Lemma fetch_loop_no_data (n : nat) :
  forall (w : world) (v : pyval),
    (forall j r, (j < n)%nat -> srv (sent w + j)%nat = OK r -> status_code r <> 200) ->
    fst (fetch_loop srv q max_results n w) = OK v ->
    v = PList [].
Proof.
  induction n as [|n IH]; intros w v Hno.
  - cbn. intros [= <-]. reflexivity.
  - rewrite fetch_loop_S. destruct (srv (sent w)) as [r|e] eqn:Hs; [|discriminate].
    assert (H200 : status_code r <> 200).
    { apply (Hno 0%nat r); [lia|]. rewrite Nat.add_0_r. exact Hs. }
    apply Z.eqb_neq in H200. rewrite H200.
    destruct (status_code r =? 403).
    + apply IH. intros j rj Hj Hsj. cbn [sent] in Hsj.
      apply (Hno (S j) rj); [lia|].
      replace (sent w + S j)%nat with (S (sent w) + j)%nat by lia. exact Hsj.
    + cbn. intros [= <-]. reflexivity.
Qed.

(** X4: data comes from an answer 200 only: when none of the three
    possible answers has status 200, whatever the call returns is the
    empty list. *)
Theorem fetch_books_data_only_from_200 (w : world) (v : pyval) :
  (forall j r, (j < 3)%nat -> srv (sent w + j)%nat = OK r -> status_code r <> 200) ->
  fst (fetch_books srv q max_results w) = OK v ->
  v = PList [].
Proof. apply fetch_loop_no_data. Qed.

Lemma fetch_loop_discipline (n : nat) :
  forall w, exists evs,
    trace (snd (fetch_loop srv q max_results n w)) = trace w ++ evs /\
    Forall (fetch_event q max_results) evs /\
    (errors_reported evs <= 1)%nat /\
    (errors_reported evs = 1%nat -> slept evs = 10 * Z.of_nat (attempts evs) - 10).
Proof.
  induction n as [|n IH]; intros w.
  - exists []. cbn. rewrite app_nil_r. repeat split; try constructor; lia.
  - rewrite fetch_loop_S. destruct (srv (sent w)) as [r|e].
    + destruct (status_code r =? 200).
      * exists [HttpGet q max_results]. cbn.
        repeat split; try lia; repeat constructor.
      * destruct (status_code r =? 403).
        -- destruct (IH {| sent := S (sent w);
                           trace := trace w ++ [HttpGet q max_results;
                             StWarning "API request limit reached. Retrying in 10 seconds...";
                             Sleep 10] |}) as (evs & Ht & Hall & He & Hz).
           cbn [trace] in Ht.
           exists ([HttpGet q max_results;
                    StWarning "API request limit reached. Retrying in 10 seconds...";
                    Sleep 10] ++ evs).
           rewrite Ht, <- app_assoc, attempts_app, slept_app.
           unfold errors_reported in *. rewrite List.filter_app, List.length_app.
           split; [reflexivity|]. split; [|split].
           ++ apply Forall_app. split; [repeat constructor|exact Hall].
           ++ cbn. lia.
           ++ cbn. intros H1. specialize (Hz ltac:(lia)). lia.
        -- exists [HttpGet q max_results;
                   StError ("Error fetching data: " +:+ pretty (status_code r))].
           cbn. repeat split; try lia; repeat constructor.
    + exists [HttpGet q max_results]. cbn. repeat split; try lia; repeat constructor.
Qed.

(** X5: whatever the service answers, every request of a call carries
    the call's query and [maxResults], every sleep lasts ten seconds, at
    most one error is reported, and when one is reported every request
    before the last was followed by a sleep. *)
Theorem fetch_books_trace_discipline (w : world) :
  exists evs,
    trace (snd (fetch_books srv q max_results w)) = trace w ++ evs /\
    Forall (fetch_event q max_results) evs /\
    (errors_reported evs <= 1)%nat /\
    (errors_reported evs = 1%nat -> slept evs = 10 * Z.of_nat (attempts evs) - 10).
Proof. apply fetch_loop_discipline. Qed.

End FetcherRetries.

(** ** Transformer: the computed columns, present fields, failures *)

Lemma join_nonempty (sep : pystr) (ss : list pystr) :
  sep <> [] -> ss <> [] -> ss <> [[]] -> join sep ss <> [].
Proof.
  intros Hsep Hnil Hone. destruct ss as [|s [|s' ss]]; [congruence| |].
  - cbn [join]. intros ->. apply Hone. reflexivity.
  - cbn [join]. intros Heq. apply app_eq_nil in Heq as [_ Heq].
    apply app_eq_nil in Heq as [Heq _]. congruence.
Qed.

Lemma str_items_strings (ss : list pystr) : str_items (List.map PStr ss) = OK ss.
Proof.
  induction ss as [|s ss IH]; cbn [List.map str_items]; [reflexivity|].
  rewrite IH. reflexivity.
Qed.

Lemma field_present3 v k1 k2 k3 x dflt :
  lookup_path v [k1; k2; k3] = Some x ->
  field (field (field v k1 (PDict [])) k2 (PDict [])) k3 dflt = x.
Proof.
  destruct v; try discriminate. cbn [lookup_path field].
  destruct (assoc_get (lit k1) d) as [v'|]; [|discriminate].
  cbn [default]. apply field_present2.
Qed.

Section TransformerColumns.
Context `{Unicode}.
Context {P : Pandas}.

(** X6: [is_ebook] is 0 or 1 in every produced row: 1 exactly when the
    item's [isEbook] is present and true as Python tests it (so also for
    a non-empty string or a non-zero number), 0 when it is absent. *)
Theorem is_ebook_is_a_flag (book : pyval) (r : BookRecord) :
  transform_item book = OK r ->
  (is_ebook r = 0 \/ is_ebook r = 1) /\
  (forall v, lookup_path book ["saleInfo"; "isEbook"]%string = Some v ->
     is_ebook r = if py_truthy v then 1 else 0) /\
  (lookup_path book ["saleInfo"; "isEbook"]%string = None -> is_ebook r = 0).
Proof.
  intros Hr. apply transform_item_OK in Hr as [_ ->].
  unfold record_of; cbn [is_ebook]. split; [|split].
  - destruct (py_truthy _); auto.
  - intros v Hv. rewrite (field_present2 _ _ _ _ _ Hv). reflexivity.
  - intros Hp. rewrite (field_absent2 _ _ _ _ Hp). reflexivity.
Qed.

(** X7: [published_year] of every produced row is "Unknown" or consists
    of exactly four digits. *)
Theorem published_year_shape (book : pyval) (r : BookRecord) :
  transform_item book = OK r ->
  published_year r = lit "Unknown" \/
  (length (published_year r) = 4%nat /\ forallb ucd_digit (published_year r) = true).
Proof.
  intros Hr. apply transform_item_OK in Hr as [_ ->].
  unfold record_of; cbn [published_year].
  destruct (field _ "publishedDate" _) as [| | | |d| |];
    try (left; reflexivity).
  rewrite published_year_of_str. unfold four_digits.
  destruct (4 <=? length d)%nat eqn:Hlen; [|left; reflexivity].
  destruct (forallb ucd_digit (firstn 4 d)) eqn:Hd; [|left; reflexivity].
  right. cbn [andb]. split; [|exact Hd].
  apply Nat.leb_le in Hlen. rewrite length_take. lia.
Qed.

Ltac passed_on proj :=
  lazymatch goal with
  | Hp : lookup_path ?book _ = Some _ |- _ = Some ?d =>
      change (Some (proj (record_of book)) = Some d);
      f_equal; unfold record_of; cbn [proj];
      first [ apply field_present1; exact Hp
            | apply field_present2; exact Hp
            | apply field_present3; exact Hp ]
  end.

Ltac computed Hc :=
  exfalso; apply Hc; unfold computed_columns; cbn [In]; tauto.

(** What the loop puts in the row of a field that is present. *)
Lemma record_of_present (book : pyval) (name : string) (path : list string)
    (dflt v : pyval) :
  In (name, path, dflt) data_model ->
  ~ In name computed_columns ->
  lookup_path book path = Some v ->
  cell name (record_cells (record_of book)) = Some v.
Proof.
  intros Hin Hc Hp.
  unfold data_model in Hin. cbn [In] in Hin.
  repeat (destruct Hin as [Hin|Hin]; [injection Hin as <- <- <-|]);
    [ | | | | | | | | | | | | | | | | | | | | | destruct Hin ].
  - passed_on book_id.
  - passed_on title.
  - passed_on subtitle.
  - computed Hc.
  - passed_on description.
  - computed Hc.
  - passed_on page_count.
  - passed_on language.
  - passed_on image_link.
  - passed_on average_rating.
  - passed_on ratings_count.
  - passed_on publisher.
  - computed Hc.
  - computed Hc.
  - passed_on saleability.
  - passed_on amount_list_price.
  - passed_on currency_code_list_price.
  - passed_on amount_retail_price.
  - passed_on currency_code_retail_price.
  - passed_on buy_link.
  - passed_on country.
Qed.

(** X8: for the 17 columns that are not computed, the default replaces
    an absent key only. In the row the loop builds, a field that is
    present is there as it is, whatever its value. In the frame
    [transform_data] returns, the field is there as it is when it is
    neither an integer nor [null]; an integer is there as it is or as the
    nearest float, and [null] as [None] or NaN, as the dtype of the
    column has it; so a key holding [null] never gives the default of a
    column that has one. *)
Theorem present_fields_are_kept (books : list pyval) (df : DataFrame) :
  coerces_cells P ->
  transform_data books = OK df ->
  Forall2 (fun book r' =>
    exists r,
      transform_item book = OK r /\
      forall name path dflt v,
        In (name, path, dflt) data_model ->
        ~ In name computed_columns ->
        lookup_path book path = Some v ->
        cell name (record_cells r) = Some v /\
        exists v',
          cell name (record_cells r') = Some v' /\
          (is_int v || is_none v = false -> v' = v) /\
          (forall z, v = PInt z -> v' = PInt z \/ v' = PFloat (float_of_int z)) /\
          (v = PNone -> v' = PNone \/ v' = PFloat S754_nan)) books df.
Proof.
  intros Hlaw Hdf. pose proof (frame_rows_coerced books df Hlaw Hdf) as Hc.
  apply transform_data_OK in Hdf as [Hs _]. rewrite forallb_forall in Hs.
  clear Hlaw. induction Hc as [|book r' books df Hr' Hc IH]; constructor.
  - exists (record_of book).
    split; [apply transform_item_shaped, Hs; left; reflexivity|].
    intros name path dflt v Hin Hcomp Hp.
    pose proof (record_of_present book name path dflt v Hin Hcomp Hp) as Hcell.
    split; [exact Hcell|].
    destruct (row_coerced_cell _ _ _ _ Hr' Hcell) as (v' & Hcell' & Hv).
    exists v'. split; [exact Hcell'|]. split; [apply coerced_kept, Hv|].
    split.
    + intros z ->. apply coerced_int, Hv.
    + intros ->. apply coerced_none, Hv.
  - apply IH. intros book' Hin. apply Hs. right. exact Hin.
Qed.

(** X9: [authors] and [categories] hold the strings of the source list
    in order, separated by a comma and a space; a list that is empty or
    holds one empty string gives the default; and a source that is a
    string instead of a list gives its characters, separated likewise. *)
Theorem list_columns_are_joined (book : pyval) (r : BookRecord) :
  transform_item book = OK r ->
  forall (key : string) (col : BookRecord -> pystr) (dflt : string),
    In (key, col, dflt)
       [("authors"%string, authors, "Unknown Author"%string);
        ("categories"%string, categories, "N/A"%string)] ->
    (forall ss,
       lookup_path book ["volumeInfo"%string; key] = Some (PList (List.map PStr ss)) ->
       (ss <> [] -> ss <> [[]] -> col r = join (lit ", ") ss) /\
       (ss = [] \/ ss = [[]] -> col r = lit dflt)) /\
    (forall s,
       lookup_path book ["volumeInfo"%string; key] = Some (PStr s) ->
       s <> [] ->
       col r = join (lit ", ") (List.map (fun c => [c]) s)).
Proof.
  intros Hr key col dflt Hin. apply transform_item_OK in Hr as [_ ->].
  assert (Hsep : lit ", " <> []) by discriminate.
  cbn [In] in Hin. destruct Hin as [Hin|[Hin|[]]]; injection Hin as <- <- <-;
    unfold record_of; cbn [authors categories]; split.
  - intros ss Hp. rewrite (field_present2 _ _ _ _ _ Hp).
    unfold joined. cbn [join_items]. rewrite str_items_strings. split.
    + intros Hnil Hone. pose proof (join_nonempty _ ss Hsep Hnil Hone) as Hj.
      unfold str_or. destruct (join (lit ", ") ss); [congruence|reflexivity].
    + intros [->| ->]; reflexivity.
  - intros s Hp Hs. rewrite (field_present2 _ _ _ _ _ Hp).
    unfold joined. cbn [join_items].
    assert (Hj : join (lit ", ") (List.map (fun c => [c]) s) <> []).
    { destruct s as [|c s]; [congruence|]. apply join_nonempty; [exact Hsep| |];
        cbn [List.map]; discriminate. }
    unfold str_or. destruct (join _ _); [congruence|reflexivity].
  - intros ss Hp. rewrite (field_present2 _ _ _ _ _ Hp).
    unfold joined. cbn [join_items]. rewrite str_items_strings. split.
    + intros Hnil Hone. pose proof (join_nonempty _ ss Hsep Hnil Hone) as Hj.
      unfold str_or. destruct (join (lit ", ") ss); [congruence|reflexivity].
    + intros [->| ->]; reflexivity.
  - intros s Hp Hs. rewrite (field_present2 _ _ _ _ _ Hp).
    unfold joined. cbn [join_items].
    assert (Hj : join (lit ", ") (List.map (fun c => [c]) s) <> []).
    { destruct s as [|c s]; [congruence|]. apply join_nonempty; [exact Hsep| |];
        cbn [List.map]; discriminate. }
    unfold str_or. destruct (join _ _); [congruence|reflexivity].
Qed.

Ltac get_or_fail :=
  lazymatch goal with
  | |- attribute_or_type_error (res_bind (py_get ?o ?k ?d) _) =>
      first
        [ rewrite (py_get_field o k d) by assumption
        | let E := fresh "E" in
          destruct (is_dict o) eqn:E;
          [ rewrite (py_get_field o k d) by assumption
          | rewrite (py_get_not_dict o k d) by assumption; left; reflexivity ] ];
      cbn [res_bind]
  | |- attribute_or_type_error (res_bind (py_join ?s ?v) _) =>
      let E := fresh "E" in
      destruct (joinable v) eqn:E;
      [ rewrite (py_join_joined s v) by assumption
      | rewrite (py_join_not_joinable s v) by assumption; right; reflexivity ];
      cbn [res_bind]
  end.

Lemma transform_item_exceptions (book : pyval) :
  attribute_or_type_error (transform_item book).
Proof. unfold transform_item. repeat get_or_fail. exact I. Qed.

(** X10: a batch fails as its first item that cannot be processed
    fails, however many well-shaped items come before or after it: no
    partial frame is returned. The exception is AttributeError (an item,
    or one of its nested records, is not an object) or TypeError (authors
    or categories cannot be joined), and no other. *)
Theorem transform_data_fails_as_first_bad_item (xs ys : list pyval) (bad : pyval) (e : exn) :
  forallb well_shaped xs = true ->
  transform_item bad = Raise e ->
  transform_data (xs ++ bad :: ys) = Raise e /\
  (e = AttributeError \/ e = TypeError) /\
  (is_dict bad = false -> e = AttributeError).
Proof.
  intros Hxs Hbad. split; [|split].
  - unfold transform_data, transform_rows. rewrite res_map_app.
    fold (transform_rows xs). rewrite (transform_rows_shaped xs Hxs).
    cbn [res_bind res_map]. rewrite Hbad. reflexivity.
  - pose proof (transform_item_exceptions bad) as He. rewrite Hbad in He. exact He.
  - intros Hd. unfold transform_item in Hbad.
    rewrite (py_get_not_dict _ _ _ Hd) in Hbad. cbn [res_bind] in Hbad. congruence.
Qed.

End TransformerColumns.

(** ** Store: when an append succeeds, and what it leaves *)

Lemma same_key_refl (k : sqlval) : is_null k = false -> same_key k k = true.
Proof.
  intros Hk. unfold same_key. rewrite sql_compare_refl.
  destruct k; [discriminate|reflexivity..].
Qed.

Lemma collides_false_inv (schema : list column) (rows : list (list sqlval))
    (row : list sqlval) :
  collides schema rows row = false ->
  Forall (fun k => same_key k (pk_value schema row) = false)
    (List.map (pk_value schema) rows).
Proof.
  unfold collides.
  induction rows as [|r rows IH]; cbn [List.map existsb]; [constructor|].
  intros [Hr Hrows]%orb_false_elim. constructor; [exact Hr|apply IH, Hrows].
Qed.

Section StoreAppend.
Context `{Backend}.

(** The rows of a frame are inserted one after the other. *)
Lemma insert_frame_app (schema : list column) (a b : DataFrame) :
  forall rows,
    insert_frame schema rows (a ++ b)
    = let* rows1 := insert_frame schema rows a in insert_frame schema rows1 b.
Proof.
  induction a as [|r a IH]; intros rows; cbn [app insert_frame res_bind]; [reflexivity|].
  destruct (known_columns schema r); cbn [negb]; [|reflexivity].
  destruct (bind_cells (record_cells r)) as [cells|e]; cbn [sql_step res_bind]; [|reflexivity].
  destruct (collides schema rows (stored_row schema cells)); [reflexivity|].
  apply IH.
Qed.

(** Whatever the schema, a successful insert puts one row per record
    after the rows that were there. *)
Lemma insert_frame_inv (schema : list column) (df : DataFrame) :
  forall rows rows',
    insert_frame schema rows df = OK rows' ->
    exists new, rows' = rows ++ new /\ length new = length df.
Proof.
  induction df as [|r df IH]; intros rows rows'; cbn [insert_frame].
  - intros [= <-]. exists []. rewrite app_nil_r. auto.
  - destruct (known_columns schema r); cbn [negb]; [|discriminate].
    destruct (bind_cells (record_cells r)) as [cells|e]; cbn [sql_step res_bind]; [|discriminate].
    destruct (collides schema rows (stored_row schema cells)); [discriminate|].
    intros Hrec. destruct (IH _ _ Hrec) as (new & -> & Hlen).
    exists (stored_row schema cells :: new). rewrite <- app_assoc.
    split; [reflexivity|]. cbn [length]. lia.
Qed.

(** In the books table a successful insert is one of storable rows
    without a clash of keys. *)
Lemma insert_frame_books_inv (df : DataFrame) :
  forall rows rows',
    insert_frame books_schema rows df = OK rows' ->
    forallb storable df = true /\
    no_clash (List.map (pk_value books_schema) rows) (frame_keys df) /\
    rows' = rows ++ List.map row_of df.
Proof.
  induction df as [|r df IH]; intros rows rows';
    cbn [insert_frame forallb frame_keys List.map].
  - intros [= <-]. rewrite app_nil_r. repeat split; try constructor.
    apply Forall_forall. intros k _. constructor.
  - rewrite known_columns_books. cbn [negb].
    destruct (storable r) eqn:Hr.
    + rewrite (bind_cells_storable _ Hr). cbn [sql_step res_bind]. fold (row_of r).
      destruct (collides books_schema rows (row_of r)) eqn:Hc; [discriminate|].
      intros Hrec. destruct (IH _ _ Hrec) as (Hdf & [Hold Hnew] & ->).
      apply collides_false_inv in Hc. rewrite pk_value_row_of in Hc.
      rewrite List.map_app in Hold. apply Forall_app in Hold as [Hold Hlast].
      cbn [List.map] in Hlast. rewrite pk_value_row_of in Hlast.
      inversion Hlast as [|k ks Hk _]; subst.
      split; [exact Hdf|]. split; [|rewrite <- app_assoc; reflexivity].
      split.
      * clear - Hold Hc. induction Hold as [|k ks Hk Hks IHk]; [constructor|].
        inversion Hc; subst. constructor; [constructor; assumption|].
        apply IHk. assumption.
      * constructor; assumption.
    + pose proof (bind_cells_unstorable _ Hr) as Hraise.
      destruct (bind_cells (record_cells r)); [destruct Hraise|discriminate].
Qed.

Lemma insert_frame_storable_outcome (df : DataFrame) :
  forall rows e,
    forallb storable df = true ->
    insert_frame books_schema rows df = Raise e ->
    e = DatabaseError IntegrityError.
Proof.
  induction df as [|r df IH]; intros rows e; cbn [insert_frame forallb]; [discriminate|].
  intros [Hr Hdf]%andb_prop. rewrite known_columns_books. cbn [negb].
  rewrite (bind_cells_storable _ Hr). cbn [sql_step res_bind].
  destruct (collides _ _ _); [cbn; congruence|]. apply IH, Hdf.
Qed.

(** The exceptions of binding the cells of a row. *)
Lemma bind_cells_exceptions (cells : list (string * pyval)) (e : exn) :
  bind_cells cells = Raise e ->
  e = OverflowError \/ e = UnicodeEncodeError \/ e = ProgrammingError.
Proof.
  unfold bind_cells.
  induction cells as [|c cells IH]; cbn [res_map]; [discriminate|].
  destruct (bind_param (snd c)) as [x|e'] eqn:Hc; cbn [res_bind].
  - destruct (res_map _ cells); cbn [res_bind]; [discriminate|].
    intros [= <-]. apply IH. reflexivity.
  - intros [= <-]. destruct (snd c) as [| |z|f|s|l|d]; cbn [bind_param] in Hc;
      try discriminate.
    + destruct (_ && _); [discriminate|]. injection Hc as <-. auto.
    + destruct f; discriminate.
    + destruct (existsb _ _); [|discriminate]. injection Hc as <-. auto.
    + injection Hc as <-. auto.
    + injection Hc as <-. auto.
Qed.

(** The exceptions of the inserts into the books table: those of
    [sqlite3] come wrapped by pandas, those of Python as they are. *)
Lemma insert_frame_exceptions (df : DataFrame) :
  forall rows e,
    insert_frame books_schema rows df = Raise e ->
    e = DatabaseError IntegrityError \/ e = DatabaseError ProgrammingError \/
    e = OverflowError \/ e = UnicodeEncodeError.
Proof.
  induction df as [|r df IH]; intros rows e; cbn [insert_frame]; [discriminate|].
  rewrite known_columns_books. cbn [negb].
  destruct (bind_cells (record_cells r)) as [cells|e'] eqn:Hb; cbn [sql_step res_bind].
  - destruct (collides _ _ _); [cbn; intros [= <-]; auto|]. apply IH.
  - intros [= <-].
    destruct (bind_cells_exceptions _ _ Hb) as [->| [->| ->]]; cbn; auto.
Qed.

(** X11: on the books table of [initialize_database], an append
    succeeds exactly when every cell of the batch can be bound and no
    key of the batch clashes with a stored key or with another key of
    the batch; when the cells can be bound, the only exception is a
    [pandas.errors.DatabaseError] whose cause is the IntegrityError of
    [sqlite3]; and whatever the batch, the exception is that one, a
    DatabaseError whose cause is ProgrammingError (a cell of a type that
    cannot be bound), or a bare OverflowError or UnicodeEncodeError. *)
Theorem save_to_database_succeeds_iff (db : database) (t : table) (df : DataFrame) :
  db !! "books"%string = Some t ->
  tbl_schema t = books_schema ->
  ((exists db', save_to_database db df = OK db') <->
   forallb storable df = true /\ no_clash (table_keys t) (frame_keys df)) /\
  (forallb storable df = true ->
   forall e, save_to_database db df = Raise e -> e = DatabaseError IntegrityError) /\
  (forall e, save_to_database db df = Raise e ->
     e = DatabaseError IntegrityError \/ e = DatabaseError ProgrammingError \/
     e = OverflowError \/ e = UnicodeEncodeError).
Proof.
  intros Hdb Hschema. unfold save_to_database, table_keys. rewrite Hdb, Hschema.
  split; [split|split]; cycle 3.
  { intros e.
    destruct (insert_frame books_schema (tbl_rows t) df) as [rows|e'] eqn:Hins;
      cbn [res_bind]; [discriminate|].
    intros [= <-]. eapply insert_frame_exceptions; eassumption. }
  - intros [db' Hsave].
    destruct (insert_frame books_schema (tbl_rows t) df) as [rows|e] eqn:Hins;
      [|discriminate].
    apply insert_frame_books_inv in Hins as (Hst & Hkeys & _). auto.
  - intros [Hst Hkeys]. rewrite (insert_frame_appends df _ Hst Hkeys).
    cbn [res_bind]. eauto.
  - intros Hst e.
    destruct (insert_frame books_schema (tbl_rows t) df) as [rows|e'] eqn:Hins;
      cbn [res_bind]; [discriminate|].
    intros [= <-]. eapply insert_frame_storable_outcome; eassumption.
Qed.

(** X12: saving the same batch a second time fails as soon as one of
    its books has an identifier, with a [pandas.errors.DatabaseError]
    whose cause is the IntegrityError of [sqlite3]: nothing guards
    against the repetition of a search. *)
Theorem save_to_database_rejects_repeat (db db' : database) (t : table) (df : DataFrame) :
  db !! "books"%string = Some t ->
  tbl_schema t = books_schema ->
  save_to_database db df = OK db' ->
  existsb (fun k => negb (is_null k)) (frame_keys df) = true ->
  save_to_database db' df = Raise (DatabaseError IntegrityError).
Proof.
  intros Hdb Hschema Hsave Hkey. unfold save_to_database in *.
  rewrite Hdb, Hschema in Hsave.
  destruct (insert_frame books_schema (tbl_rows t) df) as [rows|e] eqn:Hins;
    cbn [res_bind] in Hsave; [|discriminate].
  injection Hsave as <-. rewrite lookup_insert_eq. cbn [tbl_schema tbl_rows].
  apply insert_frame_books_inv in Hins as (Hst & _ & ->).
  destruct (insert_frame books_schema (tbl_rows t ++ List.map row_of df) df)
    as [rows2|e] eqn:Hins2; cbn [res_bind].
  - exfalso. apply insert_frame_books_inv in Hins2 as (_ & [Hold _] & _).
    rewrite List.map_app in Hold. apply Forall_app in Hold as [_ Hold].
    rewrite List.map_map in Hold.
    apply existsb_exists in Hkey as (k & Hin & Hk).
    unfold frame_keys in Hin, Hold. apply in_map_iff in Hin as (r & <- & Hr).
    rewrite Forall_forall in Hold.
    assert (Hmem : pk_value books_schema (row_of r)
                   ∈ List.map (fun x => pk_value books_schema (row_of x)) df).
    { apply list_elem_of_In, in_map_iff. eauto. }
    specialize (Hold _ Hmem). rewrite pk_value_row_of in Hold.
    rewrite Forall_forall in Hold.
    assert (Hmem2 : affinity TEXT (bound (book_id r))
                    ∈ List.map (fun r => affinity TEXT (bound (book_id r))) df).
    { apply list_elem_of_In, in_map_iff. eauto. }
    specialize (Hold _ Hmem2).
    rewrite same_key_refl in Hold; [discriminate|].
    destruct (is_null _); [discriminate|reflexivity].
  - f_equal. eapply insert_frame_storable_outcome; eassumption.
Qed.

(** X13: appending two batches in one call gives what appending the
    first and then the second gives: the same file when both succeed,
    the same exception when one of them fails. *)
Theorem save_to_database_in_two_batches (db : database) (t : table) (a b : DataFrame) :
  db !! "books"%string = Some t ->
  save_to_database db (a ++ b)
  = let* db1 := save_to_database db a in save_to_database db1 b.
Proof.
  intros Hdb. unfold save_to_database at 1 2. rewrite Hdb, insert_frame_app.
  destruct (insert_frame (tbl_schema t) (tbl_rows t) a) as [rows1|e]; cbn [res_bind];
    [|reflexivity].
  unfold save_to_database. rewrite lookup_insert_eq. cbn [tbl_schema tbl_rows].
  destruct (insert_frame (tbl_schema t) rows1 b) as [rows2|e]; cbn [res_bind];
    [|reflexivity].
  rewrite insert_insert_eq. reflexivity.
Qed.

(** What a successful append leaves. *)
Lemma save_to_database_OK_inv (db db' : database) (df : DataFrame) :
  save_to_database db df = OK db' ->
  (forall name, name <> "books"%string -> db' !! name = db !! name) /\
  (forall t, db !! "books"%string = Some t ->
     exists new,
       db' !! "books"%string
         = Some {| tbl_schema := tbl_schema t; tbl_rows := tbl_rows t ++ new |} /\
       length new = length df).
Proof.
  unfold save_to_database. intros Hsave.
  destruct (db !! "books"%string) as [t|] eqn:Hdb.
  - destruct (insert_frame (tbl_schema t) (tbl_rows t) df) as [rows|e] eqn:Hins;
      cbn [res_bind] in Hsave; [|discriminate].
    injection Hsave as <-. split.
    + intros name Hname. apply lookup_insert_ne. congruence.
    + intros t0 [= <-]. destruct (insert_frame_inv _ _ _ _ Hins) as (new & -> & Hlen).
      exists new. split; [apply lookup_insert_eq|exact Hlen].
  - destruct (create_from_frame df) as [t|e]; cbn [res_bind] in Hsave; [|discriminate].
    injection Hsave as <-. split.
    + intros name Hname. apply lookup_insert_ne. congruence.
    + intros t0 [=].
Qed.

(** X14: a successful append changes nothing but the books table, keeps
    its schema, and puts exactly one new row per record after the rows
    the table had, which stay as they were; this holds for any table
    named books, whatever its schema; and an empty batch leaves the file
    as it is. *)
Theorem save_to_database_only_appends (db db' : database) (df : DataFrame) :
  save_to_database db df = OK db' ->
  (forall name, name <> "books"%string -> db' !! name = db !! name) /\
  (forall t, db !! "books"%string = Some t ->
     exists new,
       db' !! "books"%string
         = Some {| tbl_schema := tbl_schema t; tbl_rows := tbl_rows t ++ new |} /\
       length new = length df) /\
  (df = [] -> forall t, db !! "books"%string = Some t -> db' = db).
Proof.
  intros Hsave. destruct (save_to_database_OK_inv db db' df Hsave) as [Hother Hbooks].
  split; [exact Hother|]. split; [exact Hbooks|].
  intros -> t Hdb. unfold save_to_database in Hsave. rewrite Hdb in Hsave.
  cbn [insert_frame res_bind] in Hsave. injection Hsave as <-.
  apply insert_id. rewrite Hdb. destruct t; reflexivity.
Qed.

End StoreAppend.

(** X15: the columns [initialize_database] creates are the keys of the
    rows [transform_data] builds, name by name and in the same order; so
    on a file without a books table, [initialize_database] followed by
    [save_to_database] of a frame whose cells can be bound and whose
    identifiers do not clash with each other meets no unknown column and
    stores exactly the rows of the frame, in order, in a books table of
    that schema, the other tables being left alone. *)
Theorem initialize_then_save `{Backend} (db : database) (df : DataFrame) :
  (forall r : BookRecord,
     List.map fst (record_cells r) = List.map col_name books_schema) /\
  (db !! "books"%string = None ->
   forallb storable df = true ->
   no_clash [] (frame_keys df) ->
   exists db1 db2,
     initialize_database db = OK db1 /\
     save_to_database db1 df = OK db2 /\
     db2 !! "books"%string
       = Some {| tbl_schema := books_schema; tbl_rows := List.map row_of df |} /\
     forall name, name <> "books"%string -> db2 !! name = db !! name).
Proof.
  split; [reflexivity|].
  intros Hdb Hst Hkeys.
  unfold initialize_database, create_table. rewrite Hdb.
  eexists _, _. split; [reflexivity|].
  unfold save_to_database. rewrite lookup_insert_eq. cbn [tbl_schema tbl_rows].
  rewrite (insert_frame_appends df [] Hst Hkeys). cbn [res_bind app].
  split; [reflexivity|]. split.
  - apply lookup_insert_eq.
  - intros name Hname. rewrite !lookup_insert_ne by congruence. reflexivity.
Qed.

(** ** The search handler *)

Lemma py_truthy_list (items : list pyval) : items <> [] -> py_truthy (PList items) = true.
Proof. destruct items; [congruence|reflexivity]. Qed.

Section Handler.
Context `{Unicode} `{Backend}.
Context {P : Pandas}.

(** X16: when the service gives nothing to store, a search leaves the
    file and the success messages as they were, raises nothing, and ends
    by telling the user that no books were found. *)
Theorem on_search_without_data (srv : service) (query : pystr) (a : session) :
  no_data srv (net a) ->
  exists w' evs,
    on_search srv query a
      = (OK tt, {| file := file a; net := w'; successes := successes a |}) /\
    trace w' = trace (net a) ++ evs
               ++ [StError "No books found. Please try a different search term."].
Proof.
  intros Hno. unfold on_search.
  destruct Hno as [Hlim|(k & r & Hk & Hlim & Hs & [[H200 H403]|(E & body & Hjson & Hdict & Hitems)])].
  - rewrite (fetch_books_on_three_403 srv query 40 (net a) Hlim).
    cbn [py_truthy bool_decide decide_rel negb sent trace].
    eexists _, _. split; [reflexivity|]. cbn [trace]. rewrite <- app_assoc. reflexivity.
  - rewrite (fetch_books_on_other_status srv query 40 (net a) k r Hk Hlim Hs H200 H403).
    cbn [py_truthy negb sent trace].
    eexists _, _. split; [reflexivity|]. cbn [trace]. rewrite <- app_assoc. reflexivity.
  - rewrite (fetch_books_on_200 srv query 40 (net a) k r body Hk Hlim Hs E Hjson Hdict).
    assert (Hfalse : py_truthy (field body "items" (PList [])) = false).
    { destruct (lookup_path body ["items"]%string) as [x|] eqn:Hx.
      - rewrite (field_present1 _ _ _ _ Hx). apply Hitems. reflexivity.
      - rewrite (field_absent1 _ _ _ Hx). reflexivity. }
    rewrite Hfalse. cbn [sent trace].
    eexists _, _. split; [reflexivity|]. cbn [trace]. rewrite <- app_assoc. reflexivity.
Qed.

(** X17: when an attempt among the three is answered 200 with a
    non-empty list of well-shaped items, pandas builds a frame from their
    rows, the cells of that frame can be bound and its identifiers clash
    with nothing, then a search adds the rows of the frame to the books
    table, after the rows it had, and shows the success message with the
    number of rows of the frame; no error is reported. The rows stored
    and the keys compared are those of the frame, with its cells as
    pandas converted them; when pandas keeps the rows, the frame has one
    row per item. *)
Theorem on_search_saves_the_frame (srv : service) (query : pystr) (a : session)
    (k : nat) (r : response) (body : pyval) (items : list pyval) (t : table)
    (df : DataFrame) :
  (k < 3)%nat ->
  limited srv (net a) k ->
  srv (sent (net a) + k)%nat = OK r ->
  status_code r = 200 ->
  json r = OK body ->
  lookup_path body ["items"]%string = Some (PList items) ->
  items <> [] ->
  forallb well_shaped items = true ->
  data_frame (List.map record_of items) = OK df ->
  file a !! "books"%string = Some t ->
  tbl_schema t = books_schema ->
  forallb storable df = true ->
  no_clash (table_keys t) (frame_keys df) ->
  exists a' evs,
    on_search srv query a = (OK tt, a') /\
    file a' !! "books"%string
      = Some {| tbl_schema := books_schema;
                tbl_rows := tbl_rows t ++ List.map row_of df |} /\
    (forall name, name <> "books"%string -> file a' !! name = file a !! name) /\
    successes a'
      = successes a ++ ["Fetched and saved " +:+ pretty (length df)
                        +:+ " books to the database."] /\
    trace (net a') = trace (net a) ++ evs /\
    errors_reported evs = 0%nat /\
    (coerces_cells P ->
     length df = length items /\ Forall2 row_coerced (List.map record_of items) df).
Proof.
  intros Hk Hlim Hs E Hjson Hitems Hne Hshape Hframe Hdb Hschema Hst Hkeys.
  assert (Hdict : is_dict body = true).
  { destruct body; try discriminate. reflexivity. }
  unfold on_search.
  rewrite (fetch_books_on_200 srv query 40 (net a) k r body Hk Hlim Hs E Hjson Hdict).
  rewrite (field_present1 _ _ _ _ Hitems), (py_truthy_list _ Hne).
  cbn [py_iter res_bind]. unfold transform_data.
  rewrite (transform_rows_shaped items Hshape). cbn [res_bind]. rewrite Hframe.
  unfold save_to_database. rewrite Hdb, Hschema.
  unfold table_keys in Hkeys. rewrite Hschema in Hkeys.
  rewrite (insert_frame_appends _ _ Hst Hkeys). cbn [res_bind].
  eexists _, _. split; [reflexivity|]. cbn [file net successes trace].
  split; [apply lookup_insert_eq|].
  split; [intros name Hname; apply lookup_insert_ne; congruence|].
  split; [reflexivity|].
  split; [reflexivity|].
  split.
  - destruct (rate_limit_events_count query 40 k) as (_ & _ & He).
    unfold errors_reported in *. rewrite List.filter_app, List.length_app, He. reflexivity.
  - intros Hlaw. pose proof (Hlaw _ _ Hframe) as Hc.
    split; [|exact Hc].
    apply Forall2_length in Hc. rewrite List.length_map in Hc. congruence.
Qed.

(** X18: whatever the service answers and whatever the items are, a
    search never touches a table other than books and never removes or
    changes a row of books: either the file and the success messages are
    as before, or one success message was added and the number it shows
    is the number of rows added after the rows the table had. *)
Theorem on_search_only_appends (srv : service) (query : pystr) (a : session) :
  let a' := snd (on_search srv query a) in
  (forall name, name <> "books"%string -> file a' !! name = file a !! name) /\
  (forall t, file a !! "books"%string = Some t ->
     exists new,
       file a' !! "books"%string
         = Some {| tbl_schema := tbl_schema t; tbl_rows := tbl_rows t ++ new |}) /\
  ((file a' = file a /\ successes a' = successes a) \/
   exists n,
     successes a' = successes a ++ ["Fetched and saved " +:+ pretty n
                                    +:+ " books to the database."] /\
     forall t, file a !! "books"%string = Some t ->
       exists new,
         length new = n /\
         file a' !! "books"%string
           = Some {| tbl_schema := tbl_schema t; tbl_rows := tbl_rows t ++ new |}).
Proof.
  assert (Hsame : forall t, file a !! "books"%string = Some t ->
            exists new, file a !! "books"%string
              = Some {| tbl_schema := tbl_schema t; tbl_rows := tbl_rows t ++ new |}).
  { intros t Ht. exists []. rewrite app_nil_r, Ht. destruct t; reflexivity. }
  unfold on_search.
  destruct (fetch_books srv query 40 (net a)) as [[books|e] w]; cbn [snd file successes];
    [|split; [reflexivity|split; [exact Hsame|left; auto]]].
  destruct (py_truthy books); cbn [snd file successes];
    [|split; [reflexivity|split; [exact Hsame|left; auto]]].
  destruct (let* items := py_iter books in transform_data items) as [df|e];
    cbn [snd file successes];
    [|split; [reflexivity|split; [exact Hsame|left; auto]]].
  destruct (save_to_database (file a) df) as [db'|e] eqn:Hsave; cbn [snd file successes];
    [|split; [reflexivity|split; [exact Hsame|left; auto]]].
  destruct (save_to_database_OK_inv _ _ _ Hsave) as [Hother Hbooks].
  split; [exact Hother|]. split.
  - intros t Ht. destruct (Hbooks t Ht) as (new & Hnew & _). eauto.
  - right. exists (length df). split; [reflexivity|].
    intros t Ht. destruct (Hbooks t Ht) as (new & Hnew & Hlen). eauto.
Qed.

End Handler.

(** ** QueryCatalog: the rankings *)




(** ** The further properties on the sample data *)

Lemma limited_then_limited (k : nat) (r : res response) :
  limited (limited_then k r) start k.
Proof.
  intros j Hj. unfold limited_then. cbn [sent start Nat.add].
  destruct (Nat.ltb_spec j k) as [_|Hge]; [|lia].
  eexists. split; reflexivity.
Qed.

Lemma always_403_limited (w : world) (k : nat) : limited (always 403) w k.
Proof. intros j _. eexists. split; reflexivity. Qed.

Lemma fetch_books_returns_items_witness :
  exists v evs,
    fetch_books (limited_then 2 (OK page_of_two)) (lit "Data Science") 40 start
      = (OK v, {| sent := 3%nat; trace := evs |}) /\
    v = PList [volume_full; volume_anonymous] /\
    attempts evs = 3%nat /\ slept evs = 20.
Proof.
  destruct (fetch_books_returns_items (limited_then 2 (OK page_of_two))
              (lit "Data Science") 40 start 2 page_of_two
              (PDict [ (lit "kind", PStr (lit "books#volumes"));
                       (lit "items", PList [volume_full; volume_anonymous]) ])
              ltac:(lia) (limited_then_limited 2 _) eq_refl eq_refl eq_refl eq_refl)
    as (v & evs & Hrun & Hsome & _ & Ha & Hz & _).
  exists v, evs. split; [exact Hrun|]. split; [apply Hsome; reflexivity|]. auto.
Defined.

Lemma fetch_books_propagates_failure_witness :
  exists w,
    fetch_books (limited_then 1 (Raise ConnectionError)) (lit "Data Science") 40 start
      = (Raise ConnectionError, w) /\
    sent w = 2%nat.
Proof.
  eexists. split.
  - apply (fetch_books_propagates_failure (limited_then 1 (Raise ConnectionError))
             (lit "Data Science") 40 start 1 ConnectionError
             ltac:(lia) (limited_then_limited 1 _)).
    left. reflexivity.
  - reflexivity.
Defined.

Lemma fetch_books_gives_up_after_retries_witness :
  exists evs,
    fetch_books
      (limited_then 2 (OK {| status_code := 500; json := Raise JSONDecodeError |}))
      (lit "Data Science") 40 start
      = (OK (PList []), {| sent := 3%nat; trace := evs |}) /\
    attempts evs = 3%nat /\ slept evs = 20 /\ errors_reported evs = 1%nat.
Proof.
  destruct (fetch_books_gives_up_after_retries
              (limited_then 2 (OK {| status_code := 500; json := Raise JSONDecodeError |}))
              (lit "Data Science") 40 start 2
              {| status_code := 500; json := Raise JSONDecodeError |}
              ltac:(lia) (limited_then_limited 2 _) eq_refl
              ltac:(cbn [status_code]; lia) ltac:(cbn [status_code]; lia))
    as (evs & Hrun & _ & Ha & Hz & He).
  exists evs. auto.
Defined.

Lemma fetch_books_data_only_from_200_witness :
  exists v,
    fst (fetch_books (always 404) (lit "Data Science") 40 start) = OK v /\ v = PList [].
Proof.
  exists (PList []). split; [reflexivity|].
  apply (fetch_books_data_only_from_200 (always 404) (lit "Data Science") 40 start);
    [|reflexivity].
  intros j r _ [= <-]. cbn [status_code]. lia.
Defined.

Lemma is_ebook_is_a_flag_witness :
  @transform_item ascii_only volume_odd = OK (@record_of ascii_only volume_odd) /\
  lookup_path volume_odd ["saleInfo"; "isEbook"]%string = Some (PStr (lit "false")) /\
  is_ebook (@record_of ascii_only volume_odd) = 1.
Proof.
  split; [reflexivity|]. split; [reflexivity|].
  destruct (@is_ebook_is_a_flag ascii_only volume_odd (@record_of ascii_only volume_odd)
              eq_refl) as (_ & Hv & _).
  apply (Hv (PStr (lit "false"))). reflexivity.
Defined.

Lemma published_year_shape_witness :
  published_year (@record_of ascii_only volume_full) = lit "Unknown" \/
  (length (published_year (@record_of ascii_only volume_full)) = 4%nat /\
   forallb (@ucd_digit ascii_only) (published_year (@record_of ascii_only volume_full))
   = true).
Proof.
  apply (@published_year_shape ascii_only volume_full). reflexivity.
Defined.

Lemma present_fields_are_kept_witness :
  exists df,
    @transform_data ascii_only inferring [volume_exact; volume_half] = OK df /\
    Forall2 (fun book r' =>
      forall z,
        lookup_path book ["volumeInfo"; "averageRating"]%string = Some (PInt z) ->
        average_rating r' = PInt z \/ average_rating r' = PFloat (float_of_int z))
      [volume_exact; volume_half] df.
Proof.
  destruct (@transform_data ascii_only inferring [volume_exact; volume_half])
    as [df|e] eqn:Hrun.
  - exists df. split; [reflexivity|].
    eapply Forall2_impl;
      [apply (@present_fields_are_kept ascii_only inferring _ df inferring_coerces Hrun)|].
    cbn beta. intros book r' (r & _ & Hf) z Hz.
    destruct (Hf "average_rating"%string ["volumeInfo"; "averageRating"]%string
                (PInt 0) (PInt z)) as (_ & v' & Hcell & _ & Hint & _).
    + cbn [data_model In]. tauto.
    + unfold computed_columns. cbn [In]. intros [E|[E|[E|[E|[]]]]]; discriminate E.
    + exact Hz.
    + change (Some (average_rating r') = Some v') in Hcell. injection Hcell as ->.
      apply (Hint z eq_refl).
  - exfalso. vm_compute in Hrun. discriminate Hrun.
Defined.

Lemma list_columns_are_joined_witness :
  authors (@record_of ascii_only volume_full) = lit "David A. Vise, Mark Malseed" /\
  authors (@record_of ascii_only volume_odd) = lit "A, n, n" /\
  categories (@record_of ascii_only volume_odd) = lit "N/A".
Proof.
  split; [|split].
  - destruct (@list_columns_are_joined ascii_only volume_full _ eq_refl
                "authors"%string authors "Unknown Author"%string
                ltac:(cbn [In]; tauto)) as [Hlist _].
    destruct (Hlist [lit "David A. Vise"; lit "Mark Malseed"] eq_refl) as [Hj _].
    apply Hj; discriminate.
  - destruct (@list_columns_are_joined ascii_only volume_odd _ eq_refl
                "authors"%string authors "Unknown Author"%string
                ltac:(cbn [In]; tauto)) as [_ Hstr].
    apply (Hstr (lit "Ann") eq_refl). discriminate.
  - destruct (@list_columns_are_joined ascii_only volume_odd _ eq_refl
                "categories"%string categories "N/A"%string
                ltac:(cbn [In]; tauto)) as [Hlist _].
    destruct (Hlist [[]] eq_refl) as [_ Hd].
    apply Hd. right. reflexivity.
Defined.

Lemma transform_data_fails_as_first_bad_item_witness :
  @transform_item ascii_only volume_null_authors = Raise TypeError /\
  @transform_data ascii_only inferring
    ([volume_full] ++ volume_null_authors :: [volume_anonymous])
  = Raise TypeError.
Proof.
  split; [reflexivity|].
  apply (@transform_data_fails_as_first_bad_item ascii_only inferring [volume_full]
           [volume_anonymous] volume_null_authors TypeError eq_refl eq_refl).
Defined.

Lemma save_to_database_succeeds_iff_witness :
  exists db',
    @save_to_database verbatim library
      (List.map (@record_of ascii_only) [volume_full; volume_anonymous]) = OK db'.
Proof.
  apply (proj1 (@save_to_database_succeeds_iff verbatim library one_book
                  (List.map (@record_of ascii_only) [volume_full; volume_anonymous])
                  eq_refl eq_refl)).
  split; [reflexivity|]. split; repeat constructor.
Defined.

Lemma save_to_database_rejects_repeat_witness :
  exists db',
    @save_to_database verbatim library
      (List.map (@record_of ascii_only) [volume_full; volume_anonymous]) = OK db' /\
    @save_to_database verbatim db'
      (List.map (@record_of ascii_only) [volume_full; volume_anonymous])
    = Raise (DatabaseError IntegrityError).
Proof.
  destruct (@save_to_database verbatim library
              (List.map (@record_of ascii_only) [volume_full; volume_anonymous]))
    as [db'|e] eqn:Hsave.
  - exists db'. split; [reflexivity|].
    apply (@save_to_database_rejects_repeat verbatim library db' one_book
             (List.map (@record_of ascii_only) [volume_full; volume_anonymous])
             eq_refl eq_refl Hsave).
    reflexivity.
  - exfalso. vm_compute in Hsave. discriminate Hsave.
Defined.

Lemma save_to_database_in_two_batches_witness :
  @save_to_database verbatim library
    ([@record_of ascii_only volume_full] ++ [@record_of ascii_only volume_anonymous])
  = let* db1 := @save_to_database verbatim library [@record_of ascii_only volume_full] in
    @save_to_database verbatim db1 [@record_of ascii_only volume_anonymous].
Proof.
  apply (@save_to_database_in_two_batches verbatim library one_book). reflexivity.
Defined.

Lemma save_to_database_only_appends_witness :
  exists db' new,
    @save_to_database verbatim library
      (List.map (@record_of ascii_only) [volume_full; volume_anonymous]) = OK db' /\
    db' !! "books"%string
      = Some {| tbl_schema := books_schema; tbl_rows := tbl_rows one_book ++ new |} /\
    length new = 2%nat.
Proof.
  destruct (@save_to_database verbatim library
              (List.map (@record_of ascii_only) [volume_full; volume_anonymous]))
    as [db'|e] eqn:Hsave.
  - destruct (@save_to_database_only_appends verbatim library db' _ Hsave)
      as (_ & Hbooks & _).
    destruct (Hbooks one_book eq_refl) as (new & Hnew & Hlen).
    exists db', new. auto.
  - exfalso. vm_compute in Hsave. discriminate Hsave.
Defined.

Lemma initialize_then_save_witness :
  exists db1 db2,
    initialize_database ∅ = OK db1 /\
    @save_to_database verbatim db1 frame_of_two = OK db2 /\
    db2 !! "books"%string
      = Some {| tbl_schema := books_schema;
                tbl_rows := List.map (@row_of verbatim) frame_of_two |}.
Proof.
  destruct (@initialize_then_save verbatim ∅ frame_of_two) as [_ Hrun].
  destruct Hrun as (db1 & db2 & Hinit & Hsave & Hbooks & _).
  - reflexivity.
  - vm_compute. reflexivity.
  - vm_compute. split; repeat constructor.
  - exists db1, db2. auto.
Defined.

(** The keys that matter are those of the frame: the identifiers
    2^53 + 1 and 2^53.0 of two volumes differ, and their rows as the loop
    builds them could be stored side by side; in the frame both are the
    float 2^53, and the append fails on the second. *)
Lemma append_clash_after_conversion :
  forallb storable (List.map (@record_of ascii_only) [volume_id_exact; volume_id_float])
    = true /\
  no_clash (table_keys one_book)
    (@frame_keys verbatim
       (List.map (@record_of ascii_only) [volume_id_exact; volume_id_float])) /\
  (let* df := @transform_data ascii_only inferring [volume_id_exact; volume_id_float] in
   @save_to_database verbatim library df)
  = Raise (DatabaseError IntegrityError).
Proof.
  split; [reflexivity|]. split; [|vm_compute; reflexivity].
  vm_compute. split; repeat constructor.
Qed.

Lemma on_search_without_data_witness :
  exists w' evs,
    @on_search ascii_only inferring verbatim (always 403) (lit "Data Science")
      {| file := library; net := start; successes := [] |}
      = (OK tt, {| file := library; net := w'; successes := [] |}) /\
    trace w' = evs ++ [StError "No books found. Please try a different search term."].
Proof.
  destruct (@on_search_without_data ascii_only verbatim inferring (always 403)
              (lit "Data Science")
              {| file := library; net := start; successes := [] |})
    as (w' & evs & Hrun & Htrace).
  - left. apply always_403_limited.
  - exists w', evs. auto.
Defined.

Lemma on_search_saves_the_frame_witness :
  exists a',
    @on_search ascii_only inferring verbatim (limited_then 1 (OK page_of_two))
      (lit "Data Science")
      {| file := library; net := start; successes := [] |} = (OK tt, a') /\
    successes a' = ["Fetched and saved 2 books to the database."]%string /\
    exists t', file a' !! "books"%string = Some t' /\ length (tbl_rows t') = 3%nat.
Proof.
  assert (Hframe : @data_frame inferring
                     (List.map (@record_of ascii_only) [volume_full; volume_anonymous])
                   = OK frame_of_two).
  { vm_compute. reflexivity. }
  assert (Hst : forallb storable frame_of_two = true).
  { vm_compute. reflexivity. }
  assert (Hkeys : no_clash (table_keys one_book) (@frame_keys verbatim frame_of_two)).
  { vm_compute. split; repeat constructor. }
  destruct (@on_search_saves_the_frame ascii_only verbatim inferring
              (limited_then 1 (OK page_of_two)) (lit "Data Science")
              {| file := library; net := start; successes := [] |}
              1 page_of_two
              (PDict [ (lit "kind", PStr (lit "books#volumes"));
                       (lit "items", PList [volume_full; volume_anonymous]) ])
              [volume_full; volume_anonymous] one_book frame_of_two
              ltac:(lia) (limited_then_limited 1 _) eq_refl eq_refl eq_refl eq_refl
              ltac:(discriminate) eq_refl Hframe eq_refl eq_refl Hst Hkeys)
    as (a' & evs & Hrun & Hbooks & _ & Hmsg & _).
  exists a'. split; [exact Hrun|]. split; [exact Hmsg|].
  eexists. split; [exact Hbooks|]. reflexivity.
Defined.


(** ** Transformer: what an item is read for *)




Section TransformerReads.
Context `{Unicode}.



End TransformerReads.


(** ** QueryCatalog: selection by name *)

Lemma catalog_get_In (cat : list (string * string)) (name q : string) :
  catalog_get name cat = Some q -> In (name, q) cat.
Proof.
  induction cat as [|[n q'] cat IH]; cbn [catalog_get In]; [discriminate|].
  destruct (decide (n = name)) as [->|_]; [intros [= ->]; auto|auto].
Qed.

Lemma catalog_get_NoDup (cat : list (string * string)) (name q : string) :
  NoDup (List.map fst cat) -> In (name, q) cat -> catalog_get name cat = Some q.
Proof.
  induction cat as [|[n q'] cat IH]; cbn [catalog_get In List.map fst]; [tauto|].
  intros Hnd. apply NoDup_cons in Hnd as [Hn Hnd].
  intros [[= -> ->]|Hin].
  - destruct (decide (name = name)); [reflexivity|congruence].
  - destruct (decide (n = name)) as [->|_]; [|apply IH; assumption].
    exfalso. apply Hn. apply list_elem_of_In, in_map_iff. exists (name, q). auto.
Qed.

Lemma catalog_get_None (cat : list (string * string)) (name : string) :
  catalog_get name cat = None <-> ~ In name (List.map fst cat).
Proof.
  induction cat as [|[n q'] cat IH]; cbn [catalog_get In List.map fst]; [tauto|].
  destruct (decide (n = name)) as [->|Hne]; [split; [discriminate|tauto]|].
  rewrite IH. tauto.
Qed.

(** X21: selecting an analysis by its name gives the statement written
    next to that name and no other: no name of the catalogue is shadowed
    by another entry; a name that is not in the catalogue selects
    nothing. *)
Theorem catalog_selection :
  (forall name q, catalog_get name queries = Some q <-> In (name, q) queries) /\
  (forall name, catalog_get name queries = None <-> ~ In name (List.map fst queries)) /\
  (forall name, In name (List.map fst queries) ->
     exists q, catalog_get name queries = Some q /\ is_select q = true).
Proof.
  assert (Hnd : NoDup (List.map fst queries)).
  { apply (bool_decide_unpack _). vm_compute. exact I. }
  split; [|split].
  - intros name q. split; [apply catalog_get_In|apply catalog_get_NoDup, Hnd].
  - intros name. apply catalog_get_None.
  - intros name Hin. apply in_map_iff in Hin as ([n q] & <- & Hin). cbn [fst].
    exists q. split; [apply catalog_get_NoDup; assumption|].
    assert (Hsel : forallb (fun e => is_select (snd e)) queries = true)
      by (vm_compute; reflexivity).
    apply (proj1 (List.forallb_forall _ _) Hsel (n, q) Hin).
Qed.

(** ** Store and QueryCatalog together *)

Section StoreThenQuery.
Context `{Backend}.


End StoreThenQuery.

